(** * Python-Image-Formatter: the compositor of [image_formatter.py] (command
    line) and [app.py] (web upload), embedded shallowly.

    Layout of the development:
    - [PyFloat]   : Python's [float] arithmetic as used by [app.py]
                    (binary64, round to nearest, ties to even);
    - [PyStr]     : the [str] methods used by [parse_color];
    - [PIL]       : the part of Pillow the two programs call;
    - [Cli], [Web]: the functions of [image_formatter.py] and [app.py];
    - theorems. *)

From Stdlib Require Import ZArith Lia Bool List.
From Stdlib Require Import SpecFloat.
From Stdlib Require Import QArith Qround Qminmax.
From Stdlib Require Import Ascii String.
From stdpp Require Import base option strings pretty gmap.

Local Open Scope Z_scope.

(* ===================================================================== *)
(** ** Python floats                                                      *)
(* ===================================================================== *)

Module PyFloat.

(** A finite binary floating point number [mant * 2 ^ expo].  The
    representation is not canonical; every operation below goes through
    [num] and [den], the value as a fraction with a positive denominator. *)
Record float := mk_float { mant : Z; expo : Z }.

Definition pow2 (k : Z) : Z := 2 ^ Z.max k 0.

Definition num (f : float) : Z := mant f * pow2 (expo f).
Definition den (f : float) : Z := pow2 (- expo f).

(** Precision of binary64. *)
Definition prec : Z := 53.

(** Quotient [N / D] rounded to the nearest integer, ties to even. *)
Definition round_half_even (N D : Z) : Z :=
  let q := N / D in
  let r := N mod D in
  match 2 * r ?= D with
  | Lt => q
  | Gt => q + 1
  | Eq => if Z.even q then q else q + 1
  end.

(** The exponent [e] of the float nearest to [n / d], for [0 < n] and
    [0 < d]: the one with [2^52 <= (n/d) / 2^e < 2^53]. *)
Definition rnd_exp (n d : Z) : Z :=
  let e0 := Z.log2 n - Z.log2 d - prec in
  if d * pow2 e0 * 2 ^ prec <=? n * pow2 (- e0) then e0 + 1 else e0.

(** [n / d] rounded to [prec] significant bits, for [0 < n] and [0 < d].
    The exponent range of binary64 is not modelled: the quotients and
    products of this program stay far from overflow and underflow. *)
Definition rnd_pos (n d : Z) : float :=
  let e := rnd_exp n d in
  mk_float (round_half_even (n * pow2 (- e)) (d * pow2 e)) e.

Definition fneg (f : float) : float := mk_float (- mant f) (expo f).

(** The fraction [n / d] ([0 < d]) rounded to the nearest float. *)
Definition rnd (n d : Z) : float :=
  match n ?= 0 with
  | Eq => mk_float 0 0
  | Gt => rnd_pos n d
  | Lt => fneg (rnd_pos (- n) d)
  end.

(** [float(n)] for a Python [int]. *)
Definition of_int (n : Z) : float := rnd n 1.

(** [a / b] on two Python ints: the correctly rounded quotient, or
    [ZeroDivisionError] ([None]). *)
Definition truediv (a b : Z) : option float :=
  if b =? 0 then None else Some (rnd (a * Z.sgn b) (Z.abs b)).

(** [f * g] on floats. *)
Definition fmul (f g : float) : float :=
  rnd (mant f * mant g * pow2 (expo f + expo g)) (pow2 (- (expo f + expo g))).

(** [n * f] with [n] an int: Python converts [n] to float first. *)
Definition mul_int_float (n : Z) (f : float) : float := fmul (of_int n) f.

(** [f < g]. *)
Definition flt (f g : float) : bool := num f * den g <? num g * den f.

(** [min(f, g)]: the first argument unless the second is smaller. *)
Definition fmin (f g : float) : float := if flt g f then g else f.

(** [int(f)]: truncation towards zero. *)
Definition to_int (f : float) : Z := Z.quot (num f) (den f).

(** *** Cross-check against the Standard Library's specification of
    binary64 ([SpecFloat], precision 53, maximal exponent 1024). *)

Definition sf_of_int (n : Z) : spec_float :=
  binary_normalize 53 1024 n 0 false.

Definition of_spec (s : spec_float) : option float :=
  match s with
  | S754_zero _ => Some (mk_float 0 0)
  | S754_finite sg m e =>
      Some (mk_float (if sg then Z.neg m else Z.pos m) e)
  | _ => None
  end.

Definition same_as_spec (f : float) (s : spec_float) : bool :=
  match of_spec s with
  | Some g => num f * den g =? num g * den f
  | None => false
  end.

(** Do [canvas_size / w] and [h * (canvas_size / w)] agree with binary64? *)
Definition agrees_with_binary64 (canvas_size w h : Z) : bool :=
  match truediv canvas_size w with
  | Some f =>
      let q := SFdiv 53 1024 (sf_of_int canvas_size) (sf_of_int w) in
      same_as_spec f q &&
      same_as_spec (mul_int_float h f) (SFmul 53 1024 (sf_of_int h) q)
  | None => false
  end.

(** The integers [lo, lo + 1, ..., lo + n - 1]. *)
Fixpoint count_up (lo : Z) (n : nat) : list Z :=
  match n with
  | O => []
  | S n' => lo :: count_up (lo + 1) n'
  end.

End PyFloat.

Import PyFloat.

(* ===================================================================== *)
(** ** Python strings and [pathlib] paths                                 *)
(* ===================================================================== *)

(** A Python [str] is modelled by the sequence of its code points, all
    taken to be below 256. *)
Module PyStr.

Definition code (c : ascii) : Z := Z.of_N (N_of_ascii c).

(** [str.isspace] of one character: TAB..CR, FS..US, the space, NEL
    (U+0085) and the no-break space (U+00A0). *)
Definition is_space (c : ascii) : bool :=
  ((9 <=? code c) && (code c <=? 13)) || ((28 <=? code c) && (code c <=? 32))
  || (code c =? 133) || (code c =? 160).

Fixpoint lstrip_chars (l : list ascii) : list ascii :=
  match l with
  | c :: l' => if is_space c then lstrip_chars l' else l
  | [] => []
  end.

Definition rstrip_chars (l : list ascii) : list ascii :=
  rev (lstrip_chars (rev l)).

(** [s.strip()] *)
Definition strip (s : string) : string :=
  string_of_list_ascii (rstrip_chars (lstrip_chars (list_ascii_of_string s))).

(** [s.startswith(p)] *)
Definition startswith (s p : string) : bool := String.prefix p s.

(** [len(s)] *)
Definition len (s : string) : Z := Z.of_nat (String.length s).

(** [s[i:j]] for [0 <= i <= j]. *)
Definition slice (s : string) (i j : Z) : string :=
  String.substring (Z.to_nat i) (Z.to_nat (j - i)) s.

(** [s[i:]] for [0 <= i]. *)
Definition slice_from (s : string) (i : Z) : string :=
  String.substring (Z.to_nat i) (String.length s - Z.to_nat i) s.

(** Upper-case letters: A..Z and, beyond ASCII, U+00C0..U+00DE without the
    multiplication sign. *)
Definition lower_char (c : ascii) : ascii :=
  if ((65 <=? code c) && (code c <=? 90)) ||
     ((192 <=? code c) && (code c <=? 222) && negb (code c =? 215))
  then ascii_of_N (N_of_ascii c + 32) else c.

(** [s.lower()] *)
Definition lower (s : string) : string :=
  string_of_list_ascii (map lower_char (list_ascii_of_string s)).

(** Index of the last occurrence of [c], as [str.rfind] ([None] for -1). *)
Fixpoint rfind_chars (c : ascii) (l : list ascii) (i : Z) : option Z :=
  match l with
  | [] => None
  | a :: l' =>
      match rfind_chars c l' (i + 1) with
      | Some j => Some j
      | None => if Ascii.eqb a c then Some i else None
      end
  end.

Definition rfind (s : string) (c : ascii) : option Z :=
  rfind_chars c (list_ascii_of_string s) 0.

(** Value of a digit in bases up to 36. *)
Definition digit_value (c : ascii) : option Z :=
  let n := code c in
  if (48 <=? n) && (n <=? 57) then Some (n - 48)
  else if (97 <=? n) && (n <=? 122) then Some (n - 87)
  else if (65 <=? n) && (n <=? 90) then Some (n - 55)
  else None.

(** The digit loop of [int(s, 16)]: hexadecimal digits, single underscores
    between them, no trailing underscore.  Returns the value, the number
    of digits and the unread rest. *)
Fixpoint scan_digits16 (prev_underscore : bool) (ndigits : nat) (acc : Z)
    (l : list ascii) : option (Z * nat * list ascii) :=
  match l with
  | [] => if prev_underscore then None else Some (acc, ndigits, [])
  | c :: l' =>
      if Ascii.eqb c "_" then
        if prev_underscore then None
        else scan_digits16 true ndigits acc l'
      else
        match digit_value c with
        | Some d =>
            if d <? 16 then scan_digits16 false (S ndigits) (acc * 16 + d) l'
            else if prev_underscore then None else Some (acc, ndigits, l)
        | None => if prev_underscore then None else Some (acc, ndigits, l)
        end
  end.

(** The white space [int] skips around the digits: that of the C locale
    (TAB..CR and the space), and the white space beyond ASCII, which [int]
    turns into spaces first.  FS..US are not skipped. *)
Definition is_int_space (c : ascii) : bool :=
  ((9 <=? code c) && (code c <=? 13)) || (code c =? 32)
  || (code c =? 133) || (code c =? 160).

Fixpoint skip_int_space (l : list ascii) : list ascii :=
  match l with
  | c :: l' => if is_int_space c then skip_int_space l' else l
  | [] => []
  end.

(** [int(s, 16)]; [None] stands for [ValueError].  Surrounding white space,
    one sign and the prefix [0x] / [0X] (optionally followed by one
    underscore) are accepted, as CPython does. *)
Definition int16 (s : string) : option Z :=
  let l := skip_int_space (list_ascii_of_string s) in
  let '(sign, l) :=
    match l with
    | c :: l' =>
        if Ascii.eqb c "+" then (1, l')
        else if Ascii.eqb c "-" then (-1, l')
        else (1, l)
    | [] => (1, l)
    end in
  let l :=
    match l with
    | z :: x :: l' =>
        if Ascii.eqb z "0" && (Ascii.eqb x "x" || Ascii.eqb x "X") then
          match l' with
          | u :: l'' => if Ascii.eqb u "_" then l'' else l'
          | [] => l'
          end
        else l
    | _ => l
    end in
  match l with
  | c :: _ => if Ascii.eqb c "_" then None else
      match scan_digits16 false 0 0 l with
      | Some (v, S _, rest) =>
          match skip_int_space rest with
          | [] => Some (sign * v)
          | _ => None
          end
      | _ => None
      end
  | [] => None
  end.

(** [str(n)] for an int. *)
Definition str_of_int (n : Z) : string := pretty n.

Definition double_quote : ascii := ascii_of_nat 34.
Definition single_quote : ascii := ascii_of_nat 39.
Definition backslash : ascii := ascii_of_nat 92.

Definition hex_digit (n : Z) : ascii :=
  ascii_of_N (Z.to_N (if n <? 10 then 48 + n else 87 + n)).

(** [str.isprintable] of one character: not a control character (U+0000..
    U+001F, U+007F..U+009F), not the no-break space, not the soft hyphen. *)
Definition is_printable (c : ascii) : bool :=
  ((32 <=? code c) && (code c <? 127)) ||
  ((161 <=? code c) && negb (code c =? 173)).

Definition escaped (c : ascii) : string := String backslash (String c "").

Definition repr_char (quote c : ascii) : string :=
  if Ascii.eqb c quote || Ascii.eqb c backslash then escaped c
  else if code c =? 9 then escaped "t"
  else if code c =? 10 then escaped "n"
  else if code c =? 13 then escaped "r"
  else if is_printable c then String c ""
  else String backslash
         (String "x" (String (hex_digit (code c / 16))
                        (String (hex_digit (code c mod 16)) ""))).

(** [repr(s)]: in single quotes, or in double quotes when [s] holds a
    single quote and no double quote; the quote, the backslash and what
    is not printable are escaped. *)
Definition repr (s : string) : string :=
  let l := list_ascii_of_string s in
  let quote :=
    if existsb (Ascii.eqb single_quote) l &&
       negb (existsb (Ascii.eqb double_quote) l)
    then double_quote else single_quote in
  String quote
    (fold_right (fun c r => String.append (repr_char quote c) r)
       (String quote "") l).

End PyStr.

(** [pathlib.Path], as the list of its components. *)
Module PyPath.

Definition Path : Type := list string.

(** [p.name] *)
Definition name (p : Path) : string := List.last p ""%string.

(** [p.suffix]: the part of the name from its last dot on, when that dot is
    neither the first nor the last character of the name. *)
Definition suffix (p : Path) : string :=
  let n := name p in
  match PyStr.rfind n "." with
  | Some i => if (0 <? i) && (i <? PyStr.len n - 1)
              then PyStr.slice_from n i else ""%string
  | None => ""%string
  end.

(** [p.stem] *)
Definition stem (p : Path) : string :=
  let n := name p in
  match PyStr.rfind n "." with
  | Some i => if (0 <? i) && (i <? PyStr.len n - 1)
              then PyStr.slice n 0 i else n
  | None => n
  end.

(** [p.parent] *)
Definition parent (p : Path) : Path := removelast p.

(** [p / n] and [os.path.join(p, n)] for a single component [n]. *)
Definition joinpath (p : Path) (n : string) : Path := p ++ [n].

End PyPath.

Import PyPath.
Local Open Scope string_scope.
Local Open Scope Z_scope.

(* ===================================================================== *)
(** ** Exceptions, the world and the monad of effects                     *)
(* ===================================================================== *)

(** A Python exception (every one here derives from [Exception]). *)
Record Exn := mk_exn { exn_class : string; exn_msg : string }.

Definition ValueError (msg : string) : Exn := mk_exn "ValueError" msg.
Definition ZeroDivisionError : Exn := mk_exn "ZeroDivisionError" "division by zero".
Definition OSError (cls msg : string) : Exn := mk_exn cls msg.
Definition OverflowError (msg : string) : Exn := mk_exn "OverflowError" msg.

(** How a computation ends: a value, a raised exception, or [sys.exit]. *)
Inductive Outcome (A : Type) : Type :=
| Ret (a : A)
| Raise (e : Exn)
| Exit (status : Z).
Arguments Ret {A} a.
Arguments Raise {A} e.
Arguments Exit {A} status.

(** Pixels are tuples of band values, as [Image.getpixel] returns them. *)
Definition Pixel : Type := list Z.

(** Values found in [image.info] and in the keyword arguments of [save]. *)
Inductive InfoValue :=
| IBytes (b : string)
| IInt (n : Z)
| ITuple (l : list Z)
| IBool (b : bool)
| IStr (s : string).

(** Truth value of an optional dictionary entry ([if exif:]). *)
Definition truthy (v : option InfoValue) : bool :=
  match v with
  | None => false
  | Some (IBytes b) => negb (String.eqb b "")
  | Some (IInt n) => negb (n =? 0)
  | Some (ITuple l) => match l with [] => false | _ => true end
  | Some (IBool b) => b
  | Some (IStr s) => negb (String.eqb s "")
  end.

(** What [image.getexif()] yields: an error for unreadable EXIF data, or
    the value of the orientation tag (0x0112) when there is one. *)
Inductive ExifRead :=
| ExifError (e : Exn)
| ExifTags (orientation : option Z).

(** A Pillow image. *)
Record Image := mk_image {
  width : Z;
  height : Z;
  mode : string;
  info : gmap string InfoValue;
  getexif : ExifRead;
  getpixel : Z -> Z -> Pixel
}.

(** File contents: an encoded image (what it decodes to, the format and
    the encoder parameters), or bytes that no decoder of Pillow accepts. *)
Inductive FileData :=
| Encoded (format : string) (params : gmap string InfoValue) (im : Image)
| Undecodable.

(** A directory, a regular file, or a ZIP archive with its members. *)
Inductive Node :=
| Directory
| File (data : FileData)
| ZipFile (entries : list (string * FileData)).

Inductive Level := INFO | WARNING | ERROR.

(** Arguments interpolated into a log message. *)
Inductive Arg :=
| AInt (n : Z)
| AStr (s : string)
| APath (p : Path)
| AExn (e : Exn).

(** One record of the logger: the f-string with [{}] for each hole and the
    values that fill the holes. *)
Record LogRecord := mk_log { log_level : Level; log_text : string; log_args : list Arg }.

Inductive IOEvent :=
| Opened (p : Path)      (* Image.open(p) *)
| Saved (p : Path)       (* image.save(p, ...) completed *)
| Uploaded (p : Path).   (* file.save(p) of an upload completed *)

Record World := mk_world {
  fs : gmap Path Node;
  log : list LogRecord;
  io : list IOEvent
}.

Definition M (A : Type) : Type := World -> Outcome A * World.

Definition ret {A} (a : A) : M A := fun w => (Ret a, w).

Definition bind {A B} (m : M A) (k : A -> M B) : M B := fun w =>
  match m w with
  | (Ret a, w') => k a w'
  | (Raise e, w') => (Raise e, w')
  | (Exit s, w') => (Exit s, w')
  end.

Definition raise {A} (e : Exn) : M A := fun w => (Raise e, w).

(** [sys.exit(status)] *)
Definition sys_exit {A} (status : Z) : M A := fun w => (Exit status, w).

Definition lift {A} (o : Outcome A) : M A := fun w => (o, w).

(** [try: m  except Exception as e: handler e] *)
Definition try_except {A} (m : M A) (handler : Exn -> M A) : M A := fun w =>
  match m w with
  | (Raise e, w') => handler e w'
  | r => r
  end.

(** [try: m  except cls as e: handler e] for a class without subclasses
    in this program. *)
Definition try_except_class {A} (cls : string) (m : M A) (handler : Exn -> M A)
  : M A := fun w =>
  match m w with
  | (Raise e, w') =>
      if String.eqb (exn_class e) cls then handler e w' else (Raise e, w')
  | r => r
  end.

(** [try: m  finally: cleanup] *)
Definition try_finally {A} (m : M A) (cleanup : M unit) : M A := fun w =>
  match m w with
  | (r, w') =>
      match cleanup w' with
      | (Ret _, w'') => (r, w'')
      | (Raise e, w'') => (Raise e, w'')
      | (Exit s, w'') => (Exit s, w'')
      end
  end.

Declare Scope py_scope.
Delimit Scope py_scope with py.
Notation "'let*' x := m 'in' k" := (bind m (fun x => k))
  (at level 10, x name, m at level 100, k at level 200) : py_scope.
Notation "'let*' ' p := m 'in' k" := (bind m (fun x => let 'p := x in k))
  (at level 10, p pattern, m at level 100, k at level 200) : py_scope.
Local Open Scope py_scope.

Definition get_world : M World := fun w => (Ret w, w).

Definition set_fs (f : gmap Path Node) : M unit := fun w =>
  (Ret tt, mk_world f (log w) (io w)).

Definition emit (ev : IOEvent) : M unit := fun w =>
  (Ret tt, mk_world (fs w) (log w) (io w ++ [ev])%list).

Definition logger (lvl : Level) (text : string) (args : list Arg) : M unit :=
  fun w => (Ret tt, mk_world (fs w) (log w ++ [mk_log lvl text args])%list (io w)).

Definition logger_info := logger INFO.
Definition logger_warning := logger WARNING.
Definition logger_error := logger ERROR.

(** [for x in l: body], threading an accumulator. *)
Fixpoint for_each {A S : Type} (l : list A) (body : A -> S -> M S) (s : S)
  : M S :=
  match l with
  | [] => ret s
  | x :: l' => let* s' := body x s in for_each l' body s'
  end.

(** *** The file system *)

Definition path_exists (f : gmap Path Node) (p : Path) : bool :=
  match p with [] => true | _ => bool_decide (is_Some (f !! p)) end.

Definition is_dir (f : gmap Path Node) (p : Path) : bool :=
  match p with
  | [] => true
  | _ => match f !! p with Some Directory => true | _ => false end
  end.

Definition is_file (f : gmap Path Node) (p : Path) : bool :=
  match f !! p with
  | Some (File _) | Some (ZipFile _) => true
  | _ => false
  end.

(** [p.mkdir(parents=True, exist_ok=True)]: creates [p] and its missing
    ancestors; fails where a regular file is in the way. *)
Fixpoint mkdir_prefixes (f : gmap Path Node) (done todo : Path)
  : Outcome (gmap Path Node) :=
  match todo with
  | [] => Ret f
  | c :: todo' =>
      let p := (done ++ [c])%list in
      match f !! p with
      | Some Directory => mkdir_prefixes f p todo'
      | Some _ =>
          Raise (OSError (match todo' with
                          | [] => "FileExistsError"
                          | _ => "NotADirectoryError" end) "")
      | None => mkdir_prefixes (<[p := Directory]> f) p todo'
      end
  end.

Definition mkdir_parents (p : Path) : M unit :=
  let* w := get_world in
  let* f := lift (mkdir_prefixes (fs w) [] p) in
  set_fs f.

(** The entries of directory [d], as [os.listdir] / [Path.iterdir] list
    them (in some order). *)
Definition listdir (f : gmap Path Node) (d : Path) : list Path :=
  filter (fun p => p <> [] /\ parent p = d) (map fst (map_to_list f)).

(** [shutil.rmtree(d, ignore_errors=True)] *)
Definition rmtree (d : Path) : M unit :=
  let* w := get_world in
  set_fs (filter (fun kv => ~ (d `prefix_of` fst kv)) (fs w)).

(* ===================================================================== *)
(** ** Pillow, as far as the two programs use it                          *)
(* ===================================================================== *)

(** Results of the libraries that the programs pass on without looking at
    them.  Everything below is parametric in these. *)
Record External := mk_external {
  (** [Image.convert] between modes other than the common ones spelled
      out in [known_conversion]: the converted pixels or an error. *)
  convert_other : string -> Image -> Outcome (Z -> Z -> Pixel);
  (** pixel at [(x, y)] of the image resampled to the given size *)
  resample : Image -> Z * Z -> Z -> Z -> Pixel;
  (** [Exif.tobytes()] once the orientation tag is deleted *)
  exif_tobytes : InfoValue -> InfoValue;
  (** an encoder or I/O error on [save], if any *)
  encode_error : string -> gmap string InfoValue -> Image -> option Exn;
  (** the error of [Image.new] when the store for an image of the given
      mode and size cannot be allocated ([MemoryError]), if any *)
  alloc_error : string -> Z * Z -> option Exn;
  (** [werkzeug.utils.secure_filename] *)
  secure_filename : string -> string
}.

Module PIL.
Section Pillow.
Context (ext : External).

Definition clip8 (v : Z) : Z := Z.max 0 (Z.min 255 v).

(** An extent handed to the C code of Pillow has to fit a C [int]. *)
Definition c_int_error (v : Z) : option Exn :=
  if 2 ^ 63 <=? v
  then Some (OverflowError "Python int too large to convert to C long")
  else if 2 ^ 31 <=? v
  then Some (OverflowError "signed integer is greater than maximum")
  else None.

(** [Image.new(mode, size, color)]: the size is checked for sign, both
    extents are converted to C [int] (the width first), the store is
    allocated and filled with the colour. *)
Definition new (m : string) (size : Z * Z) (color : Pixel) : Outcome Image :=
  if (fst size <? 0) || (snd size <? 0)
  then Raise (ValueError "Width and height must be >= 0")
  else
    match c_int_error (fst size), c_int_error (snd size) with
    | Some e, _ => Raise e
    | None, Some e => Raise e
    | None, None =>
        match alloc_error ext m size with
        | Some e => Raise e
        | None =>
            Ret (mk_image (fst size) (snd size) m ∅ (ExifTags None)
                   (fun _ _ => map clip8 color))
        end
    end.

Definition with_pixels (im : Image) (px : Z -> Z -> Pixel) : Image :=
  mk_image (width im) (height im) (mode im) (info im) (getexif im) px.

(** Conversions into the two canvas modes from images without a
    [transparency] entry. *)
Definition known_conversion (src dst : string) : option (Pixel -> Pixel) :=
  if String.eqb src "L" && String.eqb dst "RGB" then
    Some (fun px => match px with [v] => [v; v; v] | _ => px end)
  else if String.eqb src "L" && String.eqb dst "RGBA" then
    Some (fun px => match px with [v] => [v; v; v; 255] | _ => px end)
  else if String.eqb src "LA" && String.eqb dst "RGBA" then
    Some (fun px => match px with [l; a] => [l; l; l; a] | _ => px end)
  else if String.eqb src "RGB" && String.eqb dst "RGBA" then
    Some (fun px => match px with [r; g; b] => [r; g; b; 255] | _ => px end)
  else None.

(** The first three bytes of the four that store a pixel of a mode with
    alpha: what ends up in an RGB canvas when no conversion is made. *)
Definition raw_rgb (m : string) (px : Pixel) : Pixel :=
  if String.eqb m "LA"
  then match px with [l; _] => [l; l; l] | _ => px end
  else take 3 px.

Definition has_transparency (im : Image) : bool :=
  bool_decide (is_Some (info im !! "transparency")).

(** The pixels [Image.paste] copies from [im] into a canvas of mode
    [canvas_mode]: [im] itself when the modes agree, its raw bytes for an
    RGB canvas and a source with alpha, [im.convert(canvas_mode)] else. *)
Definition source_pixels (canvas_mode : string) (im : Image)
  : Outcome (Z -> Z -> Pixel) :=
  if String.eqb (mode im) canvas_mode then Ret (getpixel im)
  else if String.eqb canvas_mode "RGB" &&
          (String.eqb (mode im) "LA" || String.eqb (mode im) "RGBA"
           || String.eqb (mode im) "RGBa")
  then Ret (fun x y => raw_rgb (mode im) (getpixel im x y))
  else
    match (if has_transparency im then None
           else known_conversion (mode im) canvas_mode) with
    | Some f => Ret (fun x y => f (getpixel im x y))
    | None => convert_other ext canvas_mode im
    end.

(** How a mask acts, by its mode. *)
Inductive MaskKind := MaskBit | MaskLinear | MaskPremultiplied.

(** The modes [Image.paste] accepts for a mask, with the band that holds
    the mask value; any other mode is a "bad transparency mask". *)
Definition mask_kind (m : string) : option (MaskKind * nat) :=
  if String.eqb m "1" then Some (MaskBit, 0%nat)
  else if String.eqb m "L" then Some (MaskLinear, 0%nat)
  else if String.eqb m "LA" then Some (MaskLinear, 1%nat)
  else if String.eqb m "RGBA" then Some (MaskLinear, 3%nat)
  else if String.eqb m "RGBa" then Some (MaskPremultiplied, 3%nat)
  else None.

(** [a / 255] rounded, the way the C code computes it. *)
Definition div255 (a : Z) : Z :=
  let t := a + 128 in Z.shiftr (Z.shiftr t 8 + t) 8.

(** One band of a masked paste: [out] is the canvas, [inp] the source. *)
Definition blend8 (maskv out inp : Z) : Z :=
  div255 (out * (255 - maskv) + inp * maskv).

Definition preblend8 (maskv out inp : Z) : Z :=
  (div255 (out * (255 - maskv)) + inp) mod 256.

Definition blend (kind : MaskKind) (maskv : Z) (out inp : Pixel) : Pixel :=
  match kind with
  | MaskBit => if maskv =? 0 then out else inp
  | MaskLinear => zip_with (blend8 maskv) out inp
  | MaskPremultiplied => zip_with (preblend8 maskv) out inp
  end.

(** Is [(cx, cy)] inside the box of [im] pasted at [box]? *)
Definition inside (box : Z * Z) (im : Image) (cx cy : Z) : bool :=
  (fst box <=? cx) && (cx <? fst box + width im) &&
  (snd box <=? cy) && (cy <? snd box + height im).

(** [canvas.paste(im, box)] and [canvas.paste(im, box, mask)]: the canvas
    after the call (the model returns the updated canvas). *)
Definition paste (canvas im : Image) (box : Z * Z) (mask : option Image)
  : Outcome Image :=
  match source_pixels (mode canvas) im with
  | Ret src =>
      match mask with
      | None =>
          Ret (with_pixels canvas (fun cx cy =>
                 if inside box im cx cy
                 then src (cx - fst box) (cy - snd box)
                 else getpixel canvas cx cy))
      | Some m =>
          match mask_kind (mode m) with
          | Some (kind, band) =>
              Ret (with_pixels canvas (fun cx cy =>
                     if inside box im cx cy
                     then blend kind
                            (nth band (getpixel m (cx - fst box) (cy - snd box)) 0)
                            (getpixel canvas cx cy)
                            (src (cx - fst box) (cy - snd box))
                     else getpixel canvas cx cy))
          | None => Raise (ValueError "bad transparency mask")
          end
      end
  | Raise e => Raise e
  | Exit s => Exit s
  end.

(** [image.resize(size, Image.Resampling.LANCZOS)] *)
Definition resize (im : Image) (size : Z * Z) : Outcome Image :=
  if (fst size =? width im) && (snd size =? height im) then Ret im
  else if (fst size <? 1) || (snd size <? 1)
  then Raise (ValueError "height and width must be > 0")
  else Ret (mk_image (fst size) (snd size) (mode im) (info im) (getexif im)
              (resample ext im size)).

(** [image.transpose(method)] for the method that belongs to EXIF
    orientation [o]; [None] when the orientation asks for nothing. *)
Definition transpose_for (o : Z) (im : Image) : option Image :=
  let w := width im in
  let h := height im in
  let g := getpixel im in
  let same px := Some (with_pixels im px) in
  let swapped px :=
    Some (mk_image h w (mode im) (info im) (getexif im) px) in
  match o with
  | 2 => same (fun x y => g (w - 1 - x) y)              (* FLIP_LEFT_RIGHT *)
  | 3 => same (fun x y => g (w - 1 - x) (h - 1 - y))    (* ROTATE_180 *)
  | 4 => same (fun x y => g x (h - 1 - y))              (* FLIP_TOP_BOTTOM *)
  | 5 => swapped (fun x y => g y x)                     (* TRANSPOSE *)
  | 6 => swapped (fun x y => g y (h - 1 - x))           (* ROTATE_270 *)
  | 7 => swapped (fun x y => g (w - 1 - y) (h - 1 - x)) (* TRANSVERSE *)
  | 8 => swapped (fun x y => g (w - 1 - y) x)           (* ROTATE_90 *)
  | _ => None
  end.

(** [ImageOps.exif_transpose(image)]: reading the EXIF data may fail; an
    orientation 2..8 transposes the image and removes the tag (the
    [exif] blob is written anew); otherwise a copy is returned. *)
Definition exif_transpose (image : Image) : Outcome Image :=
  match getexif image with
  | ExifError e => Raise e
  | ExifTags o =>
      match transpose_for (default 1 o) image with
      | Some t =>
          Ret (mk_image (width t) (height t) (mode t)
                 (match info t !! "exif" with
                  | Some v => <["exif" := exif_tobytes ext v]> (info t)
                  | None => info t
                  end)
                 (ExifTags None) (getpixel t))
      | None => Ret image
      end
  end.

(** [Image.open(p)].  An [Encoded] file stands for one that Pillow
    decodes; its refusal of a file for the number of its pixels (above
    178956970, [DecompressionBombError]) lies outside this model. *)
Definition open (p : Path) : M Image := fun w =>
  let w' := mk_world (fs w) (log w) (io w ++ [Opened p])%list in
  match fs w !! p with
  | Some (File (Encoded _ _ im)) => (Ret im, w')
  | Some (File Undecodable) | Some (ZipFile _) =>
      (Raise (OSError "UnidentifiedImageError" "cannot identify image file"), w')
  | Some Directory => (Raise (OSError "IsADirectoryError" ""), w')
  | None => (Raise (OSError "FileNotFoundError" ""), w')
  end.

(** [im.save(p, format, **params)].  Nothing is written when the
    directory is missing or [p] is a directory; an encoder error leaves no
    new file behind, and spoils a file that was there before. *)
Definition save (im : Image) (p : Path) (format : string)
    (params : gmap string InfoValue) : M unit := fun w =>
  if negb (is_dir (fs w) (parent p)) then
    (Raise (OSError "FileNotFoundError" ""), w)
  else if is_dir (fs w) p then (Raise (OSError "IsADirectoryError" ""), w)
  else
    match encode_error ext format params im with
    | Some e =>
        (Raise e,
         if path_exists (fs w) p
         then mk_world (<[p := File Undecodable]> (fs w)) (log w) (io w)
         else w)
    | None =>
        (Ret tt,
         mk_world (<[p := File (Encoded format params im)]> (fs w)) (log w)
                  (io w ++ [Saved p])%list)
    end.

End Pillow.
End PIL.

(** [p.with_suffix(s)] *)
Definition with_suffix (p : Path) (s : string) : Outcome Path :=
  if String.eqb (name p) "" then Raise (ValueError "path has an empty name")
  else Ret (joinpath (parent p) (stem p ++ s)).

(** An RGB triple, as [parse_color] returns it. *)
Definition Color : Type := Z * Z * Z.

Definition color_pixel (c : Color) : Pixel :=
  let '(r, g, b) := c in [r; g; b].

(* ===================================================================== *)
(** ** [image_formatter.py]: the command-line tool                        *)
(* ===================================================================== *)

Module Cli.
Section Cli.
Context (ext : External).

Definition SUPPORTED_FORMATS : gset string :=
  {[ ".jpg"; ".jpeg"; ".png"; ".tiff"; ".tif"; ".bmp"; ".webp" ]}.

Definition apply_exif_orientation (image : Image) : M Image :=
  try_except
    (lift (PIL.exif_transpose ext image))
    (fun e =>
       let* _ := logger_warning "Could not apply EXIF orientation: {}" [AExn e] in
       ret image).

Definition center_image_on_canvas (image : Image) (canvas_size : Z)
    (bg_color : option Color) : M (option Image) :=
  if (width image >? canvas_size) || (height image >? canvas_size) then
    let* _ := logger_warning "Image {}x{} exceeds canvas size {}x{} - skipping"
                [AInt (width image); AInt (height image);
                 AInt canvas_size; AInt canvas_size] in
    ret None
  else
    (* Create new canvas *)
    let* canvas :=
      lift (match bg_color with
            | None => PIL.new ext "RGBA" (canvas_size, canvas_size) [0; 0; 0; 0]
            | Some c => PIL.new ext "RGB" (canvas_size, canvas_size) (color_pixel c)
            end) in
    (* Calculate center position *)
    let x := (canvas_size - width image) / 2 in
    let y := (canvas_size - height image) / 2 in
    (* Paste image on canvas *)
    let* canvas :=
      lift (if String.eqb (mode image) "RGBA" || PIL.has_transparency image
            then PIL.paste ext canvas image (x, y) (Some image)
            else PIL.paste ext canvas image (x, y) None) in
    ret (Some canvas).

(** The keyword arguments of [result.save] (without [format]). *)
Definition save_params (output_ext : string) (exif icc_profile : option InfoValue)
  : gmap string InfoValue :=
  let kw : gmap string InfoValue :=
    if String.eqb output_ext ".webp" then {[ "lossless" := IBool true ]} else ∅ in
  let kw := if truthy exif then <["exif" := default (IBytes "") exif]> kw else kw in
  if truthy icc_profile
  then <["icc_profile" := default (IBytes "") icc_profile]> kw else kw.

Definition save_format (output_ext : string) : string :=
  if String.eqb output_ext ".webp" then "WEBP" else "PNG".

Definition process_image (input_path output_path : Path) (canvas_size : Z)
    (bg_color : option Color) : M bool :=
  try_except
    (let* img := PIL.open input_path in
     (* Apply EXIF orientation *)
     let* img := apply_exif_orientation img in
     (* Center on canvas *)
     let* result := center_image_on_canvas img canvas_size bg_color in
     match result with
     | None => ret false
     | Some result =>
         (* Preserve metadata *)
         let exif := info img !! "exif" in
         let icc_profile := info img !! "icc_profile" in
         (* Determine output format and save *)
         let output_ext := PyStr.lower (suffix output_path) in
         let* _ := PIL.save ext result output_path (save_format output_ext)
                     (save_params output_ext exif icc_profile) in
         let* _ := logger_info "Processed: {} -> {}"
                     [APath input_path; APath output_path] in
         ret true
     end)
    (fun e =>
       let* _ := logger_error "Error processing {}: {}" [APath input_path; AExn e] in
       ret false).

Definition parse_hex (s : string) : Outcome Z :=
  match PyStr.int16 s with
  | Some v => Ret v
  | None => Raise (ValueError ("invalid literal for int() with base 16: "
                             ++ PyStr.repr s))
  end.

Definition obind {A B} (o : Outcome A) (k : A -> Outcome B) : Outcome B :=
  match o with
  | Ret a => k a
  | Raise e => Raise e
  | Exit s => Exit s
  end.

Definition parse_color (color_str : option string) : Outcome (option Color) :=
  match color_str with
  | None => Ret None
  | Some color_str =>
      let color_str := PyStr.strip color_str in
      let color_str :=
        if PyStr.startswith color_str "#" then PyStr.slice_from color_str 1
        else color_str in
      if PyStr.len color_str =? 6 then
        obind (parse_hex (PyStr.slice color_str 0 2)) (fun r =>
        obind (parse_hex (PyStr.slice color_str 2 4)) (fun g =>
        obind (parse_hex (PyStr.slice color_str 4 6)) (fun b =>
        Ret (Some (r, g, b)))))
      else if PyStr.len color_str =? 3 then
        obind (parse_hex (PyStr.slice color_str 0 1)) (fun r =>
        obind (parse_hex (PyStr.slice color_str 1 2)) (fun g =>
        obind (parse_hex (PyStr.slice color_str 2 3)) (fun b =>
        Ret (Some (r * 17, g * 17, b * 17)))))
      else Raise (ValueError ("Invalid color format: " ++ color_str))
  end.

(** The parsed command line. *)
Record Args := mk_args {
  arg_input : Path;
  arg_output : Path;
  arg_size : Z;
  arg_bg : option string
}.

(** The body of the loop over the input folder. *)
Definition folder_step (output_path : Path) (canvas_size : Z)
    (bg_color : option Color) (file_path : Path) (counts : Z * Z)
  : M (Z * Z) :=
  let '(processed, skipped) := counts in
  let* w := get_world in
  if is_file (fs w) file_path &&
     bool_decide (PyStr.lower (suffix file_path) ∈ SUPPORTED_FORMATS) then
    let output_file := joinpath output_path (stem file_path ++ ".png") in
    let* ok := process_image file_path output_file canvas_size bg_color in
    if ok then ret (processed + 1, skipped) else ret (processed, skipped + 1)
  else ret (processed, skipped).

Definition main (args : Args) : M unit :=
  let input_path := arg_input args in
  let output_path := arg_output args in
  let canvas_size := arg_size args in
  let* bg_color :=
    try_except_class "ValueError"
      (lift (parse_color (arg_bg args)))
      (fun e => let* _ := logger_error "{}" [AExn e] in sys_exit 1) in
  let* w := get_world in
  if negb (path_exists (fs w) input_path) then
    let* _ := logger_error "Input path does not exist: {}" [APath input_path] in
    sys_exit 1
  else if is_file (fs w) input_path then
    (* Handle single file *)
    if negb (bool_decide (PyStr.lower (suffix input_path) ∈ SUPPORTED_FORMATS)) then
      let* _ := logger_error "Unsupported file format: {}"
                  [AStr (suffix input_path)] in
      sys_exit 1
    else
      let* _ := mkdir_parents (parent output_path) in
      let* output_path :=
        if negb (bool_decide (PyStr.lower (suffix output_path)
                                ∈ ({[ ".png"; ".webp" ]} : gset string)))
        then lift (with_suffix output_path ".png")
        else ret output_path in
      let* success := process_image input_path output_path canvas_size bg_color in
      sys_exit (if success then 0 else 1)
  else
    (* Handle folder *)
    let* _ :=
      if negb (path_exists (fs w) output_path) then mkdir_parents output_path
      else if negb (is_dir (fs w) output_path) then
        let* _ := logger_error
                    "Output path must be a directory when input is a directory" [] in
        sys_exit 1
      else ret tt in
    let* w := get_world in
    let* '(processed, skipped) :=
      for_each (listdir (fs w) input_path)
        (folder_step output_path canvas_size bg_color) (0, 0) in
    logger_info "Processing complete: {} processed, {} skipped"
      [AInt processed; AInt skipped].

End Cli.
End Cli.

(* ===================================================================== *)
(** ** [app.py]: the web upload service                                   *)
(* ===================================================================== *)

Module Web.
Section Web.
Context (ext : External).

Definition SUPPORTED_FORMATS : gset string :=
  {[ ".jpg"; ".jpeg"; ".png"; ".tiff"; ".tif"; ".bmp"; ".webp" ]}.

Definition apply_exif_orientation (image : Image) : M Image :=
  try_except
    (lift (PIL.exif_transpose ext image))
    (fun e =>
       let* _ := logger_warning "Could not apply EXIF orientation: {}" [AExn e] in
       ret image).

(** [a / b] on ints, raising [ZeroDivisionError]. *)
Definition py_truediv (a b : Z) : M float :=
  match truediv a b with
  | Some f => ret f
  | None => raise ZeroDivisionError
  end.

Definition center_image_on_canvas (image : Image) (canvas_size : Z)
    (bg_color : option Color) : M (option Image) :=
  (* Check if image needs to be resized *)
  let* image :=
    if (width image >? canvas_size) || (height image >? canvas_size) then
      (* Calculate scaling factor to fit within canvas *)
      let* by_width := py_truediv canvas_size (width image) in
      let* by_height := py_truediv canvas_size (height image) in
      let scale_factor := fmin by_width by_height in
      let new_width := to_int (mul_int_float (width image) scale_factor) in
      let new_height := to_int (mul_int_float (height image) scale_factor) in
      (* Resize image using high-quality resampling *)
      let* image := lift (PIL.resize ext image (new_width, new_height)) in
      let* _ := logger_info
                  "Resized image from original size to {}x{} to fit {}x{} canvas"
                  [AInt new_width; AInt new_height;
                   AInt canvas_size; AInt canvas_size] in
      ret image
    else ret image in
  (* Create new canvas *)
  let* canvas :=
    lift (match bg_color with
          | None => PIL.new ext "RGBA" (canvas_size, canvas_size) [0; 0; 0; 0]
          | Some c => PIL.new ext "RGB" (canvas_size, canvas_size) (color_pixel c)
          end) in
  (* Calculate center position *)
  let x := (canvas_size - width image) / 2 in
  let y := (canvas_size - height image) / 2 in
  (* Paste image on canvas *)
  let* canvas :=
    lift (if String.eqb (mode image) "RGBA" || PIL.has_transparency image
          then PIL.paste ext canvas image (x, y) (Some image)
          else PIL.paste ext canvas image (x, y) None) in
  ret (Some canvas).

Definition process_single_image (input_path output_path : Path)
    (canvas_size : Z) (bg_color : option Color) : M bool :=
  try_except
    (let* img := PIL.open input_path in
     (* Apply EXIF orientation *)
     let* img := apply_exif_orientation img in
     (* Center on canvas *)
     let* result := center_image_on_canvas img canvas_size bg_color in
     match result with
     | None => ret false
     | Some result =>
         (* Save as PNG *)
         let* _ := PIL.save ext result output_path "PNG" ∅ in
         let* _ := logger_info "Processed: {} -> {}"
                     [APath input_path; APath output_path] in
         ret true
     end)
    (fun e =>
       let* _ := logger_error "Error processing {}: {}" [APath input_path; AExn e] in
       ret false).

(** One uploaded file of the request: its name as sent, its content and
    its length in bytes. *)
Record Upload := mk_upload {
  filename : string;
  payload : FileData;
  content_length : Z
}.

(** [file.save(dst)] *)
Definition upload_save (file : Upload) (dst : Path) : M unit := fun w =>
  if negb (is_dir (fs w) (parent dst)) then
    (Raise (OSError "FileNotFoundError" ""), w)
  else if is_dir (fs w) dst then (Raise (OSError "IsADirectoryError" ""), w)
  else (Ret tt, mk_world (<[dst := File (payload file)]> (fs w)) (log w)
                   (io w ++ [Uploaded dst])%list).

Inductive Response :=
| Redirect (flashed : string)               (* flash(..); redirect(url_for('index')) *)
| SendFile (path : Path) (download_name : string).

(** The names [tempfile] hands out during one request. *)
Record TempNames := mk_temp {
  temp_input_dir : Path;
  temp_output_dir : Path;
  zip_path : Path
}.

(** [tempfile.mkdtemp()] returning [d]. *)
Definition mkdtemp (d : Path) : M Path :=
  let* w := get_world in
  let* _ := set_fs (<[d := Directory]> (fs w)) in
  ret d.

(** [while os.path.exists(os.path.join(dir, name)): name = rename(counter);
    counter += 1].  The loop ends within (number of files + 1) rounds,
    which is the fuel given by the callers. *)
Fixpoint dedupe (fuel : nat) (f : gmap Path Node) (dir : Path)
    (rename : Z -> string) (name : string) (counter : Z) : string :=
  match fuel with
  | O => name
  | S fuel' =>
      if path_exists f (joinpath dir name)
      then dedupe fuel' f dir rename (rename counter) (counter + 1)
      else name
  end.

(** The body of the loop over the uploaded files ([i] counts from 0). *)
Definition upload_step (tmp : TempNames) (total_files : Z)
    (item : Z * Upload) (counts : Z * Z) : M (Z * Z) :=
  let '(i, file) := item in
  let '(processed_count, skipped_count) := counts in
  if negb (String.eqb (filename file) "") then
    let filename := secure_filename ext (filename file) in
    let file_ext := PyStr.lower (suffix [filename]) in
    let* _ := logger_info "Processing file {}/{}: {}"
                [AInt (i + 1); AInt total_files; AStr filename] in
    if bool_decide (file_ext ∈ SUPPORTED_FORMATS) then
      (* Handle duplicate filenames by adding a counter *)
      let base_name := stem [filename] in
      let* w := get_world in
      let filename :=
        dedupe (S (size (fs w))) (fs w) (temp_input_dir tmp)
          (fun counter => base_name ++ "_" ++ PyStr.str_of_int counter ++ file_ext)
          filename 1 in
      let input_path := joinpath (temp_input_dir tmp) filename in
      let output_filename := stem [filename] ++ ".png" in
      (* Handle duplicate output filenames *)
      let output_filename :=
        dedupe (S (size (fs w))) (fs w) (temp_output_dir tmp)
          (fun counter => stem [filename] ++ "_" ++ PyStr.str_of_int counter ++ ".png")
          output_filename 1 in
      let output_path := joinpath (temp_output_dir tmp) output_filename in
      try_except
        (let* _ := upload_save file input_path in
         let* _ := logger_info "Saved file to: {}" [APath input_path] in
         let* ok := process_single_image input_path output_path 1200 None in
         if ok then
           let* _ := logger_info "Successfully processed: {}" [AStr filename] in
           ret (processed_count + 1, skipped_count)
         else
           let* _ := logger_warning "Failed to process: {}" [AStr filename] in
           ret (processed_count, skipped_count + 1))
        (fun e =>
           let* _ := logger_error "Error processing file {}: {}"
                       [AStr filename; AExn e] in
           ret (processed_count, skipped_count + 1))
    else
      let* _ := logger_warning "Unsupported format: {}" [AStr filename] in
      ret (processed_count, skipped_count + 1)
  else ret (processed_count, skipped_count).

Fixpoint enumerate {A} (i : Z) (l : list A) : list (Z * A) :=
  match l with
  | [] => []
  | x :: l' => (i, x) :: enumerate (i + 1) l'
  end.

(** [zipfile.ZipFile(zip_path, 'w')] filled with the regular files of
    [dir]. *)
Definition write_zip (zip : Path) (dir : Path) : M unit :=
  let* w := get_world in
  let output_files := listdir (fs w) dir in
  let* _ := logger_info "Adding {} files to ZIP"
              [AInt (Z.of_nat (length output_files))] in
  let* entries :=
    for_each output_files
      (fun file_path (acc : list (string * FileData)) =>
         if is_file (fs w) file_path then
           let data := match fs w !! file_path with
                       | Some (File d) => d
                       | _ => Undecodable
                       end in
           let* _ := logger_info "Added to ZIP: {}" [AStr (name file_path)] in
           ret (acc ++ [(name file_path, data)])%list
         else ret acc) [] in
  let* w := get_world in
  set_fs (<[zip := ZipFile entries]> (fs w)).

(** What werkzeug's form parser makes of the body of a request: the
    uploads sent under the key ['files'] ([None] when the key is missing),
    or the exception the parser raises. *)
Inductive Form :=
| FormError (e : Exn)
| FormFiles (files : option (list Upload)).

(** The request of [POST /process]: the length of its body in bytes and
    the form it carries. *)
Record Request := mk_request {
  body_length : Z;
  form : Form
}.

(** [app.config['MAX_CONTENT_LENGTH']] *)
Definition MAX_CONTENT_LENGTH : Z := 100 * 1024 * 1024.

Definition RequestEntityTooLarge : Exn :=
  mk_exn "RequestEntityTooLarge"
    "413 Request Entity Too Large: The data value transmitted exceeds the capacity limit.".

(** [request.files], looked up at ['files']: the first access parses the
    body, which a body longer than [MAX_CONTENT_LENGTH] does not get. *)
Definition request_files (request : Request)
  : Outcome (option (list Upload)) :=
  if body_length request >? MAX_CONTENT_LENGTH then Raise RequestEntityTooLarge
  else match form request with
       | FormError e => Raise e
       | FormFiles files => Ret files
       end.

(** The handler of [POST /process]. *)
Definition process_images (request : Request) (tmp : TempNames)
  : M Response :=
  let* files := lift (request_files request) in
  match files with
  | None => ret (Redirect "No files selected")
  | Some files =>
      if forallb (fun file => String.eqb (filename file) "") files then
        ret (Redirect "No files selected")
      else
        (* Check total file size *)
        let total_size :=
          fold_right Z.add 0
            (map content_length
               (filter (fun file => filename file <> "") files)) in
        if total_size >? 100 * 1024 * 1024 then
          ret (Redirect "Total file size exceeds 100MB limit")
        else
          (* Create temporary directories *)
          let* _ := mkdtemp (temp_input_dir tmp) in
          let* _ := mkdtemp (temp_output_dir tmp) in
          try_finally
            (try_except
               (let total_files :=
                  Z.of_nat (length (filter (fun f => filename f <> "") files)) in
                let* _ := logger_info "Starting to process {} files"
                            [AInt total_files] in
                (* Save and process uploaded files *)
                let* '(processed_count, skipped_count) :=
                  for_each (enumerate 0 files) (upload_step tmp total_files)
                    (0, 0) in
                let* _ := logger_info "Processing summary: {} processed, {} skipped"
                            [AInt processed_count; AInt skipped_count] in
                if processed_count =? 0 then
                  ret (Redirect "No images were processed successfully")
                else
                  (* Create ZIP file with all processed images *)
                  let* _ := write_zip (zip_path tmp) (temp_output_dir tmp) in
                  let* _ := logger_info "Processing complete: {} processed, {} skipped"
                              [AInt processed_count; AInt skipped_count] in
                  ret (SendFile (zip_path tmp) "formatted_images.zip"))
               (fun e =>
                  let* _ := logger_error "Error processing images: {}" [AExn e] in
                  ret (Redirect ("An error occurred while processing images: "
                                 ++ exn_msg e))))
            (* Cleanup temporary directories *)
            (let* _ := rmtree (temp_input_dir tmp) in
             rmtree (temp_output_dir tmp))
  end.

End Web.
End Web.

(* ===================================================================== *)
(** ** Vocabulary of the specification                                    *)
(* ===================================================================== *)

(** Mode and fill of the fresh canvas for a background choice. *)
Definition canvas_mode (bg_color : option Color) : string :=
  match bg_color with None => "RGBA" | Some _ => "RGB" end.

Definition background (bg_color : option Color) : Pixel :=
  match bg_color with
  | None => [0; 0; 0; 0]
  | Some c => map PIL.clip8 (color_pixel c)
  end.

(** The centring offset. *)
Definition offset (canvas_size extent : Z) : Z := (canvas_size - extent) / 2.

(** The canvas both programs create before pasting. *)
Definition blank_canvas (canvas_size : Z) (bg_color : option Color) : Image :=
  mk_image canvas_size canvas_size (canvas_mode bg_color) ∅ (ExifTags None)
    (fun _ _ => background bg_color).

(** [Image.new] gets the store for the canvas. *)
Definition canvas_allocated (ext : External) (canvas_size : Z)
    (bg_color : option Color) : Prop :=
  alloc_error ext (canvas_mode bg_color) (canvas_size, canvas_size) = None.

(** The test that guards the masked paste in both programs. *)
Definition uses_mask (image : Image) : bool :=
  String.eqb (mode image) "RGBA" || PIL.has_transparency image.

(** The mask handed to [paste]: the image itself, or none. *)
Definition mask_of (image : Image) : option Image :=
  if uses_mask image then Some image else None.

(** A masked paste of [image] is accepted by Pillow. *)
Definition paste_accepted (image : Image) : bool :=
  negb (uses_mask image) || bool_decide (is_Some (PIL.mask_kind (mode image))).

(** The pixel left on the canvas where the source pixel [inp] (converted
    to the canvas mode) meets the canvas pixel [out]; [maskpx] is the
    pixel of the source itself, which carries the mask value. *)
Definition composite (image : Image) (out inp maskpx : Pixel) : Pixel :=
  if uses_mask image then
    match PIL.mask_kind (mode image) with
    | Some (kind, band) => PIL.blend kind (nth band maskpx 0) out inp
    | None => out
    end
  else inp.

(** The canvas a successful paste leaves. *)
Definition pasted (canvas image : Image) (box : Z * Z) (src : Z -> Z -> Pixel)
  : Image :=
  PIL.with_pixels canvas (fun cx cy =>
    if PIL.inside box image cx cy
    then composite image (getpixel canvas cx cy)
           (src (cx - fst box) (cy - snd box))
           (getpixel image (cx - fst box) (cy - snd box))
    else getpixel canvas cx cy).

(** What is left of both [center_image_on_canvas] once the size test has
    been passed: a paste onto the blank canvas at the centring offset. *)
Definition paste_centered (ext : External) (image : Image) (canvas_size : Z)
    (bg_color : option Color) : Outcome (option Image) :=
  match PIL.paste ext (blank_canvas canvas_size bg_color) image
          (offset canvas_size (width image), offset canvas_size (height image))
          (mask_of image) with
  | Ret canvas => Ret (Some canvas)
  | Raise e => Raise e
  | Exit s => Exit s
  end.

(** The mask value the source pixel [maskpx] carries. *)
Definition mask_value (image : Image) (maskpx : Pixel) : Z :=
  match PIL.mask_kind (mode image) with
  | Some (_, band) => nth band maskpx 0
  | None => 0
  end.

(** Band values of a pixel are bytes. *)
Definition byte_pixel (px : Pixel) : Prop := Forall (fun v => 0 <= v <= 255) px.

(** Sizes Pillow can hold (C [int]). *)
Definition pillow_size (n : Z) : Prop := 0 <= n < 2 ^ 31.

(** The size [app.py] asks [resize] for. *)
Definition resize_target (w h canvas_size : Z) : option (Z * Z) :=
  match truediv canvas_size w, truediv canvas_size h with
  | Some by_width, Some by_height =>
      let scale_factor := fmin by_width by_height in
      Some (to_int (mul_int_float w scale_factor),
            to_int (mul_int_float h scale_factor))
  | _, _ => None
  end.


(** The modes of Pillow that carry an alpha band. *)
Definition has_alpha_channel (image : Image) : bool :=
  bool_decide (mode image ∈ ["LA"; "PA"; "RGBA"; "La"; "RGBa"]).

(** The mask as the specification words it: the source's own alpha channel
    whenever it has one, none otherwise. *)
Definition spec_mask_of (image : Image) : option Image :=
  if has_alpha_channel image then Some image else None.

(** [a / b] rounded to the nearest integer, for [0 <= a] and [0 < b]. *)
Definition round_div (a b : Z) : Z := (2 * a + b) / (2 * b).

(** Alpha compositing as the specification words it ("the source is
    alpha-composited onto it using the source's own alpha channel"): the
    operator "over" on two RGBA pixels,
    [alpha = a_s + a_d * (1 - a_s)] and
    [colour = (c_s * a_s + c_d * a_d * (1 - a_s)) / alpha],
    the alphas being read as fractions of 255 and the results rounded to
    bytes; where nothing is opaque the result is transparent black. *)
Definition spec_alpha_composite (dst src : Pixel) : Pixel :=
  match dst, src with
  | [dr; dg; db; da], [sr; sg; sb; sa] =>
      let alpha := 255 * sa + da * (255 - sa) in
      if alpha =? 0 then [0; 0; 0; 0]
      else
        let band s d :=
          round_div (255 * s * sa + d * da * (255 - sa)) alpha in
        [band sr dr; band sg dg; band sb db; round_div alpha 255]
  | _, _ => src
  end.

(** The world after the warning of the command-line tool about an
    oversized image. *)
Definition log_skip (image : Image) (canvas_size : Z) (world : World) : World :=
  mk_world (fs world)
    (log world ++
     [mk_log WARNING "Image {}x{} exceeds canvas size {}x{} - skipping"
        [AInt (width image); AInt (height image);
         AInt canvas_size; AInt canvas_size]])%list
    (io world).

(** The world after the web service has logged a resize. *)
Definition log_resized (new_width new_height canvas_size : Z) (world : World)
  : World :=
  mk_world (fs world)
    (log world ++
     [mk_log INFO "Resized image from original size to {}x{} to fit {}x{} canvas"
        [AInt new_width; AInt new_height;
         AInt canvas_size; AInt canvas_size]])%list
    (io world).

(** The image [resize] returns for a new size that is positive and
    differs from the old one. *)
Definition resized_image (ext : External) (image : Image) (size : Z * Z)
  : Image :=
  mk_image (fst size) (snd size) (mode image) (info image) (getexif image)
    (resample ext image size).

(** The colour string as [parse_color] looks at it: stripped of white
    space, then of one leading hash. *)
Definition normalise_color (color_str : string) : string :=
  let color_str := PyStr.strip color_str in
  if PyStr.startswith color_str "#" then PyStr.slice_from color_str 1
  else color_str.

(** The world after [main] has logged the error of a bad colour. *)
Definition log_color_error (e : Exn) (world : World) : World :=
  mk_world (fs world) (log world ++ [mk_log ERROR "{}" [AExn e]])%list
    (io world).

(** The world after the warning about an orientation that could not be
    applied. *)
Definition log_exif_warning (e : Exn) (world : World) : World :=
  mk_world (fs world)
    (log world ++
     [mk_log WARNING "Could not apply EXIF orientation: {}" [AExn e]])%list
    (io world).

(** The world once [Image.open] has been called on [p]. *)
Definition opened (p : Path) (world : World) : World :=
  mk_world (fs world) (log world) (io world ++ [Opened p])%list.

(** The second half of both [center_image_on_canvas]: create the canvas,
    compute the offset, paste. *)
Definition center_tail (ext : External) (image : Image) (canvas_size : Z)
    (bg_color : option Color) : M (option Image) :=
  let* canvas :=
    lift (match bg_color with
          | None => PIL.new ext "RGBA" (canvas_size, canvas_size) [0; 0; 0; 0]
          | Some c => PIL.new ext "RGB" (canvas_size, canvas_size) (color_pixel c)
          end) in
  let x := (canvas_size - width image) / 2 in
  let y := (canvas_size - height image) / 2 in
  let* canvas :=
    lift (if String.eqb (mode image) "RGBA" || PIL.has_transparency image
          then PIL.paste ext canvas image (x, y) (Some image)
          else PIL.paste ext canvas image (x, y) None) in
  ret (Some canvas).

(** The first half of the web service's [center_image_on_canvas]: resize
    the image when it is larger than the canvas. *)
Definition web_fit (ext : External) (image : Image) (canvas_size : Z)
  : M Image :=
  if (width image >? canvas_size) || (height image >? canvas_size) then
    let* by_width := Web.py_truediv canvas_size (width image) in
    let* by_height := Web.py_truediv canvas_size (height image) in
    let scale_factor := fmin by_width by_height in
    let new_width := to_int (mul_int_float (width image) scale_factor) in
    let new_height := to_int (mul_int_float (height image) scale_factor) in
    let* image := lift (PIL.resize ext image (new_width, new_height)) in
    let* _ := logger_info
                "Resized image from original size to {}x{} to fit {}x{} canvas"
                [AInt new_width; AInt new_height;
                 AInt canvas_size; AInt canvas_size] in
    ret image
  else ret image.

(** The world with further records in the log. *)
Definition with_log (world : World) (records : list LogRecord) : World :=
  mk_world (fs world) (log world ++ records)%list (io world).

(** *** Concrete inputs *)

(** Collaborators that do as little as possible: conversions and
    resampling keep the stored pixels, EXIF blobs are kept, the encoder
    never fails, memory never runs out, file names are taken as they
    are. *)
Definition plain_external : External :=
  mk_external (fun _ im => Ret (getpixel im))
              (fun im _ x y => getpixel im x y)
              (fun v => v)
              (fun _ _ _ => None)
              (fun _ _ => None)
              (fun s => s).

(** An image of one colour. *)
Definition solid (w h : Z) (m : string) (inf : gmap string InfoValue)
    (px : Pixel) : Image :=
  mk_image w h m inf (ExifTags None) (fun _ _ => px).

Definition empty_world : World := mk_world ∅ [] [].

(** A world holding one image file in the current directory. *)
Definition world_with (p : Path) (format : string) (im : Image) : World :=
  mk_world {[ p := File (Encoded format ∅ im) ]} [] [].

(* ===================================================================== *)
(** ** Vocabulary of the runs of the two programs                         *)
(* ===================================================================== *)

(** The library never calls [sys.exit]: no conversion ends in [Exit]. *)
Definition library_returns (ext : External) : Prop :=
  forall target image status, convert_other ext target image <> Exit status.

(** What a run of [process_image] comes to: on success the destination,
    and nothing else, is written, and it holds a canvas of the canvas size
    on both axes; on failure nothing is saved, the destination alone may
    have been spoilt (if it was there before), and the reason is the record
    logged last. *)
Definition run_succeeded (world world' : World) (input_path output_path : Path)
    (format : string) (good_params : gmap string InfoValue -> Prop)
    (canvas_size : Z) (bg_color : option Color) : Prop :=
  exists params canvas,
    good_params params /\
    fs world' = <[output_path := File (Encoded format params canvas)]> (fs world) /\
    width canvas = canvas_size /\ height canvas = canvas_size /\
    mode canvas = canvas_mode bg_color /\ info canvas = ∅ /\
    io world' = (io world ++ [Opened input_path; Saved output_path])%list /\
    is_dir (fs world) output_path = false /\
    exists records, log world' = (log world ++ records)%list.

Definition error_record (input_path : Path) (record : LogRecord) : Prop :=
  exists e, record = mk_log ERROR "Error processing {}: {}"
                       [APath input_path; AExn e].

Definition skip_record (record : LogRecord) : Prop :=
  exists args, record = mk_log WARNING
                          "Image {}x{} exceeds canvas size {}x{} - skipping" args.

Definition run_failed (world world' : World) (input_path output_path : Path)
    (reason : LogRecord -> Prop) : Prop :=
  io world' = (io world ++ [Opened input_path])%list /\
  (fs world' = fs world \/
   (fs world' = <[output_path := File Undecodable]> (fs world) /\
    path_exists (fs world) output_path = true /\
    is_dir (fs world) output_path = false)) /\
  exists records record,
    log world' = (log world ++ records ++ [record])%list /\ reason record.

(** Is [q] one of the files the folder loop processes? *)
Definition is_supported_file (f : gmap Path Node) (q : Path) : bool :=
  is_file f q && bool_decide (PyStr.lower (suffix q) ∈ Cli.SUPPORTED_FORMATS).

Definition count_supported (f : gmap Path Node) (l : list Path) : Z :=
  Z.of_nat (length (List.filter (is_supported_file f) l)).

(** Two file systems with the same entries of the same kinds. *)
Definition same_entries (f f' : gmap Path Node) : Prop :=
  forall q, path_exists f q = true ->
    path_exists f' q = true /\ is_file f' q = is_file f q.

(** The number of files saved so far. *)
Definition saved_count (events : list IOEvent) : Z :=
  Z.of_nat (length (List.filter (fun ev => match ev with
                                           | Saved _ => true
                                           | _ => false
                                           end) events)).

(** [f'] differs from [f] in entries of the directory [d] at most. *)
Definition same_outside (d : Path) (f f' : gmap Path Node) : Prop :=
  forall p, parent p <> d -> f' !! p = f !! p.

(** The value of a hexadecimal digit. *)
Definition hex_value (c : ascii) : option Z :=
  let n := PyStr.code c in
  if (48 <=? n) && (n <=? 57) then Some (n - 48)
  else if (97 <=? n) && (n <=? 102) then Some (n - 87)
  else if (65 <=? n) && (n <=? 70) then Some (n - 55)
  else None.

(** The 256 characters. *)
Definition all_ascii : list ascii := map ascii_of_nat (seq 0 256).

(** Is [r] the colour [(x, y, z)]? *)
Definition is_color (r : Outcome (option Color)) (x y z : Z) : bool :=
  match r with
  | Ret (Some (r, g, b)) => (r =? x) && (g =? y) && (b =? z)
  | _ => false
  end.

(** The three-digit and the six-digit spelling of a colour, with and
    without the hash. *)
Definition short_color (a b c : ascii) : string :=
  String a (String b (String c "")).

Definition long_color (a b c : ascii) : string :=
  String a (String a (String b (String b (String c (String c ""))))).

Definition spellings_agree (a b c : ascii) (x y z : Z) : bool :=
  is_color (Cli.parse_color (Some (short_color a b c))) x y z &&
  is_color (Cli.parse_color (Some (long_color a b c))) x y z &&
  is_color (Cli.parse_color (Some (String "#" (short_color a b c)))) x y z &&
  is_color (Cli.parse_color (Some (String "#" (long_color a b c)))) x y z.

(** [spellings_agree] on all hexadecimal digits [c], on all [b] and [c],
    and on all [a], [b] and [c]. *)
Definition spellings_agree_c (a b : ascii) (x y : Z) (c : ascii) : bool :=
  match hex_value c with
  | None => true
  | Some z => spellings_agree a b c (x * 17) (y * 17) (z * 17)
  end.

Definition spellings_agree_b (a : ascii) (x : Z) (b : ascii) : bool :=
  match hex_value b with
  | None => true
  | Some y => forallb (spellings_agree_c a b x y) all_ascii
  end.

Definition spellings_agree_a (a : ascii) : bool :=
  match hex_value a with
  | None => true
  | Some x => forallb (spellings_agree_b a x) all_ascii
  end.

(** Does [int(s, 16)], where it succeeds, stay within [lo, hi]? *)
Definition int16_within (lo hi : Z) (s : string) : bool :=
  match PyStr.int16 s with
  | Some v => (lo <=? v) && (v <=? hi)
  | None => true
  end.

Definition one_char_int_within (lo hi : Z) (a : ascii) : bool :=
  int16_within lo hi (String a "").

Definition two_char_int_within (lo hi : Z) (a b : ascii) : bool :=
  int16_within lo hi (String a (String b "")).

Definition two_char_ints_within (lo hi : Z) (a : ascii) : bool :=
  forallb (two_char_int_within lo hi a) all_ascii.

(** [f'] differs from [f] in entries of the directories [d1] and [d2] at
    most. *)
Definition same_outside_both (d1 d2 : Path) (f f' : gmap Path Node) : Prop :=
  forall p, parent p <> d1 -> parent p <> d2 -> f' !! p = f !! p.

(** The number of uploads that carry a file name. *)
Definition named_uploads (files : list Web.Upload) : Z :=
  Z.of_nat (length (filter (fun file => Web.filename file <> "") files)).

(** The names [tempfile] hands out are new: the two directories differ,
    nothing exists at or below them, and the archive is not placed inside
    them. *)
Definition fresh_names (tmp : Web.TempNames) (f : gmap Path Node) : Prop :=
  Web.temp_input_dir tmp <> Web.temp_output_dir tmp /\
  (forall p, Web.temp_input_dir tmp `prefix_of` p \/
             Web.temp_output_dir tmp `prefix_of` p -> f !! p = None) /\
  ~ Web.temp_input_dir tmp `prefix_of` Web.zip_path tmp /\
  ~ Web.temp_output_dir tmp `prefix_of` Web.zip_path tmp.

(** The request is turned down before any file is touched: no files, no
    file with a name, or more than 100 MB in all. *)
Definition turned_down (files : option (list Web.Upload)) : bool :=
  match files with
  | None => true
  | Some files =>
      forallb (fun file => String.eqb (Web.filename file) "") files ||
      (fold_right Z.add 0
         (map Web.content_length
            (filter (fun file => Web.filename file <> "") files))
       >? 100 * 1024 * 1024)
  end.

(** The number of regular files in the directory [d]. *)
Definition files_in (f : gmap Path Node) (d : Path) : Z :=
  Z.of_nat (length (List.filter (is_file f) (listdir f d))).

(** Is the entry [kv] a regular file of the directory [d]? *)
Definition file_entry_of (d : Path) (kv : Path * Node) : bool :=
  bool_decide (fst kv <> [] /\ parent (fst kv) = d) &&
  match snd kv with
  | File _ | ZipFile _ => true
  | Directory => false
  end.

(** The entry of the archive for the file at [file_path]. *)
Definition zip_entry (f : gmap Path Node) (file_path : Path)
  : string * FileData :=
  (name file_path,
   match f !! file_path with
   | Some (File d) => d
   | _ => Undecodable
   end).

(** The file system once the two temporary directories are removed. *)
Definition cleaned (tmp : Web.TempNames) (f : gmap Path Node)
  : gmap Path Node :=
  filter (fun kv => ~ (Web.temp_output_dir tmp `prefix_of` fst kv))
    (filter (fun kv => ~ (Web.temp_input_dir tmp `prefix_of` fst kv)) f).

(** What a path holds after a run in folder mode, against what it held
    before: the same, a file spoilt by a failed save, or a square canvas
    of the canvas size encoded as PNG. *)
Definition kept_or_written (canvas_size : Z) (bg_color : option Color)
    (before after : option Node) : Prop :=
  after = before \/
  after = Some (File Undecodable) \/
  exists params canvas,
    after = Some (File (Encoded "PNG" params canvas)) /\
    width canvas = canvas_size /\ height canvas = canvas_size /\
    mode canvas = canvas_mode bg_color.

(** What the web service puts into its output directory: a canvas of
    1200 by 1200 pixels in mode RGBA, encoded as PNG without parameters. *)
Definition web_canvas (data : FileData) : Prop :=
  exists canvas,
    data = Encoded "PNG" ∅ canvas /\
    width canvas = 1200 /\ height canvas = 1200 /\ mode canvas = "RGBA".

(** Every file of the directory [d] is such a canvas. *)
Definition holds_canvases (f : gmap Path Node) (d : Path) : Prop :=
  forall p n, parent p = d -> p <> [] -> f !! p = Some n ->
    n = Directory \/ exists data, n = File data /\ web_canvas data.

(** Folder mode, from the file system [before] to [after]: the output
    folder and its ancestors are made where they are missing, then the
    loop writes into the output folder what [kept_or_written] allows. *)
Definition made_or_written (output_path : Path) (canvas_size : Z)
    (bg_color : option Color) (before after : gmap Path Node) : Prop :=
  exists made : gmap Path Node,
    (forall q, made !! q = before !! q \/
               (before !! q = None /\ made !! q = Some Directory /\
                q `prefix_of` output_path)) /\
    same_outside output_path made after /\
    (forall q, kept_or_written canvas_size bg_color (made !! q) (after !! q)).

Local Open Scope py_scope.

(* ===================================================================== *)
(** * Properties                                                          *)
(* ===================================================================== *)

(** ** Floats: agreement with binary64 on the inputs used below           *)

Example pyfloat_div_1200_2000 :
  (f ← truediv 1200 2000;
   Some (same_as_spec f (SFdiv 53 1024 (sf_of_int 1200) (sf_of_int 2000))))
  = Some true.
Proof. vm_compute. reflexivity. Qed.

Example pyfloat_mul_2191 :
  (f ← truediv 1200 2191;
   Some (same_as_spec (mul_int_float 2191 f)
           (SFmul 53 1024 (sf_of_int 2191)
              (SFdiv 53 1024 (sf_of_int 1200) (sf_of_int 2191)))))
  = Some true.
Proof. vm_compute. reflexivity. Qed.

Example pyfloat_trunc_2191 :
  (f ← truediv 1200 2191; Some (to_int (mul_int_float 2191 f))) = Some 1199.
Proof. vm_compute. reflexivity. Qed.

Example pyfloat_trunc_2000 :
  (f ← truediv 1200 2000;
   Some (to_int (mul_int_float 2000 f), to_int (mul_int_float 1000 f)))
  = Some (1200, 600).
Proof. vm_compute. reflexivity. Qed.

Example pyfloat_agrees_on_a_range :
  forallb (fun w => agrees_with_binary64 1200 w w) (count_up 1 4000) = true /\
  forallb (fun w => forallb (agrees_with_binary64 1200 w) (count_up 1 70))
    (count_up 1180 70) = true /\
  forallb (fun s => forallb (fun w => agrees_with_binary64 s w w) (count_up 1 60))
    (count_up 1 60) = true.
Proof. split; [|split]; vm_compute; reflexivity. Qed.

(** ** Floats: rounding error                                             *)

Lemma pow2_pos k : 0 < pow2 k.
Proof. unfold pow2. apply Z.pow_pos_nonneg; lia. Qed.

Lemma pow2_nonneg_arg k : 0 <= k -> pow2 k = 2 ^ k.
Proof. intros H. unfold pow2. rewrite Z.max_l by lia. reflexivity. Qed.

Lemma pow2_nonpos_arg k : k <= 0 -> pow2 k = 1.
Proof. intros H. unfold pow2. rewrite Z.max_r by lia. reflexivity. Qed.

Lemma pow2_succ k : 0 <= k -> pow2 (k + 1) = 2 * pow2 k.
Proof.
  intros H. rewrite !pow2_nonneg_arg by lia.
  rewrite Z.pow_add_r by lia. lia.
Qed.

(** [2^k] as a fraction: [pow2 k / pow2 (-k)], multiplicative in [k]. *)
Lemma pow2_add j k :
  pow2 (j + k) * (pow2 (- j) * pow2 (- k)) =
  pow2 j * pow2 k * pow2 (- (j + k)).
Proof.
  unfold pow2.
  rewrite <- !Z.pow_add_r by lia.
  f_equal. lia.
Qed.

Lemma round_half_even_bounds N D :
  0 < D -> 0 <= N ->
  2 * N - D <= 2 * round_half_even N D * D <= 2 * N + D.
Proof.
  intros HD HN. unfold round_half_even.
  pose proof (Z.div_mod N D ltac:(lia)) as Hdm.
  pose proof (Z.mod_pos_bound N D HD) as Hr.
  set (q := N / D) in *. set (r := N mod D) in *.
  destruct (Z.compare_spec (2 * r) D) as [He|Hl|Hg].
  - destruct (Z.even q); nia.
  - nia.
  - nia.
Qed.

Lemma round_half_even_mono_lower N D K :
  0 < D -> 0 <= K -> D * K <= N -> K <= round_half_even N D.
Proof.
  intros HD HK HN. unfold round_half_even.
  assert (K <= N / D) by (apply Z.div_le_lower_bound; lia).
  destruct (2 * (N mod D) ?= D); [destruct (Z.even (N / D))| |]; lia.
Qed.

Lemma rnd_pos_norm n d :
  0 < n -> 0 < d ->
  d * pow2 (rnd_exp n d) * 2 ^ 52 <= n * pow2 (- rnd_exp n d).
Proof.
  intros Hn Hd. unfold rnd_exp.
  pose proof (Z.log2_spec n Hn) as [Hn1 Hn2].
  pose proof (Z.log2_spec d Hd) as [Hd1 Hd2].
  pose proof (Z.log2_nonneg n) as Ha. pose proof (Z.log2_nonneg d) as Hb.
  set (a := Z.log2 n) in *. set (b := Z.log2 d) in *.
  unfold prec. set (e0 := a - b - 53).
  destruct (Z.leb_spec (d * pow2 e0 * 2 ^ 53) (n * pow2 (- e0))) as [Hc|Hc].
  - destruct (Z_le_gt_dec 0 e0) as [He|He].
    + rewrite pow2_succ by lia.
      rewrite (pow2_nonpos_arg (- (e0 + 1))) by lia.
      rewrite (pow2_nonpos_arg (- e0)) in Hc by lia.
      change (2 ^ 53) with (2 * 2 ^ 52) in Hc. lia.
    + rewrite (pow2_nonpos_arg (e0 + 1)) by lia.
      rewrite (pow2_nonpos_arg e0) in Hc by lia.
      replace (- e0) with (- (e0 + 1) + 1) in Hc by lia.
      rewrite pow2_succ in Hc by lia.
      change (2 ^ 53) with (2 * 2 ^ 52) in Hc. lia.
  - clear Hc. destruct (Z_le_gt_dec 0 e0) as [He|He].
    + rewrite (pow2_nonpos_arg (- e0)) by lia.
      rewrite (pow2_nonneg_arg e0) by lia.
      assert (Hp : 2 ^ (b + 1) * 2 ^ e0 * 2 ^ 52 = 2 ^ a).
      { rewrite <- !Z.pow_add_r by lia. f_equal. lia. }
      assert (0 < 2 ^ e0) by (apply Z.pow_pos_nonneg; lia).
      nia.
    + rewrite (pow2_nonpos_arg e0) by lia.
      rewrite (pow2_nonneg_arg (- e0)) by lia.
      assert (Hp : 2 ^ (b + 1) * 2 ^ 52 = 2 ^ a * 2 ^ (- e0)).
      { rewrite <- !Z.pow_add_r by lia. f_equal. lia. }
      assert (0 < 2 ^ (- e0)) by (apply Z.pow_pos_nonneg; lia).
      nia.
Qed.

Lemma rnd_pos_unfold n d :
  rnd_pos n d =
  mk_float (round_half_even (n * pow2 (- rnd_exp n d)) (d * pow2 (rnd_exp n d)))
           (rnd_exp n d).
Proof. reflexivity. Qed.

Lemma rnd_pos_mant_pos n d : 0 < n -> 0 < d -> 0 < mant (rnd_pos n d).
Proof.
  intros Hn Hd. rewrite rnd_pos_unfold. cbn [mant].
  pose proof (rnd_pos_norm n d Hn Hd) as Hnorm.
  pose proof (pow2_pos (rnd_exp n d)). pose proof (pow2_pos (- rnd_exp n d)).
  assert (2 ^ 52 <= round_half_even (n * pow2 (- rnd_exp n d)) (d * pow2 (rnd_exp n d))).
  { apply round_half_even_mono_lower; lia. }
  lia.
Qed.

(** Relative error of rounding, upper side: [fl(n/d) <= (n/d) (1 + 2^-53)]. *)
Lemma rnd_pos_upper n d :
  0 < n -> 0 < d ->
  num (rnd_pos n d) * d * 2 ^ 53 <= n * (2 ^ 53 + 1) * den (rnd_pos n d).
Proof.
  intros Hn Hd.
  pose proof (rnd_pos_norm n d Hn Hd) as Hnorm.
  rewrite rnd_pos_unfold. unfold num, den. cbn [mant expo].
  set (e := rnd_exp n d) in *.
  pose proof (pow2_pos e) as HA. pose proof (pow2_pos (- e)) as HB.
  set (A := pow2 e) in *. set (B := pow2 (- e)) in *.
  pose proof (round_half_even_bounds (n * B) (d * A) ltac:(lia) ltac:(lia)) as [_ Hup].
  set (m := round_half_even (n * B) (d * A)) in *.
  change (2 ^ 53) with (2 * 2 ^ 52). 
  nia.
Qed.

Lemma of_int_exact w : 0 < w < 2 ^ 53 -> num (of_int w) = w * den (of_int w) /\ 0 < mant (of_int w).
Proof.
  intros [Hw Hw'].
  unfold of_int, rnd. replace (w ?= 0) with Gt by (symmetry; apply Z.compare_gt_iff; lia).
  split; [|apply rnd_pos_mant_pos; lia].
  unfold rnd_pos, rnd_exp, num, den. cbn [mant expo].
  pose proof (Z.log2_spec w Hw) as [H1 H2].
  pose proof (Z.log2_nonneg w) as Ha.
  assert (Z.log2 w < 53) by (apply Z.log2_lt_pow2; lia).
  change (Z.log2 1) with 0. unfold prec.
  set (a := Z.log2 w) in *.
  replace (a - 0 - 53) with (a - 53) by lia.
  rewrite (pow2_nonpos_arg (a - 53)) by lia.
  rewrite (pow2_nonneg_arg (- (a - 53))) by lia.
  assert (Hp : 2 ^ 53 = 2 ^ a * 2 ^ (- (a - 53))).
  { rewrite <- Z.pow_add_r by lia. f_equal. lia. }
  assert (0 < 2 ^ (- (a - 53))) by (apply Z.pow_pos_nonneg; lia).
  destruct (Z.leb_spec (1 * 1 * 2 ^ 53) (w * 2 ^ (- (a - 53)))) as [Hc|Hc]; [|nia].
  rewrite (pow2_nonpos_arg (a - 53 + 1)) by lia.
  rewrite Z.mul_1_l, Z.mul_1_r.
  unfold round_half_even. rewrite Z.mod_1_r, Z.div_1_r. cbn [Z.mul Z.compare].
  reflexivity.
Qed.

Lemma den_pos f : 0 < den f.
Proof. apply pow2_pos. Qed.

Lemma num_pos f : 0 < mant f -> 0 < num f.
Proof. intros H. unfold num. pose proof (pow2_pos (expo f)). nia. Qed.

Lemma truediv_pos a b :
  0 < a -> 0 < b -> truediv a b = Some (rnd_pos a b).
Proof.
  intros Ha Hb. unfold truediv.
  destruct (Z.eqb_spec b 0) as [->|_]; [lia|].
  rewrite Z.sgn_pos, Z.abs_eq, Z.mul_1_r by lia.
  unfold rnd. replace (a ?= 0) with Gt by (symmetry; apply Z.compare_gt_iff; lia).
  reflexivity.
Qed.

Lemma fmin_le_l f g : num (fmin f g) * den f <= num f * den (fmin f g).
Proof.
  unfold fmin, flt. destruct (Z.ltb_spec (num g * den f) (num f * den g)); lia.
Qed.

Lemma fmin_le_r f g : num (fmin f g) * den g <= num g * den (fmin f g).
Proof.
  unfold fmin, flt. destruct (Z.ltb_spec (num g * den f) (num f * den g)); lia.
Qed.

Lemma fmin_cases f g : fmin f g = f \/ fmin f g = g.
Proof. unfold fmin. destruct (flt g f); auto. Qed.

(** Exact product of two positive floats, before rounding. *)
Lemma fmul_pos f g :
  0 < mant f -> 0 < mant g ->
  fmul f g = rnd_pos (mant f * mant g * pow2 (expo f + expo g))
                     (pow2 (- (expo f + expo g))).
Proof.
  intros Hf Hg. unfold fmul, rnd.
  pose proof (pow2_pos (expo f + expo g)).
  replace (_ ?= 0) with Gt; [reflexivity|].
  symmetry. apply Z.compare_gt_iff. nia.
Qed.

Lemma fmul_upper f g :
  0 < mant f -> 0 < mant g ->
  num (fmul f g) * (den f * den g) * 2 ^ 53
  <= num f * num g * (2 ^ 53 + 1) * den (fmul f g).
Proof.
  intros Hf Hg. rewrite (fmul_pos f g Hf Hg).
  set (n := mant f * mant g * pow2 (expo f + expo g)).
  set (d := pow2 (- (expo f + expo g))).
  assert (Hd : 0 < d) by apply pow2_pos.
  assert (Hn : 0 < n).
  { unfold n. pose proof (pow2_pos (expo f + expo g)). nia. }
  pose proof (rnd_pos_upper n d Hn Hd) as Hup.
  assert (Hid : n * (den f * den g) = num f * num g * d).
  { unfold n, d, num, den.
    pose proof (pow2_add (expo f) (expo g)) as E.
    transitivity (mant f * mant g *
                  (pow2 (expo f + expo g) * (pow2 (- expo f) * pow2 (- expo g))));
      [ring|].
    rewrite E. ring. }
  set (p := rnd_pos n d) in *.
  pose proof (den_pos f). pose proof (den_pos g). pose proof (den_pos p).
  assert (0 < mant p) by (apply rnd_pos_mant_pos; assumption).
  pose proof (num_pos p ltac:(assumption)).
  apply (Z.mul_le_mono_pos_r _ _ d Hd).
  transitivity (num p * d * 2 ^ 53 * (den f * den g)); [lia|].
  transitivity (n * (2 ^ 53 + 1) * den p * (den f * den g)).
  - apply Z.mul_le_mono_nonneg_r; lia.
  - replace (n * (2 ^ 53 + 1) * den p * (den f * den g))
      with (n * (den f * den g) * ((2 ^ 53 + 1) * den p)) by ring.
    rewrite Hid. lia.
Qed.

Lemma fmul_mant_pos f g : 0 < mant f -> 0 < mant g -> 0 < mant (fmul f g).
Proof.
  intros Hf Hg. rewrite fmul_pos by assumption.
  apply rnd_pos_mant_pos; [|apply pow2_pos].
  pose proof (pow2_pos (expo f + expo g)). nia.
Qed.

(** [int(w * g) <= S] as soon as [g <= (S / w) (1 + 2^-53)]. *)
Lemma scaled_dim_le w S g :
  0 < w < 2 ^ 53 -> 0 < S < 2 ^ 51 -> 0 < mant g ->
  num g * w * 2 ^ 53 <= S * (2 ^ 53 + 1) * den g ->
  0 <= to_int (mul_int_float w g) <= S.
Proof.
  intros Hw HS Hg Hb.
  destruct (of_int_exact w Hw) as [Hex Hmw].
  unfold mul_int_float.
  pose proof (fmul_upper (of_int w) g Hmw Hg) as Hup.
  pose proof (fmul_mant_pos (of_int w) g Hmw Hg) as Hmp.
  set (f := of_int w) in *. set (p := fmul f g) in *.
  pose proof (den_pos f) as Hdf. pose proof (den_pos g) as Hdg.
  pose proof (den_pos p) as Hdp.
  pose proof (num_pos p Hmp) as Hnp. pose proof (num_pos g Hg) as Hng.
  rewrite Hex in Hup.
  (* cancel [den f] *)
  assert (H1 : num p * den g * 2 ^ 53 <= w * num g * (2 ^ 53 + 1) * den p).
  { apply (Z.mul_le_mono_pos_r _ _ (den f) Hdf). lia. }
  (* combine with the bound on [g] *)
  assert (H2 : num p * 2 ^ 106 <= S * ((2 ^ 53 + 1) * (2 ^ 53 + 1)) * den p).
  { apply (Z.mul_le_mono_pos_r _ _ (den g) Hdg).
    change (2 ^ 106) with (2 ^ 53 * 2 ^ 53).
    transitivity (w * num g * (2 ^ 53 + 1) * den p * 2 ^ 53); [lia|].
    transitivity (S * (2 ^ 53 + 1) * den g * ((2 ^ 53 + 1) * den p)); [|lia].
    replace (w * num g * (2 ^ 53 + 1) * den p * 2 ^ 53)
      with (num g * w * 2 ^ 53 * ((2 ^ 53 + 1) * den p)) by ring.
    apply Z.mul_le_mono_nonneg_r; lia. }
  unfold to_int. rewrite Z.quot_div_nonneg by lia.
  split; [apply Z.div_pos; lia|].
  assert (Hlt : num p / den p < S + 1); [|lia].
  apply Z.div_lt_upper_bound; [lia|].
  apply (Z.mul_lt_mono_pos_r (2 ^ 106)); [reflexivity|].
  assert (S * ((2 ^ 53 + 1) * (2 ^ 53 + 1)) < (S + 1) * 2 ^ 106) by lia.
  nia.
Qed.

(** ** The compositor within the canvas                                   *)

Section Compositor.
Context (ext : External).

Lemma div255_byte i : 0 <= i <= 255 -> PIL.div255 (i * 255) = i.
Proof.
  intros H. unfold PIL.div255.
  rewrite !Z.shiftr_div_pow2 by lia. change (2 ^ 8) with 256.
  Z.div_mod_to_equations. lia.
Qed.

Lemma div255_zero : PIL.div255 0 = 0.
Proof. reflexivity. Qed.

Lemma blend8_opaque o i : 0 <= i <= 255 -> PIL.blend8 255 o i = i.
Proof.
  intros H. unfold PIL.blend8.
  replace (o * (255 - 255) + i * 255) with (i * 255) by lia.
  apply div255_byte; assumption.
Qed.

Lemma blend8_clear o i : 0 <= o <= 255 -> PIL.blend8 0 o i = o.
Proof.
  intros H. unfold PIL.blend8.
  replace (o * (255 - 0) + i * 0) with (o * 255) by lia.
  apply div255_byte; assumption.
Qed.

Lemma zip_with_snd (f : Z -> Z -> Z) (out inp : list Z) :
  length out = length inp ->
  Forall (fun i => forall o, f o i = i) inp ->
  zip_with f out inp = inp.
Proof.
  revert out. induction inp as [|i inp IH]; intros [|o out] Hlen Hall;
    simpl in *; try discriminate; [reflexivity|].
  inversion Hall as [|? ? Hi Hrest]; subst.
  rewrite Hi, IH by (assumption || lia). reflexivity.
Qed.

Lemma zip_with_fst (f : Z -> Z -> Z) (out inp : list Z) :
  length out = length inp ->
  Forall (fun o => forall i, f o i = o) out ->
  zip_with f out inp = out.
Proof.
  revert inp. induction out as [|o out IH]; intros [|i inp] Hlen Hall;
    simpl in *; try discriminate; [reflexivity|].
  inversion Hall as [|? ? Ho Hrest]; subst.
  rewrite Ho, IH by (assumption || lia). reflexivity.
Qed.

(** A mask value of 255 lets the source pixel through unchanged. *)
Lemma blend_opaque kind out inp :
  byte_pixel inp -> length out = length inp ->
  PIL.blend kind 255 out inp = inp.
Proof.
  intros Hb Hlen. destruct kind; simpl.
  - reflexivity.
  - apply zip_with_snd; [assumption|].
    revert Hb. apply List.Forall_impl. intros i Hi o. apply blend8_opaque, Hi.
  - apply zip_with_snd; [assumption|].
    revert Hb. apply List.Forall_impl. intros i Hi o. unfold PIL.preblend8.
    replace (o * (255 - 255)) with 0 by lia. rewrite div255_zero.
    simpl. apply Z.mod_small. lia.
Qed.

(** A mask value of 0 keeps the canvas pixel, for the masks that blend
    linearly (modes 1, L, LA and RGBA). *)
Lemma blend_clear kind out inp :
  kind <> PIL.MaskPremultiplied ->
  byte_pixel out -> length out = length inp ->
  PIL.blend kind 0 out inp = out.
Proof.
  intros Hk Hb Hlen. destruct kind; simpl; [reflexivity| |congruence].
  apply zip_with_fst; [assumption|].
  revert Hb. apply List.Forall_impl. intros o Ho i. apply blend8_clear, Ho.
Qed.

Lemma background_bytes bg_color : byte_pixel (background bg_color).
Proof.
  destruct bg_color as [[[r g] b]|]; unfold background, byte_pixel; simpl;
    repeat constructor; unfold PIL.clip8; lia.
Qed.

Lemma c_int_fits v : v < 2 ^ 31 -> PIL.c_int_error v = None.
Proof.
  intros H. unfold PIL.c_int_error.
  replace (2 ^ 63 <=? v) with false by (symmetry; apply Z.leb_gt; lia).
  replace (2 ^ 31 <=? v) with false by (symmetry; apply Z.leb_gt; lia).
  reflexivity.
Qed.

Lemma c_int_overflows v : 2 ^ 31 <= v -> exists e, PIL.c_int_error v = Some e.
Proof.
  intros H. unfold PIL.c_int_error.
  destruct (2 ^ 63 <=? v); [eauto|].
  replace (2 ^ 31 <=? v) with true by (symmetry; apply Z.leb_le; lia).
  eauto.
Qed.

Lemma new_returned m size color canvas :
  PIL.new ext m size color = Ret canvas ->
  canvas = mk_image (fst size) (snd size) m ∅ (ExifTags None)
             (fun _ _ => map PIL.clip8 color).
Proof.
  unfold PIL.new. destruct (_ || _); [discriminate|].
  destruct (PIL.c_int_error (fst size)); [discriminate|].
  destruct (PIL.c_int_error (snd size)); [discriminate|].
  destruct (alloc_error ext m size); [discriminate|].
  intros H. injection H as <-. reflexivity.
Qed.

Lemma new_never_exits m size color status :
  PIL.new ext m size color <> Exit status.
Proof.
  unfold PIL.new. destruct (_ || _); [discriminate|].
  destruct (PIL.c_int_error (fst size)); [discriminate|].
  destruct (PIL.c_int_error (snd size)); [discriminate|].
  destruct (alloc_error ext m size); discriminate.
Qed.

Lemma new_blank canvas_size bg_color :
  0 <= canvas_size < 2 ^ 31 ->
  canvas_allocated ext canvas_size bg_color ->
  match bg_color with
  | None => PIL.new ext "RGBA" (canvas_size, canvas_size) [0; 0; 0; 0]
  | Some c => PIL.new ext "RGB" (canvas_size, canvas_size) (color_pixel c)
  end = Ret (blank_canvas canvas_size bg_color).
Proof.
  intros HS Hmem. unfold canvas_allocated in Hmem.
  unfold PIL.new, blank_canvas. simpl fst. simpl snd.
  replace (canvas_size <? 0) with false by (symmetry; apply Z.ltb_ge; lia).
  rewrite c_int_fits by lia. simpl orb. cbv iota.
  destruct bg_color; simpl canvas_mode in Hmem; rewrite Hmem; reflexivity.
Qed.

(** [Image.new] returns the blank canvas or raises. *)
Lemma new_cases canvas_size bg_color :
  let made :=
    match bg_color with
    | None => PIL.new ext "RGBA" (canvas_size, canvas_size) [0; 0; 0; 0]
    | Some c => PIL.new ext "RGB" (canvas_size, canvas_size) (color_pixel c)
    end in
  made = Ret (blank_canvas canvas_size bg_color) \/ exists e, made = Raise e.
Proof.
  cbv zeta. unfold PIL.new, blank_canvas. simpl fst. simpl snd.
  destruct bg_color as [c|];
    (destruct (_ || _); [right; eauto|];
     destruct (PIL.c_int_error canvas_size); [right; eauto|];
     destruct (alloc_error ext _ _); [right; eauto|left; reflexivity]).
Qed.

Lemma new_negative canvas_size bg_color :
  canvas_size < 0 ->
  match bg_color with
  | None => PIL.new ext "RGBA" (canvas_size, canvas_size) [0; 0; 0; 0]
  | Some c => PIL.new ext "RGB" (canvas_size, canvas_size) (color_pixel c)
  end = Raise (ValueError "Width and height must be >= 0").
Proof.
  intros HS. unfold PIL.new. simpl fst.
  replace (canvas_size <? 0) with true by (symmetry; apply Z.ltb_lt; lia).
  destruct bg_color; reflexivity.
Qed.

Lemma new_overflow canvas_size bg_color :
  2 ^ 31 <= canvas_size ->
  exists e,
    match bg_color with
    | None => PIL.new ext "RGBA" (canvas_size, canvas_size) [0; 0; 0; 0]
    | Some c => PIL.new ext "RGB" (canvas_size, canvas_size) (color_pixel c)
    end = Raise e.
Proof.
  intros HS. unfold PIL.new. simpl fst. simpl snd.
  replace (canvas_size <? 0) with false by (symmetry; apply Z.ltb_ge; lia).
  destruct (c_int_overflows canvas_size HS) as [e He]. rewrite He.
  exists e. destruct bg_color; reflexivity.
Qed.

Lemma mask_of_branches (image canvas : Image) box :
  (if String.eqb (mode image) "RGBA" || PIL.has_transparency image
   then PIL.paste ext canvas image box (Some image)
   else PIL.paste ext canvas image box None)
  = PIL.paste ext canvas image box (mask_of image).
Proof. unfold mask_of, uses_mask. destruct (_ || _); reflexivity. Qed.

(** Both halves after the size test: the paste onto the blank canvas, or
    the error of [Image.new]. *)
Lemma center_tail_cases image canvas_size bg_color world :
  center_tail ext image canvas_size bg_color world
    = (paste_centered ext image canvas_size bg_color, world) \/
  exists e, center_tail ext image canvas_size bg_color world = (Raise e, world).
Proof.
  unfold center_tail, bind, lift, ret.
  destruct (new_cases canvas_size bg_color) as [E|[e E]]; cbv zeta in E;
    rewrite E.
  - left. rewrite mask_of_branches. unfold paste_centered, offset.
    destruct (PIL.paste _ _ _ _ _); reflexivity.
  - right. eauto.
Qed.

Lemma center_tail_allocated image canvas_size bg_color world :
  0 <= canvas_size < 2 ^ 31 ->
  canvas_allocated ext canvas_size bg_color ->
  center_tail ext image canvas_size bg_color world
    = (paste_centered ext image canvas_size bg_color, world).
Proof.
  intros HS Hmem. unfold center_tail, bind, lift, ret.
  rewrite new_blank by assumption.
  rewrite mask_of_branches. unfold paste_centered, offset.
  destruct (PIL.paste _ _ _ _ _); reflexivity.
Qed.

Lemma cli_center_tail image canvas_size bg_color world :
  width image <= canvas_size -> height image <= canvas_size ->
  Cli.center_image_on_canvas ext image canvas_size bg_color world
  = center_tail ext image canvas_size bg_color world.
Proof.
  intros Hw Hh. unfold Cli.center_image_on_canvas.
  replace (width image >? canvas_size) with false by (symmetry; lia).
  replace (height image >? canvas_size) with false by (symmetry; lia).
  reflexivity.
Qed.

Lemma web_center_tail image canvas_size bg_color world :
  width image <= canvas_size -> height image <= canvas_size ->
  Web.center_image_on_canvas ext image canvas_size bg_color world
  = center_tail ext image canvas_size bg_color world.
Proof.
  intros Hw Hh. unfold Web.center_image_on_canvas.
  replace (width image >? canvas_size) with false by (symmetry; lia).
  replace (height image >? canvas_size) with false by (symmetry; lia).
  reflexivity.
Qed.

Lemma cli_center_fits image canvas_size bg_color world :
  width image <= canvas_size -> height image <= canvas_size ->
  0 <= canvas_size < 2 ^ 31 ->
  canvas_allocated ext canvas_size bg_color ->
  Cli.center_image_on_canvas ext image canvas_size bg_color world
  = (paste_centered ext image canvas_size bg_color, world).
Proof.
  intros Hw Hh HS Hmem. rewrite cli_center_tail by assumption.
  apply center_tail_allocated; assumption.
Qed.

Lemma web_center_fits image canvas_size bg_color world :
  width image <= canvas_size -> height image <= canvas_size ->
  0 <= canvas_size < 2 ^ 31 ->
  canvas_allocated ext canvas_size bg_color ->
  Web.center_image_on_canvas ext image canvas_size bg_color world
  = (paste_centered ext image canvas_size bg_color, world).
Proof.
  intros Hw Hh HS Hmem. rewrite web_center_tail by assumption.
  apply center_tail_allocated; assumption.
Qed.

(** A canvas returned for an image that fits is the paste onto the blank
    canvas. *)
Lemma center_fits_returned image canvas_size bg_color world canvas world' :
  width image <= canvas_size -> height image <= canvas_size ->
  Cli.center_image_on_canvas ext image canvas_size bg_color world
    = (Ret (Some canvas), world') \/
  Web.center_image_on_canvas ext image canvas_size bg_color world
    = (Ret (Some canvas), world') ->
  paste_centered ext image canvas_size bg_color = Ret (Some canvas).
Proof.
  intros Hw Hh Hrun.
  rewrite cli_center_tail, web_center_tail in Hrun by assumption.
  destruct (center_tail_cases image canvas_size bg_color world) as [E|[e E]];
    rewrite E in Hrun; destruct Hrun as [H|H]; congruence.
Qed.

Lemma paste_accepted_eq canvas image box src :
  paste_accepted image = true ->
  PIL.source_pixels ext (mode canvas) image = Ret src ->
  PIL.paste ext canvas image box (mask_of image)
  = Ret (pasted canvas image box src).
Proof.
  intros Hacc Hsrc. unfold PIL.paste, pasted, composite, mask_of.
  rewrite Hsrc. unfold paste_accepted in Hacc.
  destruct (uses_mask image) eqn:Hm; [|reflexivity].
  simpl in Hacc. apply bool_decide_eq_true in Hacc as [[kind band] Hk].
  rewrite Hk. reflexivity.
Qed.

Lemma paste_rejected canvas image box src :
  paste_accepted image = false ->
  PIL.source_pixels ext (mode canvas) image = Ret src ->
  PIL.paste ext canvas image box (mask_of image)
  = Raise (ValueError "bad transparency mask").
Proof.
  intros Hacc Hsrc. unfold PIL.paste, mask_of.
  rewrite Hsrc. unfold paste_accepted in Hacc.
  destruct (uses_mask image) eqn:Hm; [|discriminate].
  simpl in Hacc. apply bool_decide_eq_false in Hacc.
  destruct (PIL.mask_kind (mode image)) as [[kind band]|] eqn:Hk; [|reflexivity].
  exfalso. apply Hacc. eauto.
Qed.

Lemma offset_bounds canvas_size extent :
  extent <= canvas_size ->
  0 <= offset canvas_size extent /\
  offset canvas_size extent + extent <= canvas_size /\
  offset canvas_size extent
    <= canvas_size - extent - offset canvas_size extent
    <= offset canvas_size extent + 1.
Proof.
  intros H. unfold offset. Z.div_mod_to_equations. lia.
Qed.

Lemma inside_shift image x y i j :
  0 <= i < width image -> 0 <= j < height image ->
  PIL.inside (x, y) image (x + i) (y + j) = true.
Proof.
  intros Hi Hj. unfold PIL.inside. simpl fst. simpl snd.
  repeat (apply andb_true_intro; split); lia.
Qed.

(** The canvas both programs return for a source that fits and that
    Pillow accepts: its size, and its pixels inside the pasted box. *)
Lemma centered_pixels image canvas_size bg_color world src :
  0 <= width image <= canvas_size -> 0 <= height image <= canvas_size ->
  canvas_size < 2 ^ 31 ->
  canvas_allocated ext canvas_size bg_color ->
  paste_accepted image = true ->
  PIL.source_pixels ext (canvas_mode bg_color) image = Ret src ->
  exists canvas,
    Web.center_image_on_canvas ext image canvas_size bg_color world
      = (Ret (Some canvas), world) /\
    width canvas = canvas_size /\ height canvas = canvas_size /\
    forall i j, 0 <= i < width image -> 0 <= j < height image ->
      getpixel canvas (offset canvas_size (width image) + i)
        (offset canvas_size (height image) + j)
      = composite image (background bg_color) (src i j) (getpixel image i j).
Proof.
  intros Hw Hh HS Hmem Hacc Hsrc.
  exists (pasted (blank_canvas canvas_size bg_color) image
            (offset canvas_size (width image), offset canvas_size (height image))
            src).
  rewrite web_center_fits by (assumption || lia). unfold paste_centered.
  rewrite (paste_accepted_eq (blank_canvas canvas_size bg_color) image _ src
             Hacc Hsrc).
  repeat split.
  intros i j Hi Hj. unfold pasted. simpl.
  rewrite inside_shift by assumption.
  replace (offset canvas_size (width image) + i - offset canvas_size (width image))
    with i by lia.
  replace (offset canvas_size (height image) + j
           - offset canvas_size (height image)) with j by lia.
  reflexivity.
Qed.

End Compositor.

(** ** C1: centring an image that fits                                    *)

Lemma rgba_on_solid (ext : External) (image : Image) (c : Color)
    (src : Z -> Z -> Pixel) :
  mode image = "RGBA" ->
  PIL.source_pixels ext (canvas_mode (Some c)) image = Ret src ->
  uses_mask image = true /\
  PIL.mask_kind (mode image) = Some (PIL.MaskLinear, 3%nat) /\
  forall i j, src i j = take 3 (getpixel image i j).
Proof.
  intros Hmode Hsrc. unfold uses_mask, PIL.source_pixels in *.
  rewrite Hmode in *. simpl canvas_mode in Hsrc.
  change (String.eqb "RGBA" "RGB") with false in Hsrc.
  change (String.eqb "RGB" "RGB") with true in Hsrc.
  change (String.eqb "RGBA" "RGBA") with true in Hsrc.
  change (String.eqb "RGBA" "LA") with false in Hsrc.
  simpl in Hsrc. injection Hsrc as <-.
  split; [reflexivity|]. split; [reflexivity|]. reflexivity.
Qed.

(** C1 (as amended).  For every source image with width and height at most
    [canvas_size], where [Image.new] returns the canvas (a size below
    2^31, the store allocated), the conversion of the source to the
    canvas mode succeeds and a masked paste gets a mask of a mode Pillow
    accepts, both [center_image_on_canvas] return a canvas of exactly
    [canvas_size] x [canvas_size] pixels, having pasted the source at
    [((S - w) // 2, (S - h) // 2)]: for an odd difference the extra pixel
    of padding is on the right and at the bottom; outside the pasted box
    the canvas shows the background; inside, a pixel is the source pixel
    (converted to the canvas mode) where no mask is used or the mask
    value is 255, and for an RGBA source on a solid background it is the
    source colour blended with the background under the source's alpha.
    Nothing is said of a partly transparent pixel on the transparent
    canvas. *)
Theorem C1_center_within_canvas (ext : External) (image : Image)
    (canvas_size : Z) (bg_color : option Color) (world : World)
    (src : Z -> Z -> Pixel) :
  0 <= width image <= canvas_size ->
  0 <= height image <= canvas_size ->
  canvas_size < 2 ^ 31 ->
  canvas_allocated ext canvas_size bg_color ->
  paste_accepted image = true ->
  PIL.source_pixels ext (canvas_mode bg_color) image = Ret src ->
  let x := offset canvas_size (width image) in
  let y := offset canvas_size (height image) in
  exists canvas,
    Cli.center_image_on_canvas ext image canvas_size bg_color world
      = (Ret (Some canvas), world) /\
    Web.center_image_on_canvas ext image canvas_size bg_color world
      = (Ret (Some canvas), world) /\
    width canvas = canvas_size /\ height canvas = canvas_size /\
    x = (canvas_size - width image) / 2 /\
    y = (canvas_size - height image) / 2 /\
    x <= canvas_size - width image - x <= x + 1 /\
    y <= canvas_size - height image - y <= y + 1 /\
    (forall cx cy, PIL.inside (x, y) image cx cy = false ->
       getpixel canvas cx cy = background bg_color) /\
    (forall i j, 0 <= i < width image -> 0 <= j < height image ->
       uses_mask image = false \/
       (mask_value image (getpixel image i j) = 255 /\
        byte_pixel (src i j) /\
        length (src i j) = length (background bg_color)) ->
       getpixel canvas (x + i) (y + j) = src i j) /\
    (forall c i j, bg_color = Some c -> mode image = "RGBA" ->
       0 <= i < width image -> 0 <= j < height image ->
       getpixel canvas (x + i) (y + j)
       = zip_with (PIL.blend8 (nth 3 (getpixel image i j) 0))
           (background bg_color) (take 3 (getpixel image i j))).
Proof.
  intros Hw Hh HS Hmem Hacc Hsrc x y.
  exists (pasted (blank_canvas canvas_size bg_color) image (x, y) src).
  rewrite cli_center_fits, web_center_fits by (assumption || lia).
  unfold paste_centered. fold x y.
  rewrite (paste_accepted_eq ext (blank_canvas canvas_size bg_color) image
             (x, y) src Hacc Hsrc).
  destruct (offset_bounds canvas_size (width image) ltac:(lia)) as (_ & _ & Hx).
  destruct (offset_bounds canvas_size (height image) ltac:(lia)) as (_ & _ & Hy).
  assert (Hpix : forall i j, 0 <= i < width image -> 0 <= j < height image ->
            getpixel (pasted (blank_canvas canvas_size bg_color) image (x, y) src)
              (x + i) (y + j)
            = composite image (background bg_color) (src i j) (getpixel image i j)).
  { intros i j Hi Hj. unfold pasted. simpl.
    rewrite inside_shift by assumption.
    replace (x + i - x) with i by lia. replace (y + j - y) with j by lia.
    reflexivity. }
  repeat split; try reflexivity; try (apply Hx); try (apply Hy).
  - intros cx cy Hout. unfold pasted. simpl. rewrite Hout. reflexivity.
  - intros i j Hi Hj Hop. rewrite Hpix by assumption. unfold composite.
    destruct Hop as [Hm | (Hv & Hb & Hlen)]; [rewrite Hm; reflexivity|].
    destruct (uses_mask image); [|reflexivity].
    unfold mask_value in Hv.
    destruct (PIL.mask_kind (mode image)) as [[kind band]|]; [|discriminate].
    rewrite Hv. apply blend_opaque; [assumption|symmetry; assumption].
  - intros c i j -> Hmode Hi Hj. rewrite Hpix by assumption.
    destruct (rgba_on_solid ext image c src Hmode Hsrc) as (Hm & Hk & Hpx).
    unfold composite. rewrite Hm, Hk, Hpx. reflexivity.
Qed.

Lemma C1_center_within_canvas_witness :
  let image := solid 2 1 "RGB" ∅ [10; 20; 30] in
  exists canvas,
    Cli.center_image_on_canvas plain_external image 5 (Some (255, 255, 255))
      empty_world = (Ret (Some canvas), empty_world) /\
    width canvas = 5 /\
    getpixel canvas 1 2 = [10; 20; 30] /\
    getpixel canvas 0 0 = [255; 255; 255].
Proof.
  intros image.
  destruct (C1_center_within_canvas plain_external image 5
              (Some (255, 255, 255)) empty_world (getpixel image))
    as (canvas & Hcli & _ & Hwd & _ & _ & _ & _ & _ & Hbg & Hsrc & _).
  - simpl. lia.
  - simpl. lia.
  - lia.
  - reflexivity.
  - reflexivity.
  - reflexivity.
  - exists canvas. split; [exact Hcli|]. split; [exact Hwd|]. split.
    + apply (Hsrc 0 0); [simpl; lia|simpl; lia|left; reflexivity].
    + apply Hbg. reflexivity.
Defined.

(** C1 as stated fails on a half-transparent source on a solid background:
    the pixel left on a white canvas is neither the source pixel nor
    background.  It fails as well for a canvas of 2^31 pixels a side,
    which [Image.new] refuses. *)
Lemma C1_counterexample :
  let image := solid 1 1 "RGBA" ∅ [200; 100; 50; 128] in
  let white := Some (255, 255, 255) in
  width image <= 3 /\ height image <= 3 /\
  (exists on_white,
     Cli.center_image_on_canvas plain_external image 3 white empty_world
       = (Ret (Some on_white), empty_world) /\
     Web.center_image_on_canvas plain_external image 3 white empty_world
       = (Ret (Some on_white), empty_world) /\
     getpixel on_white 1 1 = [227; 177; 152] /\
     getpixel on_white 1 1 <> take 3 (getpixel image 0 0) /\
     getpixel on_white 1 1 <> background white) /\
  Cli.center_image_on_canvas plain_external image (2 ^ 31) white empty_world
    = (Raise (OverflowError "signed integer is greater than maximum"),
       empty_world) /\
  Web.center_image_on_canvas plain_external image (2 ^ 31) white empty_world
    = (Raise (OverflowError "signed integer is greater than maximum"),
       empty_world).
Proof.
  intros image white. split; [simpl; lia|]. split; [simpl; lia|].
  split; [|split; vm_compute; reflexivity].
  eexists.
  split; [vm_compute; reflexivity|]. split; [vm_compute; reflexivity|].
  repeat split; try discriminate.
Qed.

(** ** C2: the command-line tool skips an oversized image                 *)

Lemma transpose_for_shape o image t :
  PIL.transpose_for o image = Some t ->
  mode t = mode image /\ info t = info image /\
  ((width t = width image /\ height t = height image) \/
   (width t = height image /\ height t = width image)).
Proof.
  unfold PIL.transpose_for. intros H.
  destruct o as [|p|p]; try discriminate.
  do 4 (try destruct p as [p|p|]); try discriminate;
    inversion H; subst; simpl; auto.
Qed.

(** Orientation normalisation always returns an image; it touches neither
    files nor the I/O trace, and keeps the two extents up to a swap. *)
Lemma apply_exif_orientation_total ext image world :
  exists image' world',
    Cli.apply_exif_orientation ext image world = (Ret image', world') /\
    fs world' = fs world /\ io world' = io world /\
    ((width image' = width image /\ height image' = height image) \/
     (width image' = height image /\ height image' = width image)).
Proof.
  unfold Cli.apply_exif_orientation, try_except, lift, PIL.exif_transpose.
  destruct (getexif image) as [e|o].
  - eexists _, _. split; [reflexivity|]. simpl. auto.
  - destruct (PIL.transpose_for (default 1 o) image) as [t|] eqn:Ht.
    + eexists _, _. split; [reflexivity|].
      apply transpose_for_shape in Ht as (_ & _ & Hd). simpl. auto.
    + eexists _, _. split; [reflexivity|]. auto.
Qed.

Lemma web_apply_exif_orientation_eq ext :
  Web.apply_exif_orientation ext = Cli.apply_exif_orientation ext.
Proof. reflexivity. Qed.

Lemma cli_center_oversized ext image canvas_size bg_color world :
  width image > canvas_size \/ height image > canvas_size ->
  Cli.center_image_on_canvas ext image canvas_size bg_color world
  = (Ret None, log_skip image canvas_size world).
Proof.
  intros H. unfold Cli.center_image_on_canvas.
  replace ((width image >? canvas_size) || (height image >? canvas_size))
    with true.
  - reflexivity.
  - symmetry. apply orb_true_iff. lia.
Qed.

(** C2.  In the command-line tool (no downscaling), an image whose width or
    height strictly exceeds the canvas size makes [center_image_on_canvas]
    return [None] (a value, not an exception) after logging a warning, no
    canvas being created; [process_image] on a file that decodes to such an
    image returns [False], and has written nothing: the file system is
    unchanged and the only I/O is the opening of the input. *)
Theorem C2_oversized_is_skipped (ext : External) (image : Image)
    (canvas_size : Z) (bg_color : option Color) (world : World)
    (input_path output_path : Path) (format : string)
    (params : gmap string InfoValue) :
  width image > canvas_size \/ height image > canvas_size ->
  fs world !! input_path = Some (File (Encoded format params image)) ->
  Cli.center_image_on_canvas ext image canvas_size bg_color world
    = (Ret None, log_skip image canvas_size world) /\
  exists world',
    Cli.process_image ext input_path output_path canvas_size bg_color world
      = (Ret false, world') /\
    fs world' = fs world /\
    io world' = (io world ++ [Opened input_path])%list.
Proof.
  intros Hbig Hfile. split; [apply cli_center_oversized; assumption|].
  unfold Cli.process_image, try_except, bind at 1, PIL.open.
  rewrite Hfile.
  set (w1 := mk_world (fs world) (log world) (io world ++ [Opened input_path])%list).
  unfold bind at 1.
  destruct (apply_exif_orientation_total ext image w1)
    as (image' & w2 & Happ & Hfs & Hio & Hdims).
  rewrite Happ. unfold bind at 1.
  rewrite cli_center_oversized by lia.
  eexists. split; [reflexivity|]. simpl. rewrite Hfs, Hio. auto.
Qed.

Lemma C2_oversized_is_skipped_witness :
  let image := solid 2000 1000 "RGB" ∅ [1; 2; 3] in
  let world := world_with ["in.jpg"] "JPEG" image in
  exists world',
    Cli.process_image plain_external ["in.jpg"] ["out.png"] 1200 None world
      = (Ret false, world') /\
    fs world' = fs world.
Proof.
  intros image world.
  destruct (C2_oversized_is_skipped plain_external image 1200 None world
              ["in.jpg"] ["out.png"] "JPEG" ∅)
    as (_ & world' & Hrun & Hfs & _).
  - left. simpl. lia.
  - reflexivity.
  - exists world'. split; assumption.
Defined.

(** ** C3: the web service scales an oversized image down                 *)

Lemma frac_le_trans g b w S :
  0 <= w ->
  num g * den b <= num b * den g ->
  num b * w * 2 ^ 53 <= S * (2 ^ 53 + 1) * den b ->
  num g * w * 2 ^ 53 <= S * (2 ^ 53 + 1) * den g.
Proof.
  intros Hw Hgb Hb.
  pose proof (den_pos b) as Hdb. pose proof (den_pos g) as Hdg.
  apply (Z.mul_le_mono_pos_r _ _ (den b) Hdb).
  transitivity (num b * den g * (w * 2 ^ 53)).
  - replace (num g * w * 2 ^ 53 * den b) with (num g * den b * (w * 2 ^ 53))
      by ring.
    apply Z.mul_le_mono_nonneg_r; lia.
  - replace (num b * den g * (w * 2 ^ 53)) with (num b * w * 2 ^ 53 * den g)
      by ring.
    replace (S * (2 ^ 53 + 1) * den g * den b)
      with (S * (2 ^ 53 + 1) * den b * den g) by ring.
    apply Z.mul_le_mono_nonneg_r; lia.
Qed.

(** Both extents of the size asked of [resize] are at most the canvas
    size. *)
Lemma resize_target_bounds w h canvas_size :
  0 < w < 2 ^ 31 -> 0 < h < 2 ^ 31 -> 0 < canvas_size < 2 ^ 31 ->
  exists by_width by_height,
    truediv canvas_size w = Some by_width /\
    truediv canvas_size h = Some by_height /\
    0 <= to_int (mul_int_float w (fmin by_width by_height)) <= canvas_size /\
    0 <= to_int (mul_int_float h (fmin by_width by_height)) <= canvas_size.
Proof.
  intros Hw Hh HS.
  exists (rnd_pos canvas_size w), (rnd_pos canvas_size h).
  rewrite !truediv_pos by lia.
  set (bw := rnd_pos canvas_size w). set (bh := rnd_pos canvas_size h).
  assert (Hbw : 0 < mant bw) by (apply rnd_pos_mant_pos; lia).
  assert (Hbh : 0 < mant bh) by (apply rnd_pos_mant_pos; lia).
  assert (Hg : 0 < mant (fmin bw bh)).
  { destruct (fmin_cases bw bh) as [-> | ->]; assumption. }
  assert (2 ^ 31 < 2 ^ 51) by reflexivity.
  assert (2 ^ 31 < 2 ^ 53) by reflexivity.
  split; [reflexivity|]. split; [reflexivity|]. split.
  - apply scaled_dim_le; try lia; try assumption.
    apply (frac_le_trans _ bw); [lia|apply fmin_le_l|].
    apply rnd_pos_upper; lia.
  - apply scaled_dim_le; try lia; try assumption.
    apply (frac_le_trans _ bh); [lia|apply fmin_le_r|].
    apply rnd_pos_upper; lia.
Qed.

Lemma oversized_test image canvas_size :
  width image > canvas_size \/ height image > canvas_size ->
  (width image >? canvas_size) || (height image >? canvas_size) = true.
Proof. intros H. apply orb_true_iff. lia. Qed.

(** The web service on an oversized image: the resize asked for, then the
    second half on the resized image. *)
Lemma web_center_oversized_tail ext image canvas_size bg_color world nw nh
    resized :
  width image > canvas_size \/ height image > canvas_size ->
  resize_target (width image) (height image) canvas_size = Some (nw, nh) ->
  PIL.resize ext image (nw, nh) = Ret resized ->
  Web.center_image_on_canvas ext image canvas_size bg_color world
  = center_tail ext resized canvas_size bg_color
      (log_resized nw nh canvas_size world).
Proof.
  intros Hbig Htarget Hres.
  unfold Web.center_image_on_canvas. rewrite (oversized_test _ _ Hbig).
  unfold resize_target in Htarget.
  unfold Web.py_truediv, center_tail, bind, lift, ret, logger_info, logger.
  destruct (truediv canvas_size (width image)) as [bw|]; [|discriminate].
  destruct (truediv canvas_size (height image)) as [bh|]; [|discriminate].
  injection Htarget as Hnw Hnh. rewrite Hnw, Hnh, Hres. reflexivity.
Qed.


Lemma web_center_resize_fails ext image canvas_size bg_color world nw nh e :
  width image > canvas_size \/ height image > canvas_size ->
  resize_target (width image) (height image) canvas_size = Some (nw, nh) ->
  PIL.resize ext image (nw, nh) = Raise e ->
  Web.center_image_on_canvas ext image canvas_size bg_color world
  = (Raise e, world).
Proof.
  intros Hbig Htarget Hres.
  unfold Web.center_image_on_canvas. rewrite (oversized_test _ _ Hbig).
  unfold resize_target in Htarget.
  unfold Web.py_truediv, bind, lift, ret.
  destruct (truediv canvas_size (width image)) as [bw|]; [|discriminate].
  destruct (truediv canvas_size (height image)) as [bh|]; [|discriminate].
  injection Htarget as Hnw Hnh. rewrite Hnw, Hnh, Hres. reflexivity.
Qed.

Lemma web_center_zero_extent ext image canvas_size bg_color world :
  width image > canvas_size \/ height image > canvas_size ->
  resize_target (width image) (height image) canvas_size = None ->
  Web.center_image_on_canvas ext image canvas_size bg_color world
  = (Raise ZeroDivisionError, world).
Proof.
  intros Hbig Htarget.
  unfold Web.center_image_on_canvas. rewrite (oversized_test _ _ Hbig).
  unfold resize_target in Htarget.
  unfold Web.py_truediv, bind, lift, ret, raise.
  destruct (truediv canvas_size (width image)) as [bw|]; [|reflexivity].
  destruct (truediv canvas_size (height image)) as [bh|]; [|reflexivity].
  discriminate.
Qed.

Lemma resize_new_size ext image nw nh :
  (nw, nh) <> (width image, height image) -> 1 <= nw -> 1 <= nh ->
  PIL.resize ext image (nw, nh) = Ret (resized_image ext image (nw, nh)).
Proof.
  intros Hne Hw Hh. unfold PIL.resize. simpl fst. simpl snd.
  replace ((nw =? width image) && (nh =? height image)) with false.
  - replace ((nw <? 1) || (nh <? 1)) with false; [reflexivity|].
    symmetry. apply orb_false_iff. lia.
  - symmetry. apply andb_false_iff.
    destruct (Z.eqb_spec nw (width image)); [|auto].
    destruct (Z.eqb_spec nh (height image)); [|auto]. congruence.
Qed.

Lemma resize_too_small ext image nw nh :
  (nw, nh) <> (width image, height image) -> nw < 1 \/ nh < 1 ->
  PIL.resize ext image (nw, nh)
  = Raise (ValueError "height and width must be > 0").
Proof.
  intros Hne Hsmall. unfold PIL.resize. simpl fst. simpl snd.
  replace ((nw =? width image) && (nh =? height image)) with false.
  - replace ((nw <? 1) || (nh <? 1)) with true; [reflexivity|].
    symmetry. apply orb_true_iff. lia.
  - symmetry. apply andb_false_iff.
    destruct (Z.eqb_spec nw (width image)); [|auto].
    destruct (Z.eqb_spec nh (height image)); [|auto]. congruence.
Qed.




(** ** C10: the pasted image lies within the canvas                       *)

Lemma rnd_nonpos n d : n <= 0 -> 0 < d -> mant (rnd n d) <= 0.
Proof.
  intros Hn Hd. unfold rnd.
  destruct (Z.compare_spec n 0) as [E|L|G]; [simpl; lia| |exfalso; lia].
  change (- mant (rnd_pos (- n) d) <= 0).
  pose proof (rnd_pos_mant_pos (- n) d ltac:(lia) Hd). lia.
Qed.

Lemma to_int_nonpos f : mant f <= 0 -> to_int f <= 0.
Proof.
  intros H. unfold to_int, num.
  pose proof (pow2_pos (expo f)) as HA. pose proof (den_pos f) as HB.
  set (n := mant f * pow2 (expo f)).
  assert (Hn : n <= 0) by (unfold n; nia).
  replace n with (- - n) by lia. rewrite Z.quot_opp_l by lia.
  pose proof (Z.quot_pos (- n) (den f) ltac:(lia) HB). lia.
Qed.

Lemma of_int_mant_pos w : 0 < w -> 0 < mant (of_int w).
Proof.
  intros H. unfold of_int, rnd.
  replace (w ?= 0) with Gt by (symmetry; apply Z.compare_gt_iff; lia).
  apply rnd_pos_mant_pos; lia.
Qed.

Lemma fmul_nonpos f g : 0 < mant f -> mant g <= 0 -> mant (fmul f g) <= 0.
Proof.
  intros Hf Hg. unfold fmul. apply rnd_nonpos; [|apply pow2_pos].
  pose proof (pow2_pos (expo f + expo g)). nia.
Qed.

Lemma truediv_some a b : b <> 0 -> truediv a b = Some (rnd (a * Z.sgn b) (Z.abs b)).
Proof.
  intros H. unfold truediv. destruct (Z.eqb_spec b 0); [contradiction|reflexivity].
Qed.

(** With a canvas size that is not positive, the size asked of [resize]
    has no positive extent. *)
Lemma resize_target_nonpos w h canvas_size :
  0 < w -> 0 < h -> canvas_size <= 0 ->
  exists nw nh, resize_target w h canvas_size = Some (nw, nh) /\ nw <= 0.
Proof.
  intros Hw Hh HS. unfold resize_target.
  rewrite !truediv_some by lia.
  rewrite !Z.sgn_pos, !Z.abs_eq, !Z.mul_1_r by lia.
  eexists _, _. split; [reflexivity|].
  apply to_int_nonpos. unfold mul_int_float.
  apply fmul_nonpos; [apply of_int_mant_pos; assumption|].
  destruct (fmin_cases (rnd canvas_size w) (rnd canvas_size h)) as [-> | ->];
    apply rnd_nonpos; lia.
Qed.

Lemma resize_target_none w h canvas_size :
  resize_target w h canvas_size = None -> w = 0 \/ h = 0.
Proof.
  unfold resize_target, truediv.
  destruct (Z.eqb_spec w 0); [auto|].
  destruct (Z.eqb_spec h 0); [auto|]. discriminate.
Qed.

Lemma paste_centered_bounds ext image canvas_size bg_color canvas :
  width image <= canvas_size -> height image <= canvas_size ->
  paste_centered ext image canvas_size bg_color = Ret (Some canvas) ->
  PIL.paste ext (blank_canvas canvas_size bg_color) image
    (offset canvas_size (width image), offset canvas_size (height image))
    (mask_of image) = Ret canvas /\
  0 <= offset canvas_size (width image) /\
  0 <= offset canvas_size (height image) /\
  offset canvas_size (width image) + width image <= canvas_size /\
  offset canvas_size (height image) + height image <= canvas_size.
Proof.
  intros Hw Hh. unfold paste_centered.
  destruct (PIL.paste _ _ _ _ _) as [c|e|s]; try discriminate.
  intros E. injection E as ->.
  destruct (offset_bounds canvas_size (width image) Hw) as (? & ? & _).
  destruct (offset_bounds canvas_size (height image) Hh) as (? & ? & _).
  auto.
Qed.

(** The oversized case of C10: the command-line tool returns no canvas,
    the web service pastes the resized image. *)
Lemma C10_oversized ext image canvas_size bg_color world world' canvas :
  pillow_size (width image) -> pillow_size (height image) ->
  canvas_size < 2 ^ 31 ->
  width image > canvas_size \/ height image > canvas_size ->
  Cli.center_image_on_canvas ext image canvas_size bg_color world
    = (Ret (Some canvas), world') \/
  Web.center_image_on_canvas ext image canvas_size bg_color world
    = (Ret (Some canvas), world') ->
  exists placed,
    (placed = image \/ exists size, PIL.resize ext image size = Ret placed) /\
    let x := offset canvas_size (width placed) in
    let y := offset canvas_size (height placed) in
    PIL.paste ext (blank_canvas canvas_size bg_color) placed (x, y)
      (mask_of placed) = Ret canvas /\
    0 <= x /\ 0 <= y /\
    x + width placed <= canvas_size /\ y + height placed <= canvas_size.
Proof.
  intros [Hw0 Hw1] [Hh0 Hh1] HS Hbig [Hrun|Hrun].
  { rewrite cli_center_oversized in Hrun by assumption. discriminate. }
  destruct (resize_target (width image) (height image) canvas_size)
    as [[nw nh]|] eqn:Htarget.
  2:{ rewrite web_center_zero_extent in Hrun by assumption. discriminate. }
  assert (Hpos : 0 < width image /\ 0 < height image).
  { unfold resize_target, truediv in Htarget.
    destruct (Z.eqb_spec (width image) 0); [discriminate|].
    destruct (Z.eqb_spec (height image) 0); [discriminate|]. lia. }
  destruct Hpos as [Hwp Hhp].
  destruct (Z_le_gt_dec canvas_size 0) as [Hneg|Hposs].
  { (* no canvas for a canvas size that is not positive *)
    destruct (resize_target_nonpos (width image) (height image) canvas_size
                Hwp Hhp Hneg) as (nw' & nh' & E & Hn).
    rewrite Htarget in E. injection E as <- <-.
    rewrite (web_center_resize_fails ext image canvas_size bg_color world nw nh
               (ValueError "height and width must be > 0")) in Hrun;
      try assumption; [discriminate|].
    apply resize_too_small; [|lia].
    intros Heq. injection Heq as E1 E2. lia. }
  assert (Hle : nw <= canvas_size /\ nh <= canvas_size).
  { destruct (resize_target_bounds (width image) (height image) canvas_size)
      as (bw & bh & Hbw & Hbh & Hnw & Hnh); try lia.
    unfold resize_target in Htarget. rewrite Hbw, Hbh in Htarget.
    injection Htarget as <- <-. lia. }
  destruct Hle as (Hnw & Hnh).
  assert (Hne : (nw, nh) <> (width image, height image)).
  { intros Heq. injection Heq as E1 E2. lia. }
  destruct (Z_lt_ge_dec nw 1) as [Hs|Hs];
    [|destruct (Z_lt_ge_dec nh 1) as [Hs'|Hs']].
  - rewrite (web_center_resize_fails ext image canvas_size bg_color world nw nh
               (ValueError "height and width must be > 0")) in Hrun;
      try assumption; [discriminate|].
    apply resize_too_small; [assumption|lia].
  - rewrite (web_center_resize_fails ext image canvas_size bg_color world nw nh
               (ValueError "height and width must be > 0")) in Hrun;
      try assumption; [discriminate|].
    apply resize_too_small; [assumption|lia].
  - pose proof (resize_new_size ext image nw nh Hne ltac:(lia) ltac:(lia))
      as Hres.
    rewrite (web_center_oversized_tail ext image canvas_size bg_color world
               nw nh (resized_image ext image (nw, nh)) Hbig Htarget Hres)
      in Hrun.
    exists (resized_image ext image (nw, nh)).
    split; [right; exists (nw, nh); exact Hres|].
    apply paste_centered_bounds; try (simpl; lia).
    destruct (center_tail_cases ext (resized_image ext image (nw, nh))
                canvas_size bg_color (log_resized nw nh canvas_size world))
      as [E|[e E]]; rewrite E in Hrun; congruence.
Qed.

(** C10.  Whenever either [center_image_on_canvas] returns a canvas (sizes
    being such as Pillow can hold), that canvas is the blank canvas with
    one image pasted onto it, the source or the source resized, at
    offsets [x = (S - w) // 2], [y = (S - h) // 2] with [0 <= x],
    [0 <= y], [x + w <= S] and [y + h <= S], for [w] and [h] the extents of
    the pasted image: the command-line tool has skipped an oversized
    image, the web service has scaled it down to fit first. *)
Theorem C10_paste_stays_inside (ext : External) (image : Image)
    (canvas_size : Z) (bg_color : option Color) (world world' : World)
    (canvas : Image) :
  pillow_size (width image) -> pillow_size (height image) ->
  canvas_size < 2 ^ 31 ->
  Cli.center_image_on_canvas ext image canvas_size bg_color world
    = (Ret (Some canvas), world') \/
  Web.center_image_on_canvas ext image canvas_size bg_color world
    = (Ret (Some canvas), world') ->
  exists placed,
    (placed = image \/ exists size, PIL.resize ext image size = Ret placed) /\
    let x := offset canvas_size (width placed) in
    let y := offset canvas_size (height placed) in
    PIL.paste ext (blank_canvas canvas_size bg_color) placed (x, y)
      (mask_of placed) = Ret canvas /\
    0 <= x /\ 0 <= y /\
    x + width placed <= canvas_size /\ y + height placed <= canvas_size.
Proof.
  intros [Hw0 Hw1] [Hh0 Hh1] HS Hrun.
  destruct (Z_le_gt_dec (width image) canvas_size) as [Hw|Hw];
    [destruct (Z_le_gt_dec (height image) canvas_size) as [Hh|Hh]|].
  - (* the image fits *)
    exists image. split; [left; reflexivity|].
    apply paste_centered_bounds; try assumption.
    exact (center_fits_returned ext image canvas_size bg_color world canvas
             world' Hw Hh Hrun).
  - apply (C10_oversized ext image canvas_size bg_color world world' canvas);
      unfold pillow_size; auto.
  - apply (C10_oversized ext image canvas_size bg_color world world' canvas);
      unfold pillow_size; auto.
Qed.

Lemma C10_paste_stays_inside_witness :
  let image := solid 2000 1000 "RGB" ∅ [1; 2; 3] in
  exists canvas world' placed,
    Web.center_image_on_canvas plain_external image 1200 None empty_world
      = (Ret (Some canvas), world') /\
    PIL.paste plain_external (blank_canvas 1200 None) placed
      (offset 1200 (width placed), offset 1200 (height placed))
      (mask_of placed) = Ret canvas /\
    0 <= offset 1200 (width placed) /\
    offset 1200 (width placed) + width placed <= 1200.
Proof.
  intros image.
  destruct (Web.center_image_on_canvas plain_external image 1200 None
              empty_world) as [[[canvas| ] | e | s] world'] eqn:Hrun;
    [|vm_compute in Hrun; discriminate ..].
  destruct (C10_paste_stays_inside plain_external image 1200 None empty_world
              world' canvas) as (placed & _ & Hp & Hx & _ & Hxw & _).
  - unfold pillow_size. simpl. lia.
  - unfold pillow_size. simpl. lia.
  - lia.
  - right. exact Hrun.
  - exists canvas, world', placed. auto.
Defined.

(** ** C4: parsing the background colour                                  *)

Lemma parse_color_raises_value_error color_str e :
  Cli.parse_color color_str = Raise e -> exn_class e = "ValueError".
Proof.
  unfold Cli.parse_color. destruct color_str as [s|]; [|discriminate].
  cbv zeta. unfold Cli.obind, Cli.parse_hex.
  destruct (PyStr.len _ =? 6); [|destruct (PyStr.len _ =? 3)];
    repeat (match goal with
            | |- context [PyStr.int16 ?x] => destruct (PyStr.int16 x)
            end);
    intros H; inversion H; reflexivity.
Qed.

(** C4.  [parse_color] maps ["#ffffff"] and ["#fff"] to (255, 255, 255)
    and ["abc"] to (170, 187, 204), which is what ["aabbcc"] gives
    (nibble duplication: each digit is multiplied by 17); ["12"], and every string whose
    length (white space and one leading hash set aside) is neither 6 nor
    3, raises [ValueError] "Invalid color format".  When [parse_color]
    raises, [main] logs the error and exits with status 1 at once: no file
    is opened or written (the file system and the I/O trace are as
    before). *)
Theorem C4_parse_color (ext : External) (color_str : string)
    (args : Cli.Args) (world : World) (e : Exn) :
  Cli.parse_color (Some "#ffffff") = Ret (Some (255, 255, 255)) /\
  Cli.parse_color (Some "#fff") = Ret (Some (255, 255, 255)) /\
  Cli.parse_color (Some "abc") = Ret (Some (170, 187, 204)) /\
  Cli.parse_color (Some "abc") = Cli.parse_color (Some "aabbcc") /\
  Cli.parse_color (Some "12") = Raise (ValueError "Invalid color format: 12") /\
  (PyStr.len (normalise_color color_str) <> 6 ->
   PyStr.len (normalise_color color_str) <> 3 ->
   Cli.parse_color (Some color_str)
   = Raise (ValueError ("Invalid color format: " ++ normalise_color color_str))) /\
  (Cli.parse_color (Cli.arg_bg args) = Raise e ->
   Cli.main ext args world = (Exit 1, log_color_error e world)).
Proof.
  repeat (split; [reflexivity|]). split.
  - intros H6 H3. unfold Cli.parse_color, normalise_color in *.
    cbv zeta in *.
    destruct (Z.eqb_spec
                (PyStr.len
                   (if PyStr.startswith (PyStr.strip color_str) "#"
                    then PyStr.slice_from (PyStr.strip color_str) 1
                    else PyStr.strip color_str)) 6) as [E|_];
      [contradiction|].
    destruct (Z.eqb_spec
                (PyStr.len
                   (if PyStr.startswith (PyStr.strip color_str) "#"
                    then PyStr.slice_from (PyStr.strip color_str) 1
                    else PyStr.strip color_str)) 3) as [E|_];
      [contradiction|].
    reflexivity.
  - intros Hparse.
    pose proof (parse_color_raises_value_error _ _ Hparse) as Hcls.
    unfold Cli.main, bind at 1, try_except_class, lift.
    rewrite Hparse, Hcls. reflexivity.
Qed.

Lemma C4_parse_color_witness :
  let args := Cli.mk_args ["in.png"] ["out.png"] 1200 (Some "12") in
  let world := world_with ["in.png"] "PNG" (solid 1 1 "RGB" ∅ [1; 2; 3]) in
  Cli.parse_color (Some "12") = Raise (ValueError "Invalid color format: 12") /\
  Cli.main plain_external args world
  = (Exit 1, log_color_error (ValueError "Invalid color format: 12") world).
Proof.
  intros args world.
  destruct (C4_parse_color plain_external "12" args world
              (ValueError "Invalid color format: 12"))
    as (_ & _ & _ & _ & _ & Hlen & Hmain).
  split.
  - apply Hlen; vm_compute; discriminate.
  - apply Hmain. reflexivity.
Defined.

(** ** C5: orientation normalisation never fails the pipeline             *)

(** C5 (as amended).  [apply_exif_orientation] (the same function in both
    programs) always returns an image and never raises.  When
    [exif_transpose] raises (unreadable EXIF data, a transform that cannot
    be applied), a warning is logged, the image is returned unchanged, and
    whatever follows in the pipeline runs on that unchanged image.  When
    the orientation tag is absent, or names no transform, the image is
    returned unchanged and nothing is logged. *)
Theorem C5_orientation_never_fails (ext : External) (image : Image)
    (world : World) (B : Type) (k : Image -> M B) :
  Web.apply_exif_orientation ext = Cli.apply_exif_orientation ext /\
  (exists image' world',
     Cli.apply_exif_orientation ext image world = (Ret image', world')) /\
  (forall e, PIL.exif_transpose ext image = Raise e ->
     Cli.apply_exif_orientation ext image world
       = (Ret image, log_exif_warning e world) /\
     bind (Cli.apply_exif_orientation ext image) k world
       = k image (log_exif_warning e world)) /\
  (forall o, getexif image = ExifTags o ->
     PIL.transpose_for (default 1 o) image = None ->
     Cli.apply_exif_orientation ext image world = (Ret image, world) /\
     bind (Cli.apply_exif_orientation ext image) k world = k image world).
Proof.
  split; [reflexivity|]. split.
  - destruct (apply_exif_orientation_total ext image world)
      as (image' & world' & H & _). eauto.
  - split.
    + intros e He.
      assert (H : Cli.apply_exif_orientation ext image world
                  = (Ret image, log_exif_warning e world)).
      { unfold Cli.apply_exif_orientation, try_except, lift. rewrite He.
        reflexivity. }
      split; [exact H|]. unfold bind. rewrite H. reflexivity.
    + intros o Ho Hnone.
      assert (H : Cli.apply_exif_orientation ext image world = (Ret image, world)).
      { unfold Cli.apply_exif_orientation, try_except, lift, PIL.exif_transpose.
        rewrite Ho, Hnone. reflexivity. }
      split; [exact H|]. unfold bind. rewrite H. reflexivity.
Qed.

Lemma C5_orientation_never_fails_witness :
  let e := mk_exn "SyntaxError" "not a TIFF file" in
  let image := mk_image 4 3 "RGB" ∅ (ExifError e) (fun _ _ => [1; 2; 3]) in
  Cli.apply_exif_orientation plain_external image empty_world
  = (Ret image, log_exif_warning e empty_world).
Proof.
  intros e image.
  destruct (C5_orientation_never_fails plain_external image empty_world
              Image ret) as (_ & _ & Hraise & _).
  apply (Hraise e). reflexivity.
Defined.

(** C5 as stated fails for an absent tag: the image comes back unchanged,
    but no warning is logged. *)
Lemma C5_counterexample :
  let image := solid 4 3 "RGB" ∅ [1; 2; 3] in
  getexif image = ExifTags None /\
  Cli.apply_exif_orientation plain_external image empty_world
    = (Ret image, empty_world) /\
  Web.apply_exif_orientation plain_external image empty_world
    = (Ret image, empty_world) /\
  log empty_world = [].
Proof. intros image. repeat split; reflexivity. Qed.

(** ** C6: metadata of the source                                         *)

Lemma truthy_some v : truthy v = true -> Some (default (IBytes "") v) = v.
Proof. destruct v; [reflexivity|discriminate]. Qed.

Lemma save_params_exif output_ext exif icc :
  Cli.save_params output_ext exif icc !! "exif"
  = (if truthy exif then exif else None).
Proof.
  unfold Cli.save_params.
  destruct (truthy icc); [rewrite lookup_insert_ne by discriminate|];
    (destruct (truthy exif) eqn:He;
     [rewrite lookup_insert_eq; apply truthy_some; assumption|]);
    (destruct (String.eqb output_ext ".webp");
     [apply lookup_singleton_ne; discriminate|apply lookup_empty]).
Qed.

Lemma save_params_icc output_ext exif icc :
  Cli.save_params output_ext exif icc !! "icc_profile"
  = (if truthy icc then icc else None).
Proof.
  unfold Cli.save_params.
  destruct (truthy icc) eqn:Hi;
    [rewrite lookup_insert_eq; apply truthy_some; assumption|].
  destruct (truthy exif); [rewrite lookup_insert_ne by discriminate|];
    (destruct (String.eqb output_ext ".webp");
     [apply lookup_singleton_ne; discriminate|apply lookup_empty]).
Qed.

(** The metadata of the image after orientation normalisation: the colour
    profile is the source's; the EXIF blob is the source's, or the one
    written anew after a transposition. *)
Lemma apply_exif_orientation_info ext image world oriented world' :
  Cli.apply_exif_orientation ext image world = (Ret oriented, world') ->
  info oriented !! "icc_profile" = info image !! "icc_profile" /\
  (info oriented !! "exif" = info image !! "exif" \/
   info oriented !! "exif" = exif_tobytes ext <$> info image !! "exif").
Proof.
  unfold Cli.apply_exif_orientation, try_except, lift, PIL.exif_transpose.
  destruct (getexif image) as [e|o].
  - intros H. inversion H; subst. auto.
  - destruct (PIL.transpose_for (default 1 o) image) as [t|] eqn:Ht.
    + apply transpose_for_shape in Ht as (_ & Hinfo & _).
      intros H. inversion H; subst. simpl. rewrite Hinfo.
      destruct (info image !! "exif") as [v|] eqn:Hv.
      * rewrite lookup_insert_ne by discriminate.
        rewrite lookup_insert_eq. auto.
      * rewrite Hv. auto.
    + intros H. inversion H; subst. auto.
Qed.

Lemma paste_info ext canvas image box mask canvas' :
  PIL.paste ext canvas image box mask = Ret canvas' ->
  info canvas' = info canvas.
Proof.
  unfold PIL.paste. destruct (PIL.source_pixels _ _ _); try discriminate.
  destruct mask as [m|].
  - destruct (PIL.mask_kind (mode m)) as [[kind band]|]; [|discriminate].
    intros H. inversion H. reflexivity.
  - intros H. inversion H. reflexivity.
Qed.

Lemma new_info ext m size color canvas :
  PIL.new ext m size color = Ret canvas -> info canvas = ∅.
Proof. intros H. apply new_returned in H. subst canvas. reflexivity. Qed.

Lemma web_center_halves ext image canvas_size bg_color :
  Web.center_image_on_canvas ext image canvas_size bg_color
  = bind (web_fit ext image canvas_size)
      (fun image => center_tail ext image canvas_size bg_color).
Proof. reflexivity. Qed.

Lemma cli_center_halves ext image canvas_size bg_color :
  Cli.center_image_on_canvas ext image canvas_size bg_color
  = if (width image >? canvas_size) || (height image >? canvas_size)
    then bind (logger_warning
                 "Image {}x{} exceeds canvas size {}x{} - skipping"
                 [AInt (width image); AInt (height image);
                  AInt canvas_size; AInt canvas_size])
           (fun _ => ret None)
    else center_tail ext image canvas_size bg_color.
Proof. reflexivity. Qed.

(** The second half touches neither files nor logs, and the canvas it
    returns carries no metadata. *)
Lemma center_tail_effects ext image canvas_size bg_color world r world' :
  center_tail ext image canvas_size bg_color world = (r, world') ->
  world' = world /\
  forall canvas, r = Ret (Some canvas) -> info canvas = ∅.
Proof.
  unfold center_tail, bind, lift, ret.
  destruct (match bg_color with
            | None => PIL.new ext "RGBA" (canvas_size, canvas_size) [0; 0; 0; 0]
            | Some c => PIL.new ext "RGB" (canvas_size, canvas_size) (color_pixel c)
            end) as [blank|e|s] eqn:Hnew.
  2,3: intros H; inversion H; split; [reflexivity|discriminate].
  assert (Hblank : info blank = ∅)
    by (destruct bg_color; eapply new_info; exact Hnew).
  rewrite mask_of_branches.
  destruct (PIL.paste _ _ _ _ _) as [c|e|s] eqn:Hp;
    intros H; inversion H; (split; [reflexivity|]); try discriminate.
  intros canvas E. injection E as <-.
  apply paste_info in Hp. congruence.
Qed.

Lemma web_fit_effects ext image canvas_size world r world' :
  web_fit ext image canvas_size world = (r, world') ->
  fs world' = fs world /\ io world' = io world.
Proof.
  unfold web_fit, Web.py_truediv, bind, lift, ret, raise, logger_info, logger.
  destruct (_ || _); [|intros H; inversion H; auto].
  destruct (truediv canvas_size (width image)); [|intros H; inversion H; auto].
  destruct (truediv canvas_size (height image)); [|intros H; inversion H; auto].
  destruct (PIL.resize _ _ _); intros H; inversion H; auto.
Qed.

Lemma cli_center_effects ext image canvas_size bg_color world r world' :
  Cli.center_image_on_canvas ext image canvas_size bg_color world = (r, world') ->
  fs world' = fs world /\ io world' = io world /\
  forall canvas, r = Ret (Some canvas) -> info canvas = ∅.
Proof.
  rewrite cli_center_halves. destruct (_ || _).
  - intros H. inversion H. simpl. repeat split. discriminate.
  - intros H. apply center_tail_effects in H as [-> Hinfo]. auto.
Qed.

Lemma web_center_effects ext image canvas_size bg_color world r world' :
  Web.center_image_on_canvas ext image canvas_size bg_color world = (r, world') ->
  fs world' = fs world /\ io world' = io world /\
  forall canvas, r = Ret (Some canvas) -> info canvas = ∅.
Proof.
  rewrite web_center_halves. unfold bind at 1.
  destruct (web_fit ext image canvas_size world) as [[img|e|s] w1] eqn:Hfit;
    apply web_fit_effects in Hfit as [Hfs Hio].
  - intros H. apply center_tail_effects in H as [-> Hinfo]. auto.
  - intros H. inversion H; subst. repeat split; try assumption. discriminate.
  - intros H. inversion H; subst. repeat split; try assumption. discriminate.
Qed.

Lemma apply_exif_orientation_fs ext image world oriented world' :
  Cli.apply_exif_orientation ext image world = (Ret oriented, world') ->
  fs world' = fs world /\ io world' = io world.
Proof.
  intros H.
  destruct (apply_exif_orientation_total ext image world)
    as (i & w & E & Hfs & Hio & _).
  rewrite H in E. inversion E; subst. auto.
Qed.

Lemma not_encoded_after_failure (f : gmap Path Node) (p : Path) :
  forall fmt kw c,
    (if path_exists f p then <[p := File Undecodable]> f else f) !! p
    <> Some (File (Encoded fmt kw c)).
Proof.
  intros fmt kw c. destruct (path_exists f p) eqn:Hex.
  - rewrite lookup_insert_eq. discriminate.
  - unfold path_exists in Hex. destruct p as [|a p]; [discriminate|].
    apply bool_decide_eq_false in Hex.
    intros Heq. apply Hex. rewrite Heq. eauto.
Qed.

(** C6 (as amended).  For an image that decodes, is orientation-normalised
    to [oriented] and composited to [canvas], with a writable destination:
    the command-line tool hands the encoder the EXIF blob and the colour
    profile found in the info of [oriented], each when present and not
    empty, unchanged (the colour profile is the source's; the EXIF blob is
    the source's unless a transposition had it written anew), and a
    successful run stores them with the output; when the encoder fails,
    [process_image] returns [False] and the destination holds no encoded
    image.  The web service hands the encoder no metadata: its output
    carries neither blob. *)
Theorem C6_metadata_carry (ext : External) (image oriented canvas : Image)
    (canvas_size : Z) (bg_color : option Color) (world w1 w2 : World)
    (input_path output_path : Path) (format : string)
    (params : gmap string InfoValue) :
  fs world !! input_path = Some (File (Encoded format params image)) ->
  Cli.apply_exif_orientation ext image (opened input_path world)
    = (Ret oriented, w1) ->
  Cli.center_image_on_canvas ext oriented canvas_size bg_color w1
    = (Ret (Some canvas), w2) ->
  is_dir (fs world) (parent output_path) = true ->
  is_dir (fs world) output_path = false ->
  let output_ext := PyStr.lower (suffix output_path) in
  let exif := info oriented !! "exif" in
  let icc_profile := info oriented !! "icc_profile" in
  let kw := Cli.save_params output_ext exif icc_profile in
  icc_profile = info image !! "icc_profile" /\
  (exif = info image !! "exif" \/
   exif = exif_tobytes ext <$> info image !! "exif") /\
  kw !! "exif" = (if truthy exif then exif else None) /\
  kw !! "icc_profile" = (if truthy icc_profile then icc_profile else None) /\
  (encode_error ext (Cli.save_format output_ext) kw canvas = None ->
   exists world',
     Cli.process_image ext input_path output_path canvas_size bg_color world
       = (Ret true, world') /\
     fs world' !! output_path
       = Some (File (Encoded (Cli.save_format output_ext) kw canvas))) /\
  (forall e, encode_error ext (Cli.save_format output_ext) kw canvas = Some e ->
   exists world',
     Cli.process_image ext input_path output_path canvas_size bg_color world
       = (Ret false, world') /\
     forall fmt kw' c,
       fs world' !! output_path <> Some (File (Encoded fmt kw' c))) /\
  (forall canvas' w2',
     Web.center_image_on_canvas ext oriented canvas_size bg_color w1
       = (Ret (Some canvas'), w2') ->
     encode_error ext "PNG" ∅ canvas' = None ->
     exists world',
       Web.process_single_image ext input_path output_path canvas_size
         bg_color world = (Ret true, world') /\
       fs world' !! output_path = Some (File (Encoded "PNG" ∅ canvas')) /\
       info canvas' = ∅).
Proof.
  intros Hfile Happ Hcenter Hparent Hnodir output_ext exif icc_profile kw.
  destruct (apply_exif_orientation_info ext image _ _ _ Happ) as [Hicc Hexif].
  destruct (apply_exif_orientation_fs ext image _ _ _ Happ) as [Hfs1 _].
  simpl in Hfs1.
  split; [exact Hicc|]. split; [exact Hexif|].
  split; [apply save_params_exif|]. split; [apply save_params_icc|].
  assert (Hstart : forall B (k : Image -> M B),
            bind (PIL.open input_path)
              (fun img => bind (Cli.apply_exif_orientation ext img) k) world
            = k oriented w1).
  { intros B k. unfold bind at 1, PIL.open. rewrite Hfile.
    change (mk_world (fs world) (log world) (io world ++ [Opened input_path])%list)
      with (opened input_path world).
    unfold bind. rewrite Happ. reflexivity. }
  split; [|split].
  - intros Henc.
    destruct (cli_center_effects ext _ _ _ _ _ _ Hcenter) as (Hfs2 & _ & _).
    unfold Cli.process_image, try_except. rewrite Hstart.
    unfold bind at 1. rewrite Hcenter.
    unfold bind at 1, PIL.save.
    rewrite Hfs2, Hfs1, Hparent, Hnodir. simpl negb. cbv iota.
    fold output_ext. fold exif. fold icc_profile. fold kw. rewrite Henc.
    eexists. split; [reflexivity|]. simpl. apply lookup_insert_eq.
  - intros e Henc.
    destruct (cli_center_effects ext _ _ _ _ _ _ Hcenter) as (Hfs2 & _ & _).
    unfold Cli.process_image, try_except. rewrite Hstart.
    unfold bind at 1. rewrite Hcenter.
    unfold bind at 1, PIL.save.
    rewrite Hfs2, Hfs1, Hparent, Hnodir. simpl negb. cbv iota.
    fold output_ext. fold exif. fold icc_profile. fold kw. rewrite Henc.
    eexists. split; [reflexivity|].
    intros fmt kw' c. simpl.
    pose proof (not_encoded_after_failure (fs world) output_path fmt kw' c) as Hn.
    destruct (path_exists (fs world) output_path); simpl; [exact Hn|].
    rewrite Hfs2, Hfs1. exact Hn.
  - intros canvas' w2' Hweb Henc.
    destruct (web_center_effects ext _ _ _ _ _ _ Hweb) as (Hfs2 & _ & Hinfo).
    unfold Web.process_single_image, try_except.
    change (Web.apply_exif_orientation ext) with (Cli.apply_exif_orientation ext).
    rewrite Hstart.
    unfold bind at 1. rewrite Hweb.
    unfold bind at 1, PIL.save.
    rewrite Hfs2, Hfs1, Hparent, Hnodir. simpl negb. cbv iota.
    rewrite Henc.
    eexists. split; [reflexivity|]. split; [apply lookup_insert_eq|].
    apply Hinfo. reflexivity.
Qed.

Lemma C6_metadata_carry_witness :
  let image :=
    solid 2 2 "RGB" {[ "exif" := IBytes "II*"; "icc_profile" := IBytes "acsp" ]}
      [1; 2; 3] in
  let world := world_with ["in.jpg"] "JPEG" image in
  exists world' kw canvas,
    Cli.process_image plain_external ["in.jpg"] ["out.png"] 4 None world
      = (Ret true, world') /\
    fs world' !! ["out.png"] = Some (File (Encoded "PNG" kw canvas)) /\
    kw !! "exif" = Some (IBytes "II*") /\
    kw !! "icc_profile" = Some (IBytes "acsp").
Proof.
  intros image world.
  destruct (Cli.center_image_on_canvas plain_external image 4 None
              (opened ["in.jpg"] world)) as [[[canvas| ] | e | s] w2] eqn:Hrun;
    [|vm_compute in Hrun; discriminate ..].
  destruct (C6_metadata_carry plain_external image image canvas 4 None world
              (opened ["in.jpg"] world) w2 ["in.jpg"] ["out.png"] "JPEG" ∅)
    as (_ & _ & Hexif & Hicc & Hok & _).
  - reflexivity.
  - reflexivity.
  - exact Hrun.
  - reflexivity.
  - reflexivity.
  - destruct (Hok eq_refl) as (world' & Hproc & Hout).
    exists world'. eexists _, canvas.
    split; [exact Hproc|]. split; [exact Hout|].
    split; [exact Hexif|exact Hicc].
Defined.

(** C6 as stated fails in the web service: the source carries an EXIF blob
    and a colour profile, the output is emitted without either. *)
Lemma C6_counterexample :
  let image :=
    solid 2 2 "RGB" {[ "exif" := IBytes "II*"; "icc_profile" := IBytes "acsp" ]}
      [1; 2; 3] in
  let world := world_with ["in.jpg"] "JPEG" image in
  exists world' canvas,
    Web.process_single_image plain_external ["in.jpg"] ["out.png"] 1200 None
      world = (Ret true, world') /\
    info image !! "exif" = Some (IBytes "II*") /\
    info image !! "icc_profile" = Some (IBytes "acsp") /\
    fs world' !! ["out.png"] = Some (File (Encoded "PNG" ∅ canvas)) /\
    info canvas = ∅.
Proof.
  intros image world. eexists _, _.
  split; [vm_compute; reflexivity|].
  split; [reflexivity|]. split; [reflexivity|].
  split; [vm_compute; reflexivity|]. reflexivity.
Qed.

(** ** C7: unsupported formats                                            *)

Lemma is_file_exists (f : gmap Path Node) (p : Path) :
  is_file f p = true -> path_exists f p = true.
Proof.
  unfold is_file, path_exists. destruct p as [|a p]; [reflexivity|].
  intros H. apply bool_decide_eq_true.
  destruct (_ !! _) as [n|]; [eauto|discriminate H].
Qed.

(** C7 (as amended).  An input whose extension, lower-cased, is not one of
    .jpg, .jpeg, .png, .tiff, .tif, .bmp, .webp is turned away before any
    decoding, in all three places where inputs arrive.  Only the web
    service classifies it as a skip: it logs "Unsupported format" and
    counts the upload as skipped, the extension being that of the name as
    [secure_filename] returns it; nothing is raised.  The folder loop of
    the command-line tool passes over the file without a log record and
    counts nothing; nothing is raised.  The command-line tool given the
    file alone logs "Unsupported file format" and ends the invocation
    with [sys.exit(1)].  In each case the file system and the I/O trace
    are unchanged: nothing was opened, nothing written. *)
Theorem C7_unsupported_format (ext : External) (tmp : Web.TempNames)
    (total_files i : Z) (file : Web.Upload) (counts : Z * Z)
    (output_path file_path : Path) (canvas_size : Z)
    (bg_color : option Color) (args : Cli.Args) (world : World) :
  Web.SUPPORTED_FORMATS = Cli.SUPPORTED_FORMATS /\
  Cli.SUPPORTED_FORMATS
    = {[ ".jpg"; ".jpeg"; ".png"; ".tiff"; ".tif"; ".bmp"; ".webp" ]} /\
  (Web.filename file <> "" ->
   PyStr.lower (suffix [secure_filename ext (Web.filename file)])
     ∉ Web.SUPPORTED_FORMATS ->
   Web.upload_step ext tmp total_files (i, file) counts world
   = (Ret (fst counts, snd counts + 1),
      with_log world
        [mk_log INFO "Processing file {}/{}: {}"
           [AInt (i + 1); AInt total_files;
            AStr (secure_filename ext (Web.filename file))];
         mk_log WARNING "Unsupported format: {}"
           [AStr (secure_filename ext (Web.filename file))]])) /\
  (PyStr.lower (suffix file_path) ∉ Cli.SUPPORTED_FORMATS ->
   Cli.folder_step ext output_path canvas_size bg_color file_path counts world
   = (Ret counts, world)) /\
  (Cli.parse_color (Cli.arg_bg args) = Ret bg_color ->
   is_file (fs world) (Cli.arg_input args) = true ->
   PyStr.lower (suffix (Cli.arg_input args)) ∉ Cli.SUPPORTED_FORMATS ->
   Cli.main ext args world
   = (Exit 1,
      with_log world
        [mk_log ERROR "Unsupported file format: {}"
           [AStr (suffix (Cli.arg_input args))]])).
Proof.
  split; [reflexivity|]. split; [reflexivity|]. split; [|split].
  - intros Hname Hext. destruct counts as [processed skipped].
    unfold Web.upload_step.
    destruct (String.eqb_spec (Web.filename file) "") as [E|_];
      [contradiction|].
    simpl negb. cbv iota.
    unfold bind at 1, logger_info, logger.
    rewrite (bool_decide_eq_false_2 _ Hext).
    unfold bind, logger_warning, logger, ret, with_log. simpl.
    rewrite <- app_assoc. reflexivity.
  - intros Hext. destruct counts as [processed skipped].
    unfold Cli.folder_step, bind, get_world.
    rewrite (bool_decide_eq_false_2 _ Hext), andb_false_r. reflexivity.
  - intros Hparse Hfile Hext.
    unfold Cli.main, bind at 1, try_except_class, lift. rewrite Hparse.
    unfold bind at 1, get_world.
    rewrite (is_file_exists _ _ Hfile), Hfile. simpl negb. cbv iota.
    rewrite (bool_decide_eq_false_2 _ Hext). simpl negb. cbv iota.
    reflexivity.
Qed.

Lemma C7_unsupported_format_witness :
  let file := Web.mk_upload "anim.GIF" Undecodable 10 in
  let tmp := Web.mk_temp ["tmp"; "in"] ["tmp"; "out"] ["tmp"; "z.zip"] in
  let world := mk_world {[ ["anim.gif"] := File Undecodable ]} [] [] in
  let args := Cli.mk_args ["anim.gif"] ["out.png"] 1200 None in
  (exists world',
     Web.upload_step plain_external tmp 1 (0, file) (0, 0) world
       = (Ret (0, 1), world') /\
     fs world' = fs world /\ io world' = []) /\
  Cli.folder_step plain_external ["out"] 1200 None ["anim.gif"] (0, 0) world
    = (Ret (0, 0), world) /\
  (exists world',
     Cli.main plain_external args world = (Exit 1, world') /\
     fs world' = fs world /\ io world' = []).
Proof.
  intros file tmp world args.
  destruct (C7_unsupported_format plain_external tmp 1 0 file (0, 0)
              ["out"] ["anim.gif"] 1200 None args world)
    as (_ & _ & Hweb & Hfolder & Hmain).
  assert (Hgif : PyStr.lower (suffix ["anim.GIF"]) ∉ Web.SUPPORTED_FORMATS)
    by (intros Hin; apply (bool_decide_eq_true_2 _) in Hin;
        vm_compute in Hin; discriminate Hin).
  assert (Hgif' : PyStr.lower (suffix ["anim.gif"]) ∉ Cli.SUPPORTED_FORMATS)
    by (intros Hin; apply (bool_decide_eq_true_2 _) in Hin;
        vm_compute in Hin; discriminate Hin).
  split; [|split].
  - eexists. split.
    + apply Hweb; [discriminate|exact Hgif].
    + split; reflexivity.
  - apply Hfolder. exact Hgif'.
  - eexists. split.
    + apply Hmain; [reflexivity|reflexivity|exact Hgif'].
    + split; reflexivity.
Defined.

(** C7 as stated fails in the command-line tool: a text file in the input
    folder is not classified as skipped, the summary of the run being
    "0 processed, 0 skipped" with no other record; given alone, it ends
    the invocation with status 1. *)
Lemma C7_counterexample :
  let world :=
    mk_world {[ ["in"] := Directory; ["out"] := Directory;
                ["in"; "notes.txt"] := File Undecodable ]} [] [] in
  (PyStr.lower (suffix ["in"; "notes.txt"]) ∉ Cli.SUPPORTED_FORMATS) /\
  Cli.main plain_external (Cli.mk_args ["in"] ["out"] 1200 None) world
    = (Ret tt,
       with_log world
         [mk_log INFO "Processing complete: {} processed, {} skipped"
            [AInt 0; AInt 0]]) /\
  Cli.main plain_external
    (Cli.mk_args ["in"; "notes.txt"] ["out"; "notes.png"] 1200 None) world
    = (Exit 1,
       with_log world
         [mk_log ERROR "Unsupported file format: {}" [AStr ".txt"]]).
Proof.
  intros world. split; [|split].
  - intros Hin. apply (bool_decide_eq_true_2 _) in Hin.
    vm_compute in Hin. discriminate Hin.
  - vm_compute. reflexivity.
  - vm_compute. reflexivity.
Qed.

(** ** C8: the transparent background                                     *)

Lemma source_pixels_same_mode ext image :
  PIL.source_pixels ext (mode image) image = Ret (getpixel image).
Proof. unfold PIL.source_pixels. rewrite String.eqb_refl. reflexivity. Qed.

(** A palette image with a [transparency] entry that fits the canvas is
    not composited at all: Pillow refuses a mask of mode P. *)
Lemma transparent_palette_is_rejected ext image canvas_size bg_color world src :
  mode image = "P" -> PIL.has_transparency image = true ->
  0 <= width image <= canvas_size -> 0 <= height image <= canvas_size ->
  canvas_size < 2 ^ 31 -> canvas_allocated ext canvas_size bg_color ->
  PIL.source_pixels ext (canvas_mode bg_color) image = Ret src ->
  Cli.center_image_on_canvas ext image canvas_size bg_color world
    = (Raise (ValueError "bad transparency mask"), world) /\
  Web.center_image_on_canvas ext image canvas_size bg_color world
    = (Raise (ValueError "bad transparency mask"), world).
Proof.
  intros Hmode Htr Hw Hh HS Hmem Hsrc.
  rewrite cli_center_fits, web_center_fits by (assumption || lia).
  unfold paste_centered.
  rewrite (paste_rejected ext (blank_canvas canvas_size bg_color) image _ src);
    [auto| |exact Hsrc].
  unfold paste_accepted, uses_mask. rewrite Htr, Hmode. reflexivity.
Qed.

(** Compositing onto a fully transparent pixel leaves the source pixel. *)
Lemma spec_alpha_composite_clear (r g b a : Z) :
  0 <= r -> 0 <= g -> 0 <= b -> 0 < a ->
  spec_alpha_composite [0; 0; 0; 0] [r; g; b; a] = [r; g; b; a].
Proof.
  intros Hr Hg Hb Ha. unfold spec_alpha_composite, round_div.
  replace (255 * a + 0 * (255 - a)) with (255 * a) by lia.
  replace (255 * a =? 0) with false by (symmetry; apply Z.eqb_neq; lia).
  assert (Hband : forall s, 0 <= s ->
            (2 * (255 * s * a + 0 * 0 * (255 - a)) + 255 * a) / (2 * (255 * a))
            = s).
  { intros s Hs.
    replace (2 * (255 * s * a + 0 * 0 * (255 - a)) + 255 * a)
      with (s * (2 * (255 * a)) + 255 * a) by lia.
    rewrite Z.div_add_l by lia. rewrite Z.div_small by lia. lia. }
  rewrite !Hband by assumption.
  replace ((2 * (255 * a) + 255) / (2 * 255)) with a; [reflexivity|].
  replace (2 * (255 * a) + 255) with (a * (2 * 255) + 255) by lia.
  rewrite Z.div_add_l by lia. rewrite Z.div_small by lia. lia.
Qed.

(** C8.  The claim holds of alpha compositing and fails of the code.  For
    the transparent background both programs create a canvas of mode
    RGBA that is (0, 0, 0, 0) everywhere, and paste an RGBA source with
    itself as the mask.  That paste blends every band, the alpha band
    included, with the canvas under the source's alpha: the 1 x 1 image
    of the half-transparent pixel (200, 100, 50, 128) leaves
    (100, 50, 25, 64) at the centre of a canvas of side 3, in both
    programs.  Alpha compositing the source onto the transparent canvas,
    which is what the claim states, leaves the source pixel
    (200, 100, 50, 128). *)
Theorem C8_alpha_composite_missed :
  let image := solid 1 1 "RGBA" ∅ [200; 100; 50; 128] in
  has_alpha_channel image = true /\
  mask_of image = Some image /\
  mode (blank_canvas 3 None) = "RGBA" /\
  (forall cx cy, getpixel (blank_canvas 3 None) cx cy = [0; 0; 0; 0]) /\
  exists canvas,
    Cli.center_image_on_canvas plain_external image 3 None empty_world
      = (Ret (Some canvas), empty_world) /\
    Web.center_image_on_canvas plain_external image 3 None empty_world
      = (Ret (Some canvas), empty_world) /\
    PIL.paste plain_external (blank_canvas 3 None) image (1, 1) (Some image)
      = Ret canvas /\
    getpixel canvas 0 0 = [0; 0; 0; 0] /\
    getpixel canvas 1 1 = [100; 50; 25; 64] /\
    spec_alpha_composite (getpixel (blank_canvas 3 None) 1 1)
      (getpixel image 0 0) = [200; 100; 50; 128] /\
    getpixel canvas 1 1
    <> spec_alpha_composite (getpixel (blank_canvas 3 None) 1 1)
         (getpixel image 0 0).
Proof.
  intros image. split; [reflexivity|]. split; [reflexivity|].
  split; [reflexivity|]. split; [reflexivity|].
  eexists. split; [vm_compute; reflexivity|].
  split; [vm_compute; reflexivity|]. split; [vm_compute; reflexivity|].
  split; [reflexivity|]. split; [reflexivity|].
  split; [reflexivity|]. discriminate.
Qed.

(** ** C9: an image of exactly the canvas size                            *)

(** C9 (as amended).  For an image whose width and height both equal the
    canvas size (below 2^31, the canvas allocated) and which Pillow
    accepts for the paste, the web service triggers no scaling (the image
    is passed on as it is, nothing is logged), uses offset (0, 0) and
    returns a canvas of the same size.  Its pixels are the input's
    where the image is pasted without a mask in the mode of the canvas,
    and the (converted) input's wherever the mask value is 255; a pixel
    of an RGBA input is, on a solid background, the input colour blended
    with the background under the input's alpha.  Nothing is said of a
    partly transparent pixel on the transparent canvas. *)
Theorem C9_full_size_image (ext : External) (image : Image)
    (canvas_size : Z) (bg_color : option Color) (world : World)
    (src : Z -> Z -> Pixel) :
  0 <= canvas_size < 2 ^ 31 ->
  canvas_allocated ext canvas_size bg_color ->
  width image = canvas_size -> height image = canvas_size ->
  paste_accepted image = true ->
  PIL.source_pixels ext (canvas_mode bg_color) image = Ret src ->
  web_fit ext image canvas_size world = (Ret image, world) /\
  offset canvas_size (width image) = 0 /\
  offset canvas_size (height image) = 0 /\
  exists canvas,
    Web.center_image_on_canvas ext image canvas_size bg_color world
      = (Ret (Some canvas), world) /\
    width canvas = canvas_size /\ height canvas = canvas_size /\
    (uses_mask image = false -> mode image = canvas_mode bg_color ->
     forall cx cy, 0 <= cx < canvas_size -> 0 <= cy < canvas_size ->
       getpixel canvas cx cy = getpixel image cx cy) /\
    (forall cx cy, 0 <= cx < canvas_size -> 0 <= cy < canvas_size ->
       uses_mask image = false \/
       (mask_value image (getpixel image cx cy) = 255 /\
        byte_pixel (src cx cy) /\
        length (src cx cy) = length (background bg_color)) ->
       getpixel canvas cx cy = src cx cy) /\
    (forall c cx cy, bg_color = Some c -> mode image = "RGBA" ->
       0 <= cx < canvas_size -> 0 <= cy < canvas_size ->
       getpixel canvas cx cy
       = zip_with (PIL.blend8 (nth 3 (getpixel image cx cy) 0))
           (background bg_color) (take 3 (getpixel image cx cy))).
Proof.
  intros HS Hmem Hw Hh Hacc Hsrc.
  assert (Hfit : web_fit ext image canvas_size world = (Ret image, world)).
  { unfold web_fit.
    replace (width image >? canvas_size) with false by (symmetry; lia).
    replace (height image >? canvas_size) with false by (symmetry; lia).
    reflexivity. }
  split; [exact Hfit|].
  assert (Hx : offset canvas_size (width image) = 0)
    by (unfold offset; rewrite Hw, Z.sub_diag; reflexivity).
  assert (Hy : offset canvas_size (height image) = 0)
    by (unfold offset; rewrite Hh, Z.sub_diag; reflexivity).
  split; [exact Hx|]. split; [exact Hy|].
  destruct (centered_pixels ext image canvas_size bg_color world src)
    as (canvas & Hweb & Hwd & Hht & Hpix); try assumption; try lia.
  rewrite Hx, Hy in Hpix.
  exists canvas. split; [exact Hweb|]. split; [exact Hwd|]. split; [exact Hht|].
  assert (Hall : forall cx cy, 0 <= cx < canvas_size -> 0 <= cy < canvas_size ->
            getpixel canvas cx cy
            = composite image (background bg_color) (src cx cy)
                (getpixel image cx cy)).
  { intros cx cy Hcx Hcy. apply (Hpix cx cy); lia. }
  split; [|split].
  - intros Hu Hmode cx cy Hcx Hcy. rewrite Hall by assumption.
    unfold composite. rewrite Hu.
    pose proof (source_pixels_same_mode ext image) as E.
    rewrite Hmode, Hsrc in E. congruence.
  - intros cx cy Hcx Hcy Hop. rewrite Hall by assumption.
    unfold composite.
    destruct Hop as [Hm | (Hv & Hb & Hlen)]; [rewrite Hm; reflexivity|].
    destruct (uses_mask image); [|reflexivity].
    unfold mask_value in Hv.
    destruct (PIL.mask_kind (mode image)) as [[kind band]|]; [|discriminate].
    rewrite Hv. apply blend_opaque; [assumption|symmetry; assumption].
  - intros c cx cy -> Hmode Hcx Hcy. rewrite Hall by assumption.
    destruct (rgba_on_solid ext image c src Hmode Hsrc) as (Hm & Hk & Hpx).
    unfold composite. rewrite Hm, Hk, Hpx. reflexivity.
Qed.

Lemma C9_full_size_image_witness :
  let image := solid 2 2 "RGB" ∅ [10; 20; 30] in
  exists canvas,
    Web.center_image_on_canvas plain_external image 2 (Some (255, 255, 255))
      empty_world = (Ret (Some canvas), empty_world) /\
    getpixel canvas 1 0 = getpixel image 1 0.
Proof.
  intros image.
  destruct (C9_full_size_image plain_external image 2 (Some (255, 255, 255))
              empty_world (getpixel image))
    as (_ & _ & _ & canvas & Hweb & _ & _ & Hsame & _).
  - lia.
  - reflexivity.
  - reflexivity.
  - reflexivity.
  - reflexivity.
  - reflexivity.
  - exists canvas. split; [exact Hweb|].
    apply Hsame; [reflexivity|reflexivity|lia|lia].
Defined.

(** C9 as stated fails on a half-transparent image of exactly the canvas
    size on a solid background: no scaling, offset (0, 0), but the output
    pixel on white is the blend with the background, not the input
    pixel. *)
Lemma C9_counterexample :
  let image := solid 1 1 "RGBA" ∅ [200; 100; 50; 128] in
  let white := Some (255, 255, 255) in
  width image = 1 /\ height image = 1 /\
  web_fit plain_external image 1 empty_world = (Ret image, empty_world) /\
  exists on_white,
    Web.center_image_on_canvas plain_external image 1 white empty_world
      = (Ret (Some on_white), empty_world) /\
    getpixel on_white 0 0 = [227; 177; 152] /\
    getpixel on_white 0 0 <> take 3 (getpixel image 0 0) /\
    getpixel on_white 0 0 <> getpixel image 0 0.
Proof.
  intros image white. split; [reflexivity|]. split; [reflexivity|].
  split; [reflexivity|].
  eexists.
  split; [vm_compute; reflexivity|].
  repeat split; discriminate.
Qed.

(** ** Outcomes of processing one file                                    *)

Lemma paste_size ext canvas image box mask canvas' :
  PIL.paste ext canvas image box mask = Ret canvas' ->
  width canvas' = width canvas /\ height canvas' = height canvas /\
  mode canvas' = mode canvas.
Proof.
  unfold PIL.paste. destruct (PIL.source_pixels _ _ _); try discriminate.
  destruct mask as [m|].
  - destruct (PIL.mask_kind (mode m)) as [[kind band]|]; [|discriminate].
    intros H. inversion H. auto.
  - intros H. inversion H. auto.
Qed.

Lemma new_size ext m size color canvas :
  PIL.new ext m size color = Ret canvas ->
  width canvas = fst size /\ height canvas = snd size /\ mode canvas = m.
Proof. intros H. apply new_returned in H. subst canvas. auto. Qed.

Lemma paste_never_exits ext canvas image box mask status :
  library_returns ext ->
  PIL.paste ext canvas image box mask <> Exit status.
Proof.
  intros Hlib. unfold PIL.paste, PIL.source_pixels.
  destruct (String.eqb (mode image) (mode canvas)).
  { destruct mask as [m|];
      [destruct (PIL.mask_kind (mode m)) as [[k b]|]|]; discriminate. }
  destruct (_ && _).
  { destruct mask as [m|];
      [destruct (PIL.mask_kind (mode m)) as [[k b]|]|]; discriminate. }
  destruct (if PIL.has_transparency image then None
            else PIL.known_conversion (mode image) (mode canvas)).
  { destruct mask as [m|];
      [destruct (PIL.mask_kind (mode m)) as [[k b]|]|]; discriminate. }
  destruct (convert_other ext (mode canvas) image) as [src|e|s] eqn:Hc.
  - destruct mask as [m|];
      [destruct (PIL.mask_kind (mode m)) as [[k b]|]|]; discriminate.
  - discriminate.
  - exfalso. exact (Hlib _ _ _ Hc).
Qed.

(** The second half of the compositor: it returns a canvas of the canvas
    size on both axes, in the mode that belongs to the background, or it
    raises; the world is as before. *)
Lemma center_tail_result ext image canvas_size bg_color world r world' :
  library_returns ext ->
  center_tail ext image canvas_size bg_color world = (r, world') ->
  world' = world /\
  ((exists canvas, r = Ret (Some canvas) /\
      width canvas = canvas_size /\ height canvas = canvas_size /\
      mode canvas = canvas_mode bg_color /\ info canvas = ∅) \/
   (exists e, r = Raise e)).
Proof.
  intros Hlib Hrun.
  destruct (center_tail_effects ext _ _ _ _ _ _ Hrun) as [Hw Hinfo].
  split; [exact Hw|]. revert Hrun.
  unfold center_tail, bind, lift, ret.
  destruct (match bg_color with
            | None => PIL.new ext "RGBA" (canvas_size, canvas_size) [0; 0; 0; 0]
            | Some c => PIL.new ext "RGB" (canvas_size, canvas_size) (color_pixel c)
            end) as [blank|e|s] eqn:Hnew.
  - assert (Hblank : width blank = canvas_size /\ height blank = canvas_size /\
                     mode blank = canvas_mode bg_color).
    { destruct bg_color; apply new_size in Hnew; exact Hnew. }
    rewrite mask_of_branches.
    destruct (PIL.paste _ _ _ _ _) as [c|e|s] eqn:Hp; intros H; inversion H.
    + left. exists c. apply paste_size in Hp as (Hpw & Hph & Hpm).
      destruct Hblank as (Hbw & Hbh & Hbm).
      split; [reflexivity|]. split; [congruence|]. split; [congruence|].
      split; [congruence|]. apply Hinfo. congruence.
    + right. eauto.
    + exfalso. exact (paste_never_exits _ _ _ _ _ _ Hlib Hp).
  - intros H. inversion H. right. eauto.
  - exfalso. destruct bg_color; exact (new_never_exits _ _ _ _ _ Hnew).
Qed.

Lemma web_fit_result ext image canvas_size world r world' :
  web_fit ext image canvas_size world = (r, world') ->
  fs world' = fs world /\ io world' = io world /\
  ((exists fitted, r = Ret fitted) \/ (exists e, r = Raise e /\ world' = world)).
Proof.
  intros Hrun. destruct (web_fit_effects ext _ _ _ _ _ Hrun) as [Hfs Hio].
  split; [exact Hfs|]. split; [exact Hio|]. revert Hrun.
  unfold web_fit, Web.py_truediv, bind, lift, ret, raise, logger_info, logger.
  destruct (_ || _); [|intros H; inversion H; eauto].
  destruct (truediv canvas_size (width image)); [|intros H; inversion H; eauto].
  destruct (truediv canvas_size (height image)); [|intros H; inversion H; eauto].
  unfold PIL.resize. simpl fst. simpl snd.
  destruct (_ && _); [intros H; inversion H; eauto|].
  destruct (_ || _); intros H; inversion H; eauto.
Qed.

(** Either [center_image_on_canvas]: a canvas of the canvas size, a skip
    (command-line tool only), or an exception; files and I/O untouched. *)
Lemma cli_center_result ext image canvas_size bg_color world r world' :
  library_returns ext ->
  Cli.center_image_on_canvas ext image canvas_size bg_color world = (r, world') ->
  (exists canvas, r = Ret (Some canvas) /\ world' = world /\
      width canvas = canvas_size /\ height canvas = canvas_size /\
      mode canvas = canvas_mode bg_color /\ info canvas = ∅) \/
  (r = Ret None /\ world' = log_skip image canvas_size world /\
   (width image > canvas_size \/ height image > canvas_size)) \/
  (exists e, r = Raise e /\ world' = world).
Proof.
  intros Hlib. rewrite cli_center_halves.
  destruct ((width image >? canvas_size) || (height image >? canvas_size))
    eqn:Hbig.
  - intros H. inversion H. right. left.
    split; [reflexivity|]. split; [reflexivity|].
    apply orb_true_iff in Hbig. lia.
  - intros H. apply (center_tail_result _ _ _ _ _ _ _ Hlib) in H
      as [-> [(c & -> & Hc)|[e ->]]]; [left|right; right]; eauto 10.
Qed.

Lemma web_fit_log ext image canvas_size world r world' :
  web_fit ext image canvas_size world = (r, world') ->
  exists records, log world' = (log world ++ records)%list.
Proof.
  unfold web_fit, Web.py_truediv, bind, lift, ret, raise, logger_info, logger.
  destruct (_ || _);
    [|intros H; inversion H; exists []; rewrite app_nil_r; reflexivity].
  destruct (truediv canvas_size (width image));
    [|intros H; inversion H; exists []; rewrite app_nil_r; reflexivity].
  destruct (truediv canvas_size (height image));
    [|intros H; inversion H; exists []; rewrite app_nil_r; reflexivity].
  destruct (PIL.resize _ _ _); intros H; inversion H;
    [eexists; reflexivity|exists []; rewrite app_nil_r; reflexivity ..].
Qed.

Lemma web_center_result ext image canvas_size bg_color world r world' :
  library_returns ext ->
  Web.center_image_on_canvas ext image canvas_size bg_color world = (r, world') ->
  fs world' = fs world /\ io world' = io world /\
  (exists records, log world' = (log world ++ records)%list) /\
  ((exists canvas, r = Ret (Some canvas) /\
      width canvas = canvas_size /\ height canvas = canvas_size /\
      mode canvas = canvas_mode bg_color /\ info canvas = ∅) \/
   (exists e, r = Raise e)).
Proof.
  intros Hlib. rewrite web_center_halves. unfold bind at 1.
  destruct (web_fit ext image canvas_size world) as [rf w1] eqn:Hfit.
  destruct (web_fit_log ext _ _ _ _ _ Hfit) as [records Hlog].
  destruct (web_fit_result ext _ _ _ _ _ Hfit)
    as (Hfs & Hio & [[fitted ->]|[e [-> ->]]]).
  - intros H. apply (center_tail_result _ _ _ _ _ _ _ Hlib) in H
      as [-> Hc]. eauto 10.
  - intros H. inversion H. subst. eauto 10.
Qed.

Lemma apply_exif_orientation_log ext image world image' world' :
  Cli.apply_exif_orientation ext image world = (Ret image', world') ->
  exists records, log world' = (log world ++ records)%list.
Proof.
  unfold Cli.apply_exif_orientation, try_except, lift.
  destruct (PIL.exif_transpose ext image); intros H; inversion H;
    [exists []; rewrite app_nil_r; reflexivity|eexists; reflexivity].
Qed.

Lemma save_result ext im p fmt kw w r w' :
  PIL.save ext im p fmt kw w = (r, w') ->
  (r = Ret tt /\
   fs w' = <[p := File (Encoded fmt kw im)]> (fs w) /\
   log w' = log w /\ io w' = (io w ++ [Saved p])%list /\
   is_dir (fs w) p = false) \/
  (exists e, r = Raise e /\ log w' = log w /\ io w' = io w /\
     (fs w' = fs w \/
      (fs w' = <[p := File Undecodable]> (fs w) /\
       path_exists (fs w) p = true /\ is_dir (fs w) p = false))).
Proof.
  unfold PIL.save.
  destruct (is_dir (fs w) (parent p)); simpl negb; cbv iota;
    [|intros H; inversion H; subst; right; eauto 10].
  destruct (is_dir (fs w) p) eqn:Hd;
    [intros H; inversion H; subst; right; eauto 10|].
  destruct (encode_error ext fmt kw im) as [e|].
  - destruct (path_exists (fs w) p) eqn:Hex; intros H; inversion H; subst;
      right; exists e; simpl; auto 10.
  - intros H. inversion H; subst. left. simpl. auto.
Qed.

Lemma cli_process_image_cases ext input_path output_path canvas_size bg_color world :
  library_returns ext ->
  exists b world',
    Cli.process_image ext input_path output_path canvas_size bg_color world
      = (Ret b, world') /\
    if b
    then run_succeeded world world' input_path output_path
           (Cli.save_format (PyStr.lower (suffix output_path)))
           (fun _ => True) canvas_size bg_color
    else run_failed world world' input_path output_path
           (fun r => error_record input_path r \/ skip_record r).
Proof.
  intros Hlib. unfold Cli.process_image, try_except.
  unfold bind at 1, PIL.open.
  set (w1 := mk_world (fs world) (log world) (io world ++ [Opened input_path])%list).
  assert (Hfail : forall e, exists world',
            (let* _ := logger_error "Error processing {}: {}"
                         [APath input_path; AExn e] in ret false) w1
            = (Ret false, world') /\
            run_failed world world' input_path output_path
              (fun r => error_record input_path r \/ skip_record r)).
  { intros e. eexists. split; [reflexivity|]. split; [reflexivity|].
    split; [left; reflexivity|]. eexists [], _. split; [reflexivity|].
    left. exists e. reflexivity. }
  destruct (fs world !! input_path) as [[|[fmt kw im|]|entries]|];
    try (destruct (Hfail (OSError "IsADirectoryError" "")) as (w' & E & F);
         exists false, w'; split; [exact E|exact F]);
    try (destruct (Hfail (OSError "UnidentifiedImageError"
                           "cannot identify image file")) as (w' & E & F);
         exists false, w'; split; [exact E|exact F]);
    try (destruct (Hfail (OSError "FileNotFoundError" "")) as (w' & E & F);
         exists false, w'; split; [exact E|exact F]).
  clear Hfail. fold w1. unfold bind at 1.
  destruct (apply_exif_orientation_total ext im w1)
    as (img & w2 & Happ & Hfs2 & Hio2 & _).
  destruct (apply_exif_orientation_log ext _ _ _ _ Happ) as [l2 Hlog2].
  rewrite Happ. unfold bind at 1.
  destruct (Cli.center_image_on_canvas ext img canvas_size bg_color w2)
    as [rc w3] eqn:Hc.
  destruct (cli_center_result ext _ _ _ _ _ _ Hlib Hc)
    as [(canvas & -> & -> & Hcw & Hch & Hcm & Hci)
       |[(-> & -> & _)|(e & -> & ->)]].
  - unfold bind at 1.
    destruct (PIL.save ext canvas output_path _ _ w2) as [rs w4] eqn:Hs.
    destruct (save_result ext _ _ _ _ _ _ _ Hs)
      as [(-> & Hfs4 & Hlog4 & Hio4 & Hd)|(e & -> & Hlog4 & Hio4 & Hfs4)].
    + exists true. eexists. split; [reflexivity|].
      eexists _, canvas. split; [exact I|]. simpl.
      rewrite Hfs4, Hfs2, Hio4, Hio2, Hlog4, Hlog2. simpl.
      rewrite <- !app_assoc.
      rewrite Hfs2 in Hd. simpl in Hd.
      do 6 (split; [auto; fail|]). split; [exact Hd|]. eexists. reflexivity.
    + exists false. eexists. split; [reflexivity|].
      split; simpl; [rewrite Hio4, Hio2; reflexivity|].
      split; [rewrite Hfs2 in Hfs4; simpl in Hfs4; exact Hfs4|].
      eexists l2, _. rewrite Hlog4, Hlog2. simpl.
      split; [rewrite <- app_assoc; reflexivity|]. left. exists e. reflexivity.
  - exists false. eexists. split; [reflexivity|].
    split; simpl; [rewrite Hio2; reflexivity|].
    split; [left; rewrite Hfs2; reflexivity|].
    eexists l2, _. rewrite Hlog2. simpl.
    split; [rewrite <- app_assoc; reflexivity|]. right. eexists. reflexivity.
  - exists false. eexists. split; [reflexivity|].
    split; simpl; [rewrite Hio2; reflexivity|].
    split; [left; rewrite Hfs2; reflexivity|].
    eexists l2, _. rewrite Hlog2. simpl.
    split; [rewrite <- app_assoc; reflexivity|]. left. exists e. reflexivity.
Qed.

Lemma web_process_single_image_cases ext input_path output_path canvas_size
    bg_color world :
  library_returns ext ->
  exists b world',
    Web.process_single_image ext input_path output_path canvas_size bg_color
      world = (Ret b, world') /\
    if b
    then run_succeeded world world' input_path output_path "PNG"
           (fun params => params = ∅) canvas_size bg_color
    else run_failed world world' input_path output_path
           (error_record input_path).
Proof.
  intros Hlib. unfold Web.process_single_image, try_except.
  change (Web.apply_exif_orientation ext) with (Cli.apply_exif_orientation ext).
  unfold bind at 1, PIL.open.
  set (w1 := mk_world (fs world) (log world) (io world ++ [Opened input_path])%list).
  assert (Hfail : forall e, exists world',
            (let* _ := logger_error "Error processing {}: {}"
                         [APath input_path; AExn e] in ret false) w1
            = (Ret false, world') /\
            run_failed world world' input_path output_path
              (error_record input_path)).
  { intros e. eexists. split; [reflexivity|]. split; [reflexivity|].
    split; [left; reflexivity|]. eexists [], _. split; [reflexivity|].
    exists e. reflexivity. }
  destruct (fs world !! input_path) as [[|[fmt kw im|]|entries]|];
    try (destruct (Hfail (OSError "IsADirectoryError" "")) as (w' & E & F);
         exists false, w'; split; [exact E|exact F]);
    try (destruct (Hfail (OSError "UnidentifiedImageError"
                           "cannot identify image file")) as (w' & E & F);
         exists false, w'; split; [exact E|exact F]);
    try (destruct (Hfail (OSError "FileNotFoundError" "")) as (w' & E & F);
         exists false, w'; split; [exact E|exact F]).
  clear Hfail. fold w1. unfold bind at 1.
  destruct (apply_exif_orientation_total ext im w1)
    as (img & w2 & Happ & Hfs2 & Hio2 & _).
  destruct (apply_exif_orientation_log ext _ _ _ _ Happ) as [l2 Hlog2].
  rewrite Happ. unfold bind at 1.
  destruct (Web.center_image_on_canvas ext img canvas_size bg_color w2)
    as [rc w3] eqn:Hc.
  destruct (web_center_result ext _ _ _ _ _ _ Hlib Hc)
    as (Hfs3 & Hio3 & [l3 Hlog3] &
        [(canvas & -> & Hcw & Hch & Hcm & Hci)|(e & ->)]).
  - unfold bind at 1.
    destruct (PIL.save ext canvas output_path _ _ w3) as [rs w4] eqn:Hs.
    destruct (save_result ext _ _ _ _ _ _ _ Hs)
      as [(-> & Hfs4 & Hlog4 & Hio4 & Hd)|(e & -> & Hlog4 & Hio4 & Hfs4)].
    + exists true. eexists. split; [reflexivity|].
      eexists _, canvas. split; [reflexivity|]. simpl.
      rewrite Hfs4, Hfs3, Hfs2, Hio4, Hio3, Hio2, Hlog4, Hlog3, Hlog2. simpl.
      rewrite <- !app_assoc.
      rewrite Hfs3, Hfs2 in Hd. simpl in Hd.
      do 6 (split; [auto; fail|]). split; [exact Hd|]. eexists. reflexivity.
    + exists false. eexists. split; [reflexivity|].
      split; simpl; [rewrite Hio4, Hio3, Hio2; reflexivity|].
      split; [rewrite Hfs3, Hfs2 in Hfs4; simpl in Hfs4; exact Hfs4|].
      eexists (l2 ++ l3)%list, _. rewrite Hlog4, Hlog3, Hlog2. simpl.
      split; [rewrite <- !app_assoc; reflexivity|]. exists e. reflexivity.
  - exists false. eexists. split; [reflexivity|].
    split; simpl; [rewrite Hio3, Hio2; reflexivity|].
    split; [left; rewrite Hfs3, Hfs2; reflexivity|].
    eexists (l2 ++ l3)%list, _. rewrite Hlog3, Hlog2. simpl.
    split; [rewrite <- !app_assoc; reflexivity|]. exists e. reflexivity.
Qed.

(** ** The folder loop of the command-line tool                           *)

Lemma same_entries_refl f : same_entries f f.
Proof. intros q H. auto. Qed.

Lemma same_entries_overwrite (f : gmap Path Node) (p : Path) (d : FileData) :
  is_dir f p = false -> same_entries f (<[p := File d]> f).
Proof.
  intros Hd q Hq. destruct (decide (q = p)) as [->|Hne].
  - unfold path_exists, is_file, is_dir in *.
    destruct p as [|a p]; [discriminate|].
    rewrite !lookup_insert_eq.
    split; [apply bool_decide_eq_true; eauto|].
    apply bool_decide_eq_true in Hq as [n Hn].
    rewrite Hn in Hd |- *. destruct n; [discriminate|reflexivity..].
  - unfold path_exists, is_file in *.
    rewrite !lookup_insert_ne by congruence.
    destruct q; auto.
Qed.

Lemma run_succeeded_entries w w' i o fmt good S bg :
  run_succeeded w w' i o fmt good S bg -> same_entries (fs w) (fs w').
Proof.
  intros (params & canvas & _ & Hfs & _ & _ & _ & _ & _ & Hd & _).
  rewrite Hfs. apply same_entries_overwrite. exact Hd.
Qed.

Lemma run_failed_entries w w' i o reason :
  run_failed w w' i o reason -> same_entries (fs w) (fs w').
Proof.
  intros (_ & [Hfs|(Hfs & _ & Hd)] & _); rewrite Hfs.
  - apply same_entries_refl.
  - apply same_entries_overwrite. exact Hd.
Qed.

Lemma count_supported_same f f' l :
  same_entries f f' ->
  Forall (fun q => path_exists f q = true) l ->
  count_supported f' l = count_supported f l /\
  Forall (fun q => path_exists f' q = true) l.
Proof.
  intros Hsame Hall. unfold count_supported.
  induction Hall as [|q l Hq Hall [IH1 IH2]]; [split; [reflexivity|constructor]|].
  destruct (Hsame q Hq) as [Hex Hfile].
  split; [|constructor; assumption].
  assert (E : is_supported_file f' q = is_supported_file f q)
    by (unfold is_supported_file; rewrite Hfile; reflexivity).
  simpl. rewrite E.
  destruct (is_supported_file f q); simpl length; lia.
Qed.

Lemma parent_joinpath (d : Path) (n : string) : parent (joinpath d n) = d.
Proof. unfold parent, joinpath. apply removelast_last. Qed.

Lemma same_outside_refl (d : Path) (f : gmap Path Node) : same_outside d f f.
Proof. intros p _. reflexivity. Qed.

Lemma same_outside_trans (d : Path) (f1 f2 f3 : gmap Path Node) :
  same_outside d f1 f2 -> same_outside d f2 f3 -> same_outside d f1 f3.
Proof. intros H12 H23 p Hp. rewrite (H23 p Hp). apply H12, Hp. Qed.

Lemma same_outside_insert (d : Path) (f : gmap Path Node) (n : string) (node : Node) :
  same_outside d f (<[joinpath d n := node]> f).
Proof.
  intros p Hp. apply lookup_insert_ne. intros <-.
  apply Hp, parent_joinpath.
Qed.

Lemma run_succeeded_outside w w' i d n fmt good S bg :
  run_succeeded w w' i (joinpath d n) fmt good S bg ->
  same_outside d (fs w) (fs w') /\
  saved_count (io w') = saved_count (io w) + 1.
Proof.
  intros (params & canvas & _ & Hfs & _ & _ & _ & _ & Hio & _).
  rewrite Hfs, Hio. split; [apply same_outside_insert|].
  unfold saved_count. rewrite List.filter_app, length_app. simpl. lia.
Qed.

Lemma run_failed_outside w w' i d n reason :
  run_failed w w' i (joinpath d n) reason ->
  same_outside d (fs w) (fs w') /\ saved_count (io w') = saved_count (io w).
Proof.
  intros (Hio & Hfs & _). split.
  - destruct Hfs as [Hfs|(Hfs & _)]; rewrite Hfs;
      [apply same_outside_refl|apply same_outside_insert].
  - rewrite Hio. unfold saved_count. rewrite List.filter_app, length_app.
    simpl. lia.
Qed.

(** The loop over the input folder, from any counts on: it never raises;
    every supported file is counted once, as processed or as skipped; the
    processed ones are the ones saved; and nothing outside the output
    folder changes. *)
Lemma folder_loop_counts_from ext output_path canvas_size bg_color
    (l : list Path) (processed skipped : Z) (world : World) :
  library_returns ext ->
  Forall (fun q => path_exists (fs world) q = true) l ->
  exists processed' skipped' world',
    for_each l (Cli.folder_step ext output_path canvas_size bg_color)
      (processed, skipped) world = (Ret (processed', skipped'), world') /\
    processed <= processed' /\ skipped <= skipped' /\
    (processed' - processed) + (skipped' - skipped)
      = count_supported (fs world) l /\
    same_entries (fs world) (fs world') /\
    same_outside output_path (fs world) (fs world') /\
    saved_count (io world') = saved_count (io world) + (processed' - processed).
Proof.
  intros Hlib. revert processed skipped world.
  induction l as [|q l IH]; intros processed skipped world Hall.
  - exists processed, skipped, world. split; [reflexivity|].
    unfold count_supported. simpl.
    split; [lia|]. split; [lia|]. split; [lia|].
    split; [apply same_entries_refl|].
    split; [apply same_outside_refl|lia].
  - inversion Hall as [|? ? Hq Hall']; subst.
    simpl for_each. unfold bind at 1.
    unfold Cli.folder_step at 1. unfold bind at 1, get_world.
    fold (is_supported_file (fs world) q).
    unfold count_supported. simpl List.filter.
    destruct (is_supported_file (fs world) q) eqn:Hsup.
    + unfold bind at 1.
      destruct (cli_process_image_cases ext q
                  (joinpath output_path (stem q ++ ".png")) canvas_size
                  bg_color world Hlib) as (b & w1 & Hrun & Hcase).
      rewrite Hrun.
      assert (Hsame : same_entries (fs world) (fs w1)).
      { destruct b; [eapply run_succeeded_entries|eapply run_failed_entries];
          exact Hcase. }
      destruct (count_supported_same _ _ l Hsame Hall') as [Hcount Hall1].
      destruct b; unfold ret.
      * destruct (run_succeeded_outside _ _ _ _ _ _ _ _ _ Hcase) as [Hout Hsv].
        destruct (IH (processed + 1) skipped w1 Hall1)
          as (p' & s' & w' & Hloop & Hp & Hs & Hsum & Hs' & Hout' & Hsv').
        exists p', s', w'. split; [exact Hloop|].
        rewrite Hcount in Hsum. unfold count_supported in Hsum.
        simpl length. split; [lia|]. split; [lia|]. split; [lia|].
        split; [|split; [exact (same_outside_trans _ _ _ _ Hout Hout')|lia]].
        intros x Hx. destruct (Hsame x Hx) as [Hx1 Hf1].
        destruct (Hs' x Hx1) as [Hx2 Hf2]. split; congruence.
      * destruct (run_failed_outside _ _ _ _ _ _ Hcase) as [Hout Hsv].
        destruct (IH processed (skipped + 1) w1 Hall1)
          as (p' & s' & w' & Hloop & Hp & Hs & Hsum & Hs' & Hout' & Hsv').
        exists p', s', w'. split; [exact Hloop|].
        rewrite Hcount in Hsum. unfold count_supported in Hsum.
        simpl length. split; [lia|]. split; [lia|]. split; [lia|].
        split; [|split; [exact (same_outside_trans _ _ _ _ Hout Hout')|lia]].
        intros x Hx. destruct (Hsame x Hx) as [Hx1 Hf1].
        destruct (Hs' x Hx1) as [Hx2 Hf2]. split; congruence.
    + unfold ret.
      destruct (IH processed skipped world Hall')
        as (p' & s' & w' & Hloop & Hp & Hs & Hsum & Hs' & Hout' & Hsv').
      exists p', s', w'. split; [exact Hloop|].
      unfold count_supported in Hsum.
      split; [lia|]. split; [lia|]. split; [lia|]. auto.
Qed.

Lemma is_dir_exists (f : gmap Path Node) (p : Path) :
  is_dir f p = true -> path_exists f p = true.
Proof.
  unfold is_dir, path_exists. destruct p as [|a p]; [reflexivity|].
  intros H. apply bool_decide_eq_true.
  destruct (_ !! _) as [n|]; [eauto|discriminate H].
Qed.

Lemma listdir_exists (f : gmap Path Node) (d : Path) :
  Forall (fun q => path_exists f q = true) (listdir f d).
Proof.
  apply Forall_forall. intros q Hq. unfold listdir in Hq.
  apply list_elem_of_filter in Hq as [[Hne _] Hin].
  apply (proj1 (list_elem_of_In _ _)) in Hin.
  apply in_map_iff in Hin as [[k n] [Hk Hin]].
  simpl in Hk. subst k.
  apply (proj2 (list_elem_of_In _ _)) in Hin.
  apply elem_of_map_to_list in Hin.
  unfold path_exists. destruct q as [|a q]; [reflexivity|].
  apply bool_decide_eq_true. eauto.
Qed.

(** [main] in folder mode: it comes down to the loop and the summary. *)
Lemma main_folder_run (ext : External) (args : Cli.Args)
    (bg_color : option Color) (world : World) :
  library_returns ext ->
  Cli.parse_color (Cli.arg_bg args) = Ret bg_color ->
  path_exists (fs world) (Cli.arg_input args) = true ->
  is_file (fs world) (Cli.arg_input args) = false ->
  is_dir (fs world) (Cli.arg_output args) = true ->
  exists processed skipped after,
    Cli.main ext args world
      = (Ret tt,
         mk_world (fs after)
           (log after ++
            [mk_log INFO "Processing complete: {} processed, {} skipped"
               [AInt processed; AInt skipped]])%list (io after)) /\
    0 <= processed /\ 0 <= skipped /\
    processed + skipped
      = count_supported (fs world) (listdir (fs world) (Cli.arg_input args)) /\
    same_outside (Cli.arg_output args) (fs world) (fs after) /\
    saved_count (io after) = saved_count (io world) + processed.
Proof.
  intros Hlib Hparse Hin Hnofile Hout.
  unfold Cli.main, bind at 1, try_except_class, lift. rewrite Hparse.
  unfold bind at 1, get_world.
  rewrite Hin, Hnofile, (is_dir_exists _ _ Hout), Hout.
  change (negb true) with false. cbv beta iota.
  unfold bind at 1, get_world. cbv beta iota.
  unfold bind at 1. cbv beta iota.
  unfold ret. cbv beta iota. unfold bind at 1.
  destruct (folder_loop_counts_from ext (Cli.arg_output args)
              (Cli.arg_size args) bg_color
              (listdir (fs world) (Cli.arg_input args)) 0 0 world Hlib
              (listdir_exists _ _))
    as (p & s & w' & Hloop & Hp & Hs & Hsum & _ & Hout' & Hsv).
  rewrite Hloop. cbv beta iota.
  exists p, s, w'. split; [reflexivity|].
  split; [lia|]. split; [lia|]. split; [lia|]. split; [exact Hout'|lia].
Qed.

Lemma plain_external_returns : library_returns plain_external.
Proof. intros target image status H. discriminate H. Qed.

(** X1.  Neither [process_image] of the command-line tool nor
    [process_single_image] of the web service lets an exception out: with
    a library that does not end the process, each returns a boolean for
    every input path, output path, canvas size, background and file
    system. *)
Theorem process_image_never_raises (ext : External)
    (input_path output_path : Path) (canvas_size : Z)
    (bg_color : option Color) (world : World) :
  library_returns ext ->
  (exists ok world',
     Cli.process_image ext input_path output_path canvas_size bg_color world
       = (Ret ok, world')) /\
  (exists ok world',
     Web.process_single_image ext input_path output_path canvas_size bg_color
       world = (Ret ok, world')).
Proof.
  intros Hlib. split.
  - destruct (cli_process_image_cases ext input_path output_path canvas_size
                bg_color world Hlib) as (b & w' & Hrun & _). eauto.
  - destruct (web_process_single_image_cases ext input_path output_path
                canvas_size bg_color world Hlib) as (b & w' & Hrun & _). eauto.
Qed.

Lemma process_image_never_raises_witness :
  library_returns plain_external /\
  (exists ok world',
     Cli.process_image plain_external ["missing.jpg"] ["out.png"] 1200 None
       empty_world = (Ret ok, world')) /\
  (exists ok world',
     Web.process_single_image plain_external ["missing.jpg"] ["out.png"] 1200
       None empty_world = (Ret ok, world')).
Proof.
  split; [exact plain_external_returns|].
  apply (process_image_never_raises plain_external ["missing.jpg"] ["out.png"]
           1200 None empty_world).
  exact plain_external_returns.
Defined.

(** X2.  When [process_image] returns [True], the file system differs from
    the one before in the output path alone; that path holds an encoded
    square canvas of the canvas size, in mode RGBA without a background
    colour and RGB with one, written as WEBP when the lower-cased suffix of
    the output path is [.webp] and as PNG otherwise; the input was opened
    and the output saved, in that order, and nothing else. *)
Theorem process_image_success (ext : External)
    (input_path output_path : Path) (canvas_size : Z)
    (bg_color : option Color) (world world' : World) :
  library_returns ext ->
  Cli.process_image ext input_path output_path canvas_size bg_color world
    = (Ret true, world') ->
  exists params canvas,
    fs world'
      = <[output_path :=
            File (Encoded
                    (if String.eqb (PyStr.lower (suffix output_path)) ".webp"
                     then "WEBP" else "PNG") params canvas)]> (fs world) /\
    width canvas = canvas_size /\ height canvas = canvas_size /\
    mode canvas = match bg_color with None => "RGBA" | Some _ => "RGB" end /\
    io world' = (io world ++ [Opened input_path; Saved output_path])%list.
Proof.
  intros Hlib Hrun.
  destruct (cli_process_image_cases ext input_path output_path canvas_size
              bg_color world Hlib) as (b & w' & Hrun' & Hcase).
  rewrite Hrun in Hrun'. inversion Hrun'; subst b w'.
  destruct Hcase as (params & canvas & Hgood & Hfs & Hw & Hh & Hm & _ & Hio & _).
  exists params, canvas. auto.
Qed.

Lemma process_image_success_witness :
  let world := world_with ["in.jpg"] "JPEG" (solid 2 3 "RGB" ∅ [1; 2; 3]) in
  exists world' params canvas,
    Cli.process_image plain_external ["in.jpg"] ["out.WebP"] 4 None world
      = (Ret true, world') /\
    fs world' = <[["out.WebP"] := File (Encoded "WEBP" params canvas)]> (fs world) /\
    width canvas = 4 /\ height canvas = 4 /\ mode canvas = "RGBA" /\
    io world' = [Opened ["in.jpg"]; Saved ["out.WebP"]].
Proof.
  intros world.
  destruct (Cli.process_image plain_external ["in.jpg"] ["out.WebP"] 4 None
              world) as [r world'] eqn:Hrun.
  assert (Hr : r = Ret true) by (vm_compute in Hrun; congruence).
  subst r. exists world'.
  destruct (process_image_success plain_external ["in.jpg"] ["out.WebP"] 4
              None world world' plain_external_returns Hrun)
    as (params & canvas & H).
  exists params, canvas. split; [reflexivity|]. exact H.
Defined.

(** X3.  When [process_image] returns [False], nothing was saved: the
    input was opened and that is all the I/O; the file system is the one
    before, except that an output file that was there already may have been
    spoilt by a failed save; and the last record of the log gives the
    reason, the error of this input or the warning about its size. *)
Theorem process_image_failure (ext : External)
    (input_path output_path : Path) (canvas_size : Z)
    (bg_color : option Color) (world world' : World) :
  library_returns ext ->
  Cli.process_image ext input_path output_path canvas_size bg_color world
    = (Ret false, world') ->
  io world' = (io world ++ [Opened input_path])%list /\
  (fs world' = fs world \/
   (fs world' = <[output_path := File Undecodable]> (fs world) /\
    path_exists (fs world) output_path = true)) /\
  exists records record,
    log world' = (log world ++ records ++ [record])%list /\
    ((exists e, record = mk_log ERROR "Error processing {}: {}"
                           [APath input_path; AExn e]) \/
     (exists args, record = mk_log WARNING
                     "Image {}x{} exceeds canvas size {}x{} - skipping" args)).
Proof.
  intros Hlib Hrun.
  destruct (cli_process_image_cases ext input_path output_path canvas_size
              bg_color world Hlib) as (b & w' & Hrun' & Hcase).
  rewrite Hrun in Hrun'. inversion Hrun'; subst b w'.
  destruct Hcase as (Hio & Hfs & records & record & Hlog & Hreason).
  split; [exact Hio|]. split.
  - destruct Hfs as [Hfs|(Hfs & Hex & _)]; [left|right]; auto.
  - exists records, record. split; [exact Hlog|exact Hreason].
Qed.

Lemma process_image_failure_witness :
  let world := world_with ["in.jpg"] "JPEG" (solid 5 3 "RGB" ∅ [1; 2; 3]) in
  exists world',
    Cli.process_image plain_external ["in.jpg"] ["out.png"] 4 None world
      = (Ret false, world') /\
    io world' = [Opened ["in.jpg"]] /\
    (fs world' = fs world \/
     (fs world' = <[["out.png"] := File Undecodable]> (fs world) /\
      path_exists (fs world) ["out.png"] = true)) /\
    exists records record,
      log world' = (records ++ [record])%list /\
      ((exists e, record = mk_log ERROR "Error processing {}: {}"
                             [APath ["in.jpg"]; AExn e]) \/
       (exists args, record = mk_log WARNING
                       "Image {}x{} exceeds canvas size {}x{} - skipping" args)).
Proof.
  intros world.
  destruct (Cli.process_image plain_external ["in.jpg"] ["out.png"] 4 None
              world) as [r world'] eqn:Hrun.
  assert (Hr : r = Ret false) by (vm_compute in Hrun; congruence).
  subst r. exists world'. split; [reflexivity|].
  exact (process_image_failure plain_external ["in.jpg"] ["out.png"] 4 None
           world world' plain_external_returns Hrun).
Defined.

(** X4.  When [process_single_image] of the web service returns [True],
    the output path, and nothing else, was written, and it holds a square
    canvas of the canvas size encoded as PNG whatever the name of the
    output path. *)
Theorem process_single_image_success (ext : External)
    (input_path output_path : Path) (canvas_size : Z)
    (bg_color : option Color) (world world' : World) :
  library_returns ext ->
  Web.process_single_image ext input_path output_path canvas_size bg_color
    world = (Ret true, world') ->
  exists canvas,
    fs world' = <[output_path := File (Encoded "PNG" ∅ canvas)]> (fs world) /\
    width canvas = canvas_size /\ height canvas = canvas_size /\
    mode canvas = match bg_color with None => "RGBA" | Some _ => "RGB" end /\
    io world' = (io world ++ [Opened input_path; Saved output_path])%list.
Proof.
  intros Hlib Hrun.
  destruct (web_process_single_image_cases ext input_path output_path
              canvas_size bg_color world Hlib) as (b & w' & Hrun' & Hcase).
  rewrite Hrun in Hrun'. inversion Hrun'; subst b w'.
  destruct Hcase as (params & canvas & Hgood & Hfs & Hw & Hh & Hm & _ & Hio & _).
  subst params. exists canvas. auto.
Qed.

Lemma process_single_image_success_witness :
  let world := world_with ["in.jpg"] "JPEG" (solid 2 3 "RGB" ∅ [1; 2; 3]) in
  exists world' canvas,
    Web.process_single_image plain_external ["in.jpg"] ["out.webp"] 4 None
      world = (Ret true, world') /\
    fs world' = <[["out.webp"] := File (Encoded "PNG" ∅ canvas)]> (fs world) /\
    width canvas = 4 /\ height canvas = 4 /\ mode canvas = "RGBA" /\
    io world' = [Opened ["in.jpg"]; Saved ["out.webp"]].
Proof.
  intros world.
  destruct (Web.process_single_image plain_external ["in.jpg"] ["out.webp"] 4
              None world) as [r world'] eqn:Hrun.
  assert (Hr : r = Ret true) by (vm_compute in Hrun; congruence).
  subst r. exists world'.
  destruct (process_single_image_success plain_external ["in.jpg"]
              ["out.webp"] 4 None world world' plain_external_returns Hrun)
    as (canvas & H).
  exists canvas. split; [reflexivity|]. exact H.
Defined.

(** X5.  When [process_single_image] returns [False], nothing was saved
    and the reason is on the log: its last record is the error of this
    input.  (The web service has no skip without an error.) *)
Theorem process_single_image_failure (ext : External)
    (input_path output_path : Path) (canvas_size : Z)
    (bg_color : option Color) (world world' : World) :
  library_returns ext ->
  Web.process_single_image ext input_path output_path canvas_size bg_color
    world = (Ret false, world') ->
  io world' = (io world ++ [Opened input_path])%list /\
  (fs world' = fs world \/
   (fs world' = <[output_path := File Undecodable]> (fs world) /\
    path_exists (fs world) output_path = true)) /\
  exists records e,
    log world'
      = (log world ++ records ++
         [mk_log ERROR "Error processing {}: {}"
            [APath input_path; AExn e]])%list.
Proof.
  intros Hlib Hrun.
  destruct (web_process_single_image_cases ext input_path output_path
              canvas_size bg_color world Hlib) as (b & w' & Hrun' & Hcase).
  rewrite Hrun in Hrun'. inversion Hrun'; subst b w'.
  destruct Hcase as (Hio & Hfs & records & record & Hlog & [e He]).
  split; [exact Hio|]. split.
  - destruct Hfs as [Hfs|(Hfs & Hex & _)]; [left|right]; auto.
  - exists records, e. rewrite Hlog, He. reflexivity.
Qed.

Lemma process_single_image_failure_witness :
  let world := world_with ["in.jpg"] "JPEG" (solid 5 0 "RGB" ∅ [1; 2; 3]) in
  exists world',
    Web.process_single_image plain_external ["in.jpg"] ["out.png"] 4 None
      world = (Ret false, world') /\
    io world' = [Opened ["in.jpg"]] /\
    (fs world' = fs world \/
     (fs world' = <[["out.png"] := File Undecodable]> (fs world) /\
      path_exists (fs world) ["out.png"] = true)) /\
    exists records e,
      log world'
        = (records ++
           [mk_log ERROR "Error processing {}: {}"
              [APath ["in.jpg"]; AExn e]])%list.
Proof.
  intros world.
  destruct (Web.process_single_image plain_external ["in.jpg"] ["out.png"] 4
              None world) as [r world'] eqn:Hrun.
  assert (Hr : r = Ret false) by (vm_compute in Hrun; congruence).
  subst r. exists world'. split; [reflexivity|].
  exact (process_single_image_failure plain_external ["in.jpg"] ["out.png"] 4
           None world world' plain_external_returns Hrun).
Defined.

(** X6.  An input path that does not hold a decodable image (nothing
    there, a directory, a file that is no image) makes both programs
    return [False] with one error record on the log; the file system is
    untouched. *)
Theorem unreadable_input_is_reported (ext : External)
    (input_path output_path : Path) (canvas_size : Z)
    (bg_color : option Color) (world : World) :
  (forall format params image,
     fs world !! input_path <> Some (File (Encoded format params image))) ->
  exists e,
    let world' :=
      mk_world (fs world)
        (log world ++ [mk_log ERROR "Error processing {}: {}"
                         [APath input_path; AExn e]])%list
        (io world ++ [Opened input_path])%list in
    Cli.process_image ext input_path output_path canvas_size bg_color world
      = (Ret false, world') /\
    Web.process_single_image ext input_path output_path canvas_size bg_color
      world = (Ret false, world').
Proof.
  intros Hnone.
  assert (Hopen : exists e,
            PIL.open input_path world = (Raise e, opened input_path world)).
  { unfold PIL.open, opened.
    destruct (fs world !! input_path) as [[|[fmt kw im|]|entries]|] eqn:Hl;
      [|exfalso; exact (Hnone _ _ _ eq_refl)|..]; eauto. }
  destruct Hopen as [e Hopen]. exists e. cbv zeta.
  unfold Cli.process_image, Web.process_single_image, try_except.
  split; (unfold bind at 1; rewrite Hopen; reflexivity).
Qed.

Lemma unreadable_input_is_reported_witness :
  exists e,
    let world' :=
      mk_world ∅ [mk_log ERROR "Error processing {}: {}"
                    [APath ["missing.jpg"]; AExn e]]
        [Opened ["missing.jpg"]] in
    Cli.process_image plain_external ["missing.jpg"] ["out.png"] 1200 None
      empty_world = (Ret false, world') /\
    Web.process_single_image plain_external ["missing.jpg"] ["out.png"] 1200
      None empty_world = (Ret false, world').
Proof.
  apply (unreadable_input_is_reported plain_external ["missing.jpg"]
           ["out.png"] 1200 None empty_world).
  intros format params image H. vm_compute in H. discriminate H.
Defined.

(** ** [main] of the command-line tool                                    *)

(** X7.  Folder mode of [main]: with a colour that parses, an input folder
    and an output folder that exists, [main] returns normally; the summary
    it logs last counts every supported file of the input folder exactly
    once, as processed or as skipped, and its processed count is the number
    of files the run has saved. *)
Theorem main_folder_summary (ext : External) (args : Cli.Args)
    (bg_color : option Color) (world : World) :
  library_returns ext ->
  Cli.parse_color (Cli.arg_bg args) = Ret bg_color ->
  path_exists (fs world) (Cli.arg_input args) = true ->
  is_file (fs world) (Cli.arg_input args) = false ->
  is_dir (fs world) (Cli.arg_output args) = true ->
  exists processed skipped records world',
    Cli.main ext args world = (Ret tt, world') /\
    log world'
      = (records ++
         [mk_log INFO "Processing complete: {} processed, {} skipped"
            [AInt processed; AInt skipped]])%list /\
    0 <= processed /\ 0 <= skipped /\
    processed + skipped
      = count_supported (fs world) (listdir (fs world) (Cli.arg_input args)) /\
    saved_count (io world') = saved_count (io world) + processed.
Proof.
  intros Hlib Hparse Hin Hnofile Hout.
  destruct (main_folder_run ext args bg_color world Hlib Hparse Hin Hnofile
              Hout) as (p & s & after & Hrun & Hp & Hs & Hsum & _ & Hsaved).
  exists p, s, (log after). eexists. split; [exact Hrun|].
  split; [reflexivity|]. auto.
Qed.

Lemma main_folder_summary_witness :
  let image := solid 2 3 "RGB" ∅ [1; 2; 3] in
  let world :=
    mk_world {[ ["in"] := Directory; ["out"] := Directory;
                ["in"; "a.jpg"] := File (Encoded "JPEG" ∅ image);
                ["in"; "b.PNG"] := File Undecodable;
                ["in"; "notes.txt"] := File Undecodable ]} [] [] in
  let args := Cli.mk_args ["in"] ["out"] 4 None in
  count_supported (fs world) (listdir (fs world) ["in"]) = 2 /\
  exists processed skipped records world',
    Cli.main plain_external args world = (Ret tt, world') /\
    log world'
      = (records ++
         [mk_log INFO "Processing complete: {} processed, {} skipped"
            [AInt processed; AInt skipped]])%list /\
    0 <= processed /\ 0 <= skipped /\
    processed + skipped
      = count_supported (fs world) (listdir (fs world) ["in"]) /\
    saved_count (io world') = saved_count (io world) + processed.
Proof.
  intros image world args. split; [vm_compute; reflexivity|].
  apply (main_folder_summary plain_external args None world).
  - exact plain_external_returns.
  - reflexivity.
  - vm_compute; reflexivity.
  - vm_compute; reflexivity.
  - vm_compute; reflexivity.
Defined.

Lemma parse_color_never_exits color_str status :
  Cli.parse_color color_str <> Exit status.
Proof.
  unfold Cli.parse_color. destruct color_str as [s|]; [|discriminate].
  cbv zeta. unfold Cli.obind, Cli.parse_hex.
  destruct (PyStr.len _ =? 6); [|destruct (PyStr.len _ =? 3)];
    repeat (match goal with
            | |- context [PyStr.int16 ?x] => destruct (PyStr.int16 x)
            end);
    discriminate.
Qed.

(** X9.  [main] turns down an input path that does not exist, a single
    input file whose suffix is not supported, and an input folder with an
    output path that exists and is no folder: it logs one error and exits
    with status 1, and has neither read nor written a file.  (A colour
    that does not parse ends the same way.) *)
Theorem main_rejects_bad_paths (ext : External) (args : Cli.Args)
    (world : World) :
  path_exists (fs world) (Cli.arg_input args) = false \/
  (is_file (fs world) (Cli.arg_input args) = true /\
   PyStr.lower (suffix (Cli.arg_input args)) ∉ Cli.SUPPORTED_FORMATS) \/
  (path_exists (fs world) (Cli.arg_input args) = true /\
   is_file (fs world) (Cli.arg_input args) = false /\
   path_exists (fs world) (Cli.arg_output args) = true /\
   is_dir (fs world) (Cli.arg_output args) = false) ->
  exists record,
    Cli.main ext args world
      = (Exit 1, mk_world (fs world) (log world ++ [record])%list (io world)) /\
    log_level record = ERROR.
Proof.
  intros Hbad.
  unfold Cli.main, bind at 1, try_except_class, lift.
  destruct (Cli.parse_color (Cli.arg_bg args)) as [bg|e|s] eqn:Hparse.
  - unfold bind at 1, get_world.
    destruct Hbad as [Hin|[[Hfile Hsuf]|(Hin & Hfile & Hex & Hdir)]].
    + rewrite Hin. eexists. split; [reflexivity|reflexivity].
    + rewrite (is_file_exists _ _ Hfile), Hfile.
      rewrite bool_decide_eq_false_2 by exact Hsuf.
      eexists. split; [reflexivity|reflexivity].
    + rewrite Hin, Hfile, Hex, Hdir.
      eexists. split; [reflexivity|reflexivity].
  - rewrite (parse_color_raises_value_error _ _ Hparse).
    eexists. split; [reflexivity|reflexivity].
  - exfalso. exact (parse_color_never_exits _ _ Hparse).
Qed.

Lemma main_rejects_bad_paths_witness :
  let world :=
    mk_world {[ ["notes.txt"] := File Undecodable ]} [] [] in
  let args := Cli.mk_args ["notes.txt"] ["out.png"] 1200 None in
  exists record,
    Cli.main plain_external args world
      = (Exit 1, mk_world (fs world) [record] []) /\
    log_level record = ERROR.
Proof.
  intros world args.
  apply (main_rejects_bad_paths plain_external args world).
  right. left. split; [vm_compute; reflexivity|].
  intros Hin. apply (bool_decide_eq_true_2 _) in Hin.
  vm_compute in Hin. discriminate Hin.
Defined.

(** ** The colour parser                                                  *)

Lemma in_all_ascii (a : ascii) : In a all_ascii.
Proof.
  unfold all_ascii. rewrite <- (ascii_nat_embedding a).
  apply in_map. apply in_seq.
  pose proof (nat_ascii_bounded a). lia.
Qed.

Lemma forall_ascii (P : ascii -> bool) (a : ascii) :
  forallb P all_ascii = true -> P a = true.
Proof.
  intros H. rewrite forallb_forall in H. apply H, in_all_ascii.
Qed.

Lemma is_color_eq r x y z :
  is_color r x y z = true -> r = Ret (Some (x, y, z)).
Proof.
  unfold is_color. destruct r as [[[[r g] b]|]|e|s]; try discriminate.
  intros H. apply andb_true_iff in H as [H Hb].
  apply andb_true_iff in H as [Hr Hg].
  apply Z.eqb_eq in Hr. apply Z.eqb_eq in Hg. apply Z.eqb_eq in Hb.
  subst. reflexivity.
Qed.

Lemma all_spellings_agree : forallb spellings_agree_a all_ascii = true.
Proof. vm_compute. reflexivity. Qed.

Lemma one_char_ints : forallb (one_char_int_within 0 15) all_ascii = true.
Proof. vm_compute. reflexivity. Qed.

Lemma two_char_ints :
  forallb (two_char_ints_within (-15) 255) all_ascii = true.
Proof. vm_compute. reflexivity. Qed.

(** X12.  The three-digit spelling of a colour is the six-digit one with
    every digit doubled, and the hash is optional: for hexadecimal digits
    [a], [b] and [c] of values [x], [y] and [z], [parse_color] returns
    [(17 x, 17 y, 17 z)] on each of [abc], [aabbcc], [#abc] and
    [#aabbcc]. *)
Theorem parse_color_spellings (a b c : ascii) (x y z : Z) :
  hex_value a = Some x -> hex_value b = Some y -> hex_value c = Some z ->
  Cli.parse_color (Some (short_color a b c))
    = Ret (Some (x * 17, y * 17, z * 17)) /\
  Cli.parse_color (Some (long_color a b c))
    = Ret (Some (x * 17, y * 17, z * 17)) /\
  Cli.parse_color (Some (String "#" (short_color a b c)))
    = Ret (Some (x * 17, y * 17, z * 17)) /\
  Cli.parse_color (Some (String "#" (long_color a b c)))
    = Ret (Some (x * 17, y * 17, z * 17)).
Proof.
  intros Ha Hb Hc.
  pose proof (forall_ascii spellings_agree_a a all_spellings_agree) as H.
  unfold spellings_agree_a in H. rewrite Ha in H.
  apply (forall_ascii _ b) in H.
  unfold spellings_agree_b in H. rewrite Hb in H.
  apply (forall_ascii _ c) in H.
  unfold spellings_agree_c in H. rewrite Hc in H.
  unfold spellings_agree in H.
  apply andb_true_iff in H as [H H4].
  apply andb_true_iff in H as [H H3].
  apply andb_true_iff in H as [H1 H2].
  split; [exact (is_color_eq _ _ _ _ H1)|].
  split; [exact (is_color_eq _ _ _ _ H2)|].
  split; [exact (is_color_eq _ _ _ _ H3)|exact (is_color_eq _ _ _ _ H4)].
Qed.

Lemma parse_color_spellings_witness :
  Cli.parse_color (Some "3fA") = Ret (Some (51, 255, 170)) /\
  Cli.parse_color (Some "33ffAA") = Ret (Some (51, 255, 170)) /\
  Cli.parse_color (Some "#3fA") = Ret (Some (51, 255, 170)) /\
  Cli.parse_color (Some "#33ffAA") = Ret (Some (51, 255, 170)).
Proof.
  apply (parse_color_spellings "3" "f" "A" 3 15 10); reflexivity.
Defined.

Lemma len_three (t : string) :
  PyStr.len t = 3 -> exists a b c, t = String a (String b (String c "")).
Proof.
  unfold PyStr.len. intros H.
  destruct t as [|a [|b [|c [|d t]]]]; simpl in H; try lia. eauto.
Qed.

Lemma len_six (t : string) :
  PyStr.len t = 6 ->
  exists a b c d e f,
    t = String a (String b (String c (String d (String e (String f ""))))).
Proof.
  unfold PyStr.len. intros H.
  destruct t as [|a [|b [|c [|d [|e [|f [|g t]]]]]]]; simpl in H; try lia.
  eauto 10.
Qed.

Lemma one_char_int (a : ascii) (v : Z) :
  PyStr.int16 (String a "") = Some v -> 0 <= v <= 15.
Proof.
  intros Hv. pose proof (forall_ascii _ a one_char_ints) as H.
  unfold one_char_int_within, int16_within in H. rewrite Hv in H. lia.
Qed.

Lemma two_char_int (a b : ascii) (v : Z) :
  PyStr.int16 (String a (String b "")) = Some v -> -15 <= v <= 255.
Proof.
  intros Hv. pose proof (forall_ascii _ a two_char_ints) as H.
  unfold two_char_ints_within in H. apply (forall_ascii _ b) in H.
  unfold two_char_int_within, int16_within in H. rewrite Hv in H. lia.
Qed.

(** X13.  No component of a colour that [parse_color] returns is above
    255.  A component can be negative, down to -15, since [int] accepts a
    sign in place of the first of two digits; the three-digit spelling
    gives components from 0 to 255 only. *)
Theorem parse_color_components (color_str : string) (r g b : Z) :
  Cli.parse_color (Some color_str) = Ret (Some (r, g, b)) ->
  -15 <= r <= 255 /\ -15 <= g <= 255 /\ -15 <= b <= 255.
Proof.
  unfold Cli.parse_color. fold (normalise_color color_str).
  set (t := normalise_color color_str).
  destruct (Z.eqb_spec (PyStr.len t) 6) as [H6|_].
  - destruct (len_six t H6) as (c1 & c2 & c3 & c4 & c5 & c6 & ->).
    unfold Cli.obind, Cli.parse_hex.
    change (PyStr.slice (String c1 (String c2 (String c3 (String c4
              (String c5 (String c6 "")))))) 0 2)
      with (String c1 (String c2 "")).
    change (PyStr.slice (String c1 (String c2 (String c3 (String c4
              (String c5 (String c6 "")))))) 2 4)
      with (String c3 (String c4 "")).
    change (PyStr.slice (String c1 (String c2 (String c3 (String c4
              (String c5 (String c6 "")))))) 4 6)
      with (String c5 (String c6 "")).
    destruct (PyStr.int16 (String c1 (String c2 ""))) as [v1|] eqn:E1;
      [|discriminate].
    destruct (PyStr.int16 (String c3 (String c4 ""))) as [v2|] eqn:E2;
      [|discriminate].
    destruct (PyStr.int16 (String c5 (String c6 ""))) as [v3|] eqn:E3;
      [|discriminate].
    intros H. inversion H; subst.
    apply two_char_int in E1. apply two_char_int in E2.
    apply two_char_int in E3. lia.
  - destruct (Z.eqb_spec (PyStr.len t) 3) as [H3|_]; [|discriminate].
    destruct (len_three t H3) as (c1 & c2 & c3 & ->).
    unfold Cli.obind, Cli.parse_hex.
    change (PyStr.slice (String c1 (String c2 (String c3 ""))) 0 1)
      with (String c1 "").
    change (PyStr.slice (String c1 (String c2 (String c3 ""))) 1 2)
      with (String c2 "").
    change (PyStr.slice (String c1 (String c2 (String c3 ""))) 2 3)
      with (String c3 "").
    destruct (PyStr.int16 (String c1 "")) as [v1|] eqn:E1; [|discriminate].
    destruct (PyStr.int16 (String c2 "")) as [v2|] eqn:E2; [|discriminate].
    destruct (PyStr.int16 (String c3 "")) as [v3|] eqn:E3; [|discriminate].
    intros H. inversion H; subst.
    apply one_char_int in E1. apply one_char_int in E2.
    apply one_char_int in E3. lia.
Qed.

Lemma parse_color_components_witness :
  Cli.parse_color (Some "#-f+f7f") = Ret (Some (-15, 15, 127)) /\
  (-15 <= -15 <= 255 /\ -15 <= 15 <= 255 /\ -15 <= 127 <= 255).
Proof.
  split; [vm_compute; reflexivity|].
  apply (parse_color_components "#-f+f7f" (-15) 15 127).
  vm_compute. reflexivity.
Defined.

(** ** The scaled size of the web service, from below                     *)

(** Relative error of rounding, lower side: [fl(n/d) >= (n/d) (1 - 2^-53)]. *)
Lemma rnd_pos_lower n d :
  0 < n -> 0 < d ->
  n * (2 ^ 53 - 1) * den (rnd_pos n d) <= num (rnd_pos n d) * d * 2 ^ 53.
Proof.
  intros Hn Hd.
  pose proof (rnd_pos_norm n d Hn Hd) as Hnorm.
  rewrite rnd_pos_unfold. unfold num, den. cbn [mant expo].
  set (e := rnd_exp n d) in *.
  pose proof (pow2_pos e) as HA. pose proof (pow2_pos (- e)) as HB.
  set (A := pow2 e) in *. set (B := pow2 (- e)) in *.
  pose proof (round_half_even_bounds (n * B) (d * A) ltac:(lia) ltac:(lia))
    as [Hlow _].
  set (m := round_half_even (n * B) (d * A)) in *.
  change (2 ^ 53) with (2 * 2 ^ 52).
  nia.
Qed.

Lemma fmul_lower f g :
  0 < mant f -> 0 < mant g ->
  num f * num g * (2 ^ 53 - 1) * den (fmul f g)
  <= num (fmul f g) * (den f * den g) * 2 ^ 53.
Proof.
  intros Hf Hg. rewrite (fmul_pos f g Hf Hg).
  set (n := mant f * mant g * pow2 (expo f + expo g)).
  set (d := pow2 (- (expo f + expo g))).
  assert (Hd : 0 < d) by apply pow2_pos.
  assert (Hn : 0 < n).
  { unfold n. pose proof (pow2_pos (expo f + expo g)). nia. }
  pose proof (rnd_pos_lower n d Hn Hd) as Hlow.
  assert (Hid : n * (den f * den g) = num f * num g * d).
  { unfold n, d, num, den.
    pose proof (pow2_add (expo f) (expo g)) as E.
    transitivity (mant f * mant g *
                  (pow2 (expo f + expo g) * (pow2 (- expo f) * pow2 (- expo g))));
      [ring|].
    rewrite E. ring. }
  set (p := rnd_pos n d) in *.
  pose proof (den_pos f). pose proof (den_pos g). pose proof (den_pos p).
  assert (0 < mant p) by (apply rnd_pos_mant_pos; assumption).
  pose proof (num_pos p ltac:(assumption)).
  apply (Z.mul_le_mono_pos_r _ _ d Hd).
  transitivity (n * (2 ^ 53 - 1) * den p * (den f * den g)).
  - replace (n * (2 ^ 53 - 1) * den p * (den f * den g))
      with (n * (den f * den g) * ((2 ^ 53 - 1) * den p)) by ring.
    rewrite Hid. lia.
  - transitivity (num p * d * 2 ^ 53 * (den f * den g)); [|lia].
    apply Z.mul_le_mono_nonneg_r; lia.
Qed.

(** [int(w * g) >= S - 1] as soon as [g >= (S / w) (1 - 2^-53)]. *)
Lemma scaled_dim_ge w S g :
  0 < w < 2 ^ 53 -> 0 < S < 2 ^ 51 -> 0 < mant g ->
  S * (2 ^ 53 - 1) * den g <= num g * w * 2 ^ 53 ->
  S - 1 <= to_int (mul_int_float w g).
Proof.
  intros Hw HS Hg Hb.
  destruct (of_int_exact w Hw) as [Hex Hmw].
  unfold mul_int_float.
  pose proof (fmul_lower (of_int w) g Hmw Hg) as Hlow.
  pose proof (fmul_mant_pos (of_int w) g Hmw Hg) as Hmp.
  set (f := of_int w) in *. set (p := fmul f g) in *.
  pose proof (den_pos f) as Hdf. pose proof (den_pos g) as Hdg.
  pose proof (den_pos p) as Hdp.
  pose proof (num_pos p Hmp) as Hnp. pose proof (num_pos g Hg) as Hng.
  rewrite Hex in Hlow.
  assert (H1 : w * num g * (2 ^ 53 - 1) * den p <= num p * den g * 2 ^ 53).
  { apply (Z.mul_le_mono_pos_r _ _ (den f) Hdf). lia. }
  assert (H2 : S * ((2 ^ 53 - 1) * (2 ^ 53 - 1)) * den p <= num p * 2 ^ 106).
  { apply (Z.mul_le_mono_pos_r _ _ (den g) Hdg).
    change (2 ^ 106) with (2 ^ 53 * 2 ^ 53).
    transitivity (w * num g * (2 ^ 53 - 1) * den p * 2 ^ 53); [|lia].
    transitivity (num g * w * 2 ^ 53 * ((2 ^ 53 - 1) * den p)); [|lia].
    replace (S * ((2 ^ 53 - 1) * (2 ^ 53 - 1)) * den p * den g)
      with (S * (2 ^ 53 - 1) * den g * ((2 ^ 53 - 1) * den p)) by ring.
    apply Z.mul_le_mono_nonneg_r; lia. }
  unfold to_int. rewrite Z.quot_div_nonneg by lia.
  apply Z.div_le_lower_bound; [lia|].
  apply (Z.mul_le_mono_pos_r _ _ (2 ^ 106)); [reflexivity|].
  assert ((S - 1) * 2 ^ 106 <= S * ((2 ^ 53 - 1) * (2 ^ 53 - 1))) by lia.
  nia.
Qed.

(** [int(h * g) = 0] as soon as [g <= (S / w) (1 + 2^-53)] and [h S < w]. *)
Lemma scaled_dim_zero w h S g :
  0 < w < 2 ^ 51 -> 0 < h < 2 ^ 53 -> 0 < S -> h * S < w -> 0 < mant g ->
  num g * w * 2 ^ 53 <= S * (2 ^ 53 + 1) * den g ->
  to_int (mul_int_float h g) = 0.
Proof.
  intros Hw Hh HS Hthin Hg Hb.
  destruct (of_int_exact h Hh) as [Hex Hmh].
  unfold mul_int_float.
  pose proof (fmul_upper (of_int h) g Hmh Hg) as Hup.
  pose proof (fmul_mant_pos (of_int h) g Hmh Hg) as Hmp.
  set (f := of_int h) in *. set (p := fmul f g) in *.
  pose proof (den_pos f) as Hdf. pose proof (den_pos g) as Hdg.
  pose proof (den_pos p) as Hdp.
  pose proof (num_pos p Hmp) as Hnp. pose proof (num_pos g Hg) as Hng.
  rewrite Hex in Hup.
  assert (H1 : num p * den g * 2 ^ 53 <= h * num g * (2 ^ 53 + 1) * den p).
  { apply (Z.mul_le_mono_pos_r _ _ (den f) Hdf). lia. }
  assert (H2 : num p * w * 2 ^ 106
               <= h * S * ((2 ^ 53 + 1) * (2 ^ 53 + 1)) * den p).
  { apply (Z.mul_le_mono_pos_r _ _ (den g) Hdg).
    change (2 ^ 106) with (2 ^ 53 * 2 ^ 53).
    transitivity (h * num g * (2 ^ 53 + 1) * den p * (w * 2 ^ 53)).
    - replace (num p * w * (2 ^ 53 * 2 ^ 53) * den g)
        with (num p * den g * 2 ^ 53 * (w * 2 ^ 53)) by ring.
      apply Z.mul_le_mono_nonneg_r; lia.
    - replace (h * num g * (2 ^ 53 + 1) * den p * (w * 2 ^ 53))
        with (num g * w * 2 ^ 53 * (h * (2 ^ 53 + 1) * den p)) by ring.
      replace (h * S * ((2 ^ 53 + 1) * (2 ^ 53 + 1)) * den p * den g)
        with (S * (2 ^ 53 + 1) * den g * (h * (2 ^ 53 + 1) * den p)) by ring.
      apply Z.mul_le_mono_nonneg_r; [|exact Hb].
      assert (0 < h * (2 ^ 53 + 1)) by lia. nia. }
  unfold to_int. rewrite Z.quot_div_nonneg by lia.
  apply Z.div_small. split; [lia|].
  assert (Hlt : h * S * ((2 ^ 53 + 1) * (2 ^ 53 + 1)) < w * 2 ^ 106).
  { assert (h * S <= w - 1) by lia.
    assert ((w - 1) * ((2 ^ 53 + 1) * (2 ^ 53 + 1)) < w * 2 ^ 106) by lia.
    nia. }
  apply (Z.mul_lt_mono_pos_r (w * 2 ^ 106)); [lia|].
  nia.
Qed.

(** The scale factor is at least the exact quotient for the longer side
    [L], up to the rounding of one division. *)
Lemma scale_factor_lower w h S L :
  0 < w <= L -> 0 < h <= L -> 0 < S ->
  0 < mant (fmin (rnd_pos S w) (rnd_pos S h)) /\
  S * (2 ^ 53 - 1) * den (fmin (rnd_pos S w) (rnd_pos S h))
  <= num (fmin (rnd_pos S w) (rnd_pos S h)) * L * 2 ^ 53.
Proof.
  intros Hw Hh HS.
  assert (Hbw : 0 < mant (rnd_pos S w)) by (apply rnd_pos_mant_pos; lia).
  assert (Hbh : 0 < mant (rnd_pos S h)) by (apply rnd_pos_mant_pos; lia).
  assert (Hone : forall x, 0 < x <= L ->
            S * (2 ^ 53 - 1) * den (rnd_pos S x)
            <= num (rnd_pos S x) * L * 2 ^ 53).
  { intros x Hx.
    pose proof (rnd_pos_lower S x ltac:(lia) ltac:(lia)) as Hlow.
    pose proof (num_pos (rnd_pos S x)
                  (rnd_pos_mant_pos S x ltac:(lia) ltac:(lia))) as Hn.
    transitivity (num (rnd_pos S x) * x * 2 ^ 53); [exact Hlow|].
    apply Z.mul_le_mono_nonneg_r; [lia|].
    apply Z.mul_le_mono_nonneg_l; lia. }
  destruct (fmin_cases (rnd_pos S w) (rnd_pos S h)) as [-> | ->].
  - split; [exact Hbw|]. apply Hone, Hw.
  - split; [exact Hbh|]. apply Hone, Hh.
Qed.

(** X10.  When the web service scales an image down, the longer side of
    the new size is the canvas size or one pixel less (the quotient and
    the product are rounded, and [int] truncates), so that along this side
    the image is pasted at offset 0. *)
Theorem downscale_reaches_canvas (w h canvas_size : Z) :
  0 < w < 2 ^ 31 -> 0 < h < 2 ^ 31 -> 0 < canvas_size < 2 ^ 31 ->
  exists new_width new_height,
    resize_target w h canvas_size = Some (new_width, new_height) /\
    (h <= w -> canvas_size - 1 <= new_width <= canvas_size /\
               offset canvas_size new_width = 0) /\
    (w <= h -> canvas_size - 1 <= new_height <= canvas_size /\
               offset canvas_size new_height = 0).
Proof.
  intros Hw Hh HS.
  destruct (resize_target_bounds w h canvas_size Hw Hh HS)
    as (bw & bh & Hbw & Hbh & Hnw & Hnh).
  unfold resize_target. rewrite Hbw, Hbh.
  rewrite truediv_pos in Hbw, Hbh by lia.
  injection Hbw as <-. injection Hbh as <-.
  eexists _, _. split; [reflexivity|].
  assert (2 ^ 31 < 2 ^ 51) by reflexivity.
  assert (2 ^ 31 < 2 ^ 53) by reflexivity.
  assert (Hoff : forall n, canvas_size - 1 <= n <= canvas_size ->
                           offset canvas_size n = 0).
  { intros n Hn. unfold offset. apply Z.div_small. lia. }
  split; intros Hle.
  - destruct (scale_factor_lower w h canvas_size w) as [Hg Hlow]; try lia.
    pose proof (scaled_dim_ge w canvas_size _ ltac:(lia) ltac:(lia) Hg Hlow).
    split; [lia|]. apply Hoff. lia.
  - destruct (scale_factor_lower w h canvas_size h) as [Hg Hlow]; try lia.
    pose proof (scaled_dim_ge h canvas_size _ ltac:(lia) ltac:(lia) Hg Hlow).
    split; [lia|]. apply Hoff. lia.
Qed.

Lemma downscale_reaches_canvas_witness :
  exists new_width new_height,
    resize_target 2191 1000 1200 = Some (new_width, new_height) /\
    (1000 <= 2191 -> 1200 - 1 <= new_width <= 1200 /\
                     offset 1200 new_width = 0) /\
    (2191 <= 1000 -> 1200 - 1 <= new_height <= 1200 /\
                     offset 1200 new_height = 0).
Proof.
  apply (downscale_reaches_canvas 2191 1000 1200); split; reflexivity.
Defined.

(** X11.  The web service cannot scale down an image that is more than
    canvas-size times as long as it is wide: the shorter side of the new
    size is 0, [resize] raises, and [center_image_on_canvas] with it. *)
Theorem thin_image_is_rejected (ext : External) (image : Image)
    (canvas_size : Z) (bg_color : option Color) (world : World) :
  0 < width image < 2 ^ 31 -> 0 < height image < 2 ^ 31 ->
  0 < canvas_size ->
  height image * canvas_size < width image \/
  width image * canvas_size < height image ->
  Web.center_image_on_canvas ext image canvas_size bg_color world
  = (Raise (ValueError "height and width must be > 0"), world).
Proof.
  intros Hw Hh HS Hthin.
  assert (Hbig : width image > canvas_size \/ height image > canvas_size) by nia.
  assert (HS' : canvas_size < 2 ^ 31) by nia.
  assert (2 ^ 31 < 2 ^ 51) by reflexivity.
  assert (2 ^ 31 < 2 ^ 53) by reflexivity.
  set (bw := rnd_pos canvas_size (width image)).
  set (bh := rnd_pos canvas_size (height image)).
  assert (Hbw : 0 < mant bw) by (apply rnd_pos_mant_pos; lia).
  assert (Hbh : 0 < mant bh) by (apply rnd_pos_mant_pos; lia).
  assert (Hg : 0 < mant (fmin bw bh)).
  { destruct (fmin_cases bw bh) as [-> | ->]; assumption. }
  assert (Htarget : resize_target (width image) (height image) canvas_size
                    = Some (to_int (mul_int_float (width image) (fmin bw bh)),
                            to_int (mul_int_float (height image) (fmin bw bh)))).
  { unfold resize_target. rewrite !truediv_pos by lia. reflexivity. }
  apply (web_center_resize_fails ext image canvas_size bg_color world _ _ _
           Hbig Htarget).
  destruct Hthin as [Hthin|Hthin].
  - assert (Hz : to_int (mul_int_float (height image) (fmin bw bh)) = 0).
    { apply (scaled_dim_zero (width image) (height image) canvas_size);
        try lia; try assumption.
      apply (frac_le_trans _ bw); [lia|apply fmin_le_l|].
      apply rnd_pos_upper; lia. }
    rewrite Hz. apply resize_too_small; [|lia].
    intros Heq. injection Heq as _ E. lia.
  - assert (Hz : to_int (mul_int_float (width image) (fmin bw bh)) = 0).
    { apply (scaled_dim_zero (height image) (width image) canvas_size);
        try lia; try assumption.
      apply (frac_le_trans _ bh); [lia|apply fmin_le_r|].
      apply rnd_pos_upper; lia. }
    rewrite Hz. apply resize_too_small; [|lia].
    intros Heq. injection Heq as E _. lia.
Qed.

Lemma thin_image_is_rejected_witness :
  Web.center_image_on_canvas plain_external (solid 5000 4 "RGB" ∅ [1; 2; 3])
    1200 None empty_world
  = (Raise (ValueError "height and width must be > 0"), empty_world).
Proof.
  apply (thin_image_is_rejected plain_external
           (solid 5000 4 "RGB" ∅ [1; 2; 3]) 1200 None empty_world).
  - split; reflexivity.
  - split; reflexivity.
  - reflexivity.
  - left. reflexivity.
Defined.

(** ** The two programs side by side                                      *)

Lemma try_except_ext {A} (m1 m2 : M A) (handler : Exn -> M A) (w : World) :
  m1 w = m2 w -> try_except m1 handler w = try_except m2 handler w.
Proof. unfold try_except. intros ->. reflexivity. Qed.

Lemma bind_ext_at {A B} (m : M A) (k1 k2 : A -> M B) (w : World) :
  (forall a w', m w = (Ret a, w') -> k1 a w' = k2 a w') ->
  bind m k1 w = bind m k2 w.
Proof.
  intros H. unfold bind. destruct (m w) as [[a|e|s] w']; auto.
Qed.

Lemma bind_ext_both {A B} (m1 m2 : M A) (k1 k2 : A -> M B) (w : World) :
  m1 w = m2 w ->
  (forall a w', m1 w = (Ret a, w') -> k1 a w' = k2 a w') ->
  bind m1 k1 w = bind m2 k2 w.
Proof.
  intros Hm H. unfold bind. rewrite <- Hm.
  destruct (m1 w) as [[a|e|s] w']; auto.
Qed.

Lemma fits_test image canvas_size :
  width image <= canvas_size -> height image <= canvas_size ->
  (width image >? canvas_size) || (height image >? canvas_size) = false.
Proof. intros Hw Hh. apply orb_false_iff. lia. Qed.

Lemma center_fits_tail ext image canvas_size bg_color world :
  width image <= canvas_size -> height image <= canvas_size ->
  Cli.center_image_on_canvas ext image canvas_size bg_color world
    = center_tail ext image canvas_size bg_color world /\
  Web.center_image_on_canvas ext image canvas_size bg_color world
    = center_tail ext image canvas_size bg_color world.
Proof.
  intros Hw Hh. split.
  - rewrite cli_center_halves, (fits_test _ _ Hw Hh). reflexivity.
  - rewrite web_center_halves. unfold web_fit.
    rewrite (fits_test _ _ Hw Hh). reflexivity.
Qed.

(** X14.  On an input that fits the canvas and carries neither EXIF data
    nor a colour profile, and for an output path whose suffix is not
    [.webp], [process_image] of the command-line tool and
    [process_single_image] of the web service do the same: the same
    result, the same file written, the same log. *)
Theorem programs_agree_on_plain_input (ext : External)
    (input_path output_path : Path) (canvas_size : Z)
    (bg_color : option Color) (world : World) :
  (forall format params image,
     fs world !! input_path = Some (File (Encoded format params image)) ->
     width image <= canvas_size /\ height image <= canvas_size /\
     info image !! "exif" = None /\ info image !! "icc_profile" = None) ->
  PyStr.lower (suffix output_path) <> ".webp" ->
  Cli.process_image ext input_path output_path canvas_size bg_color world
  = Web.process_single_image ext input_path output_path canvas_size bg_color
      world.
Proof.
  intros Hplain Hsuffix.
  unfold Cli.process_image, Web.process_single_image.
  apply try_except_ext. apply bind_ext_at. intros im w1 Hopen.
  assert (Him : width im <= canvas_size /\ height im <= canvas_size /\
                info im !! "exif" = None /\ info im !! "icc_profile" = None).
  { unfold PIL.open in Hopen.
    destruct (fs world !! input_path) as [[|[fmt kw im'|]|entries]|] eqn:Hl;
      try discriminate Hopen.
    injection Hopen as <- _. exact (Hplain _ _ _ eq_refl). }
  destruct Him as (Hw & Hh & Hexif & Hicc).
  change (Web.apply_exif_orientation ext) with (Cli.apply_exif_orientation ext).
  apply bind_ext_at. intros img w2 Happ.
  destruct (apply_exif_orientation_info ext _ _ _ _ Happ) as [Hicc' Hexif'].
  assert (Hexif2 : info img !! "exif" = None).
  { destruct Hexif' as [E|E]; rewrite E, Hexif; reflexivity. }
  rewrite Hicc in Hicc'.
  assert (Hfit : width img <= canvas_size /\ height img <= canvas_size).
  { destruct (apply_exif_orientation_total ext im w1)
      as (img' & w2' & Happ' & _ & _ & Hdims).
    rewrite Happ in Happ'. injection Happ' as <- <-.
    destruct Hdims as [[-> ->]|[-> ->]]; auto. }
  destruct Hfit as [Hw' Hh'].
  destruct (center_fits_tail ext img canvas_size bg_color w2 Hw' Hh')
    as [Hcli Hweb].
  apply bind_ext_both; [congruence|].
  intros [canvas|] w3 _; [|reflexivity].
  rewrite Hexif2, Hicc'.
  unfold Cli.save_format, Cli.save_params.
  replace (String.eqb (PyStr.lower (suffix output_path)) ".webp") with false
    by (symmetry; apply String.eqb_neq; exact Hsuffix).
  reflexivity.
Qed.

Lemma programs_agree_on_plain_input_witness :
  let world := world_with ["in.jpg"] "JPEG" (solid 2 3 "RGB" ∅ [1; 2; 3]) in
  Cli.process_image plain_external ["in.jpg"] ["out.png"] 4 None world
  = Web.process_single_image plain_external ["in.jpg"] ["out.png"] 4 None
      world.
Proof.
  intros world.
  apply (programs_agree_on_plain_input plain_external ["in.jpg"] ["out.png"]
           4 None world).
  - intros format params image H. vm_compute in H.
    injection H as _ _ <-. vm_compute. repeat split; discriminate.
  - vm_compute. intros H. discriminate H.
Defined.

(** ** Names for the uploaded files                                       *)

Lemma joinpath_exists (f : gmap Path Node) (dir : Path) (n : string) :
  path_exists f (joinpath dir n) = true <-> joinpath dir n ∈ dom f.
Proof.
  unfold path_exists, joinpath.
  destruct (dir ++ [n])%list as [|a l] eqn:E.
  - destruct dir; discriminate E.
  - rewrite bool_decide_eq_true, elem_of_dom. reflexivity.
Qed.

Lemma joinpath_inj (dir : Path) (n m : string) :
  joinpath dir n = joinpath dir m -> n = m.
Proof.
  unfold joinpath. intros H. apply app_inv_head in H. congruence.
Qed.

(** The loop either stops at a name that is free, or runs out of fuel
    with every candidate taken. *)
Lemma dedupe_run (f : gmap Path Node) (dir : Path) (rename : Z -> string)
    (fuel : nat) (counter : Z) :
  let r := Web.dedupe fuel f dir rename (rename counter) (counter + 1) in
  path_exists f (joinpath dir r) = false \/
  (r = rename (counter + Z.of_nat fuel) /\
   forall i : nat, (i < fuel)%nat ->
     path_exists f (joinpath dir (rename (counter + Z.of_nat i))) = true).
Proof.
  revert counter. induction fuel as [|fuel IH]; intros counter; simpl.
  - right. split; [f_equal; lia|]. intros i Hi. lia.
  - destruct (path_exists f (joinpath dir (rename counter))) eqn:Hex.
    + destruct (IH (counter + 1)) as [Hfree|[Hr Hall]]; [left; exact Hfree|].
      right. split; [rewrite Hr; f_equal; lia|].
      intros [|i] Hi.
      * rewrite Z.add_0_r. exact Hex.
      * replace (counter + Z.of_nat (S i)) with (counter + 1 + Z.of_nat i)
          by lia.
        apply Hall. lia.
    + left. exact Hex.
Qed.

(** As many taken candidates as the file system has entries: the next
    candidate is free. *)
Lemma candidates_run_out (f : gmap Path Node) (dir : Path)
    (rename : Z -> string) (counter : Z) :
  (forall i j, rename i = rename j -> i = j) ->
  (forall i : nat, (i < size f)%nat ->
     path_exists f (joinpath dir (rename (counter + Z.of_nat i))) = true) ->
  path_exists f (joinpath dir (rename (counter + Z.of_nat (size f)))) = false.
Proof.
  intros Hinj Hall.
  set (cand := fun i : nat => joinpath dir (rename (counter + Z.of_nat i))).
  assert (Hcand : forall i j, cand i = cand j -> i = j).
  { intros i j H. apply joinpath_inj, Hinj in H. lia. }
  set (taken := (list_to_set (cand <$> seq 0 (size f)) : gset Path)).
  assert (Hsize : size taken = size f).
  { unfold taken. rewrite size_list_to_set.
    - rewrite length_fmap, length_seq. reflexivity.
    - apply NoDup_fmap_2; [exact Hcand|apply NoDup_seq]. }
  assert (Hsub : taken ⊆ dom f).
  { intros p Hp. unfold taken in Hp. rewrite elem_of_list_to_set in Hp.
    apply list_elem_of_fmap in Hp as (i & -> & Hi).
    apply elem_of_seq in Hi. apply joinpath_exists, Hall. lia. }
  assert (Heq : taken = dom f).
  { apply set_subseteq_size_eq; [exact Hsub|].
    rewrite Hsize, size_dom. reflexivity. }
  destruct (path_exists f (joinpath dir (rename (counter + Z.of_nat (size f)))))
    eqn:Hex; [exfalso|reflexivity].
  apply joinpath_exists in Hex. rewrite <- Heq in Hex.
  unfold taken in Hex. rewrite elem_of_list_to_set in Hex.
  apply list_elem_of_fmap in Hex as (i & Hi & Hin).
  apply elem_of_seq in Hin. apply (Hcand (size f) i) in Hi. lia.
Qed.

Lemma length_append (s t : string) :
  String.length (s ++ t) = (String.length s + String.length t)%nat.
Proof. induction s as [|a s IH]; simpl; [reflexivity|rewrite IH; reflexivity]. Qed.

Lemma append_inv_tail (s1 s2 t : string) : s1 ++ t = s2 ++ t -> s1 = s2.
Proof.
  revert s2. induction s1 as [|a s1 IH]; intros [|b s2] H.
  - reflexivity.
  - exfalso. apply (f_equal String.length) in H.
    rewrite !length_append in H. simpl String.length in H. lia.
  - exfalso. apply (f_equal String.length) in H.
    rewrite !length_append in H. simpl String.length in H. lia.
  - simpl in H. injection H as -> H. f_equal. apply IH, H.
Qed.

Lemma numbered_name_inj (base ext : string) (i j : Z) :
  base ++ "_" ++ PyStr.str_of_int i ++ ext
  = base ++ "_" ++ PyStr.str_of_int j ++ ext -> i = j.
Proof.
  intros H. apply String.app_inj in H. apply String.app_inj in H.
  apply append_inv_tail in H. unfold PyStr.str_of_int in H.
  apply pretty_Z_inj in H. exact H.
Qed.

(** With the numbered names of the upload loop, the name the loop ends at
    is free. *)
Lemma numbered_name_free (f : gmap Path Node) (dir : Path)
    (base ext first : string) :
  path_exists f
    (joinpath dir
       (Web.dedupe (S (size f)) f dir
          (fun counter => base ++ "_" ++ PyStr.str_of_int counter ++ ext)
          first 1))
  = false.
Proof.
  set (rename := fun counter => base ++ "_" ++ PyStr.str_of_int counter ++ ext).
  assert (Hinj : forall i j, rename i = rename j -> i = j)
    by (intros i j; apply numbered_name_inj).
  change (Web.dedupe (S (size f)) f dir rename first 1)
    with (if path_exists f (joinpath dir first)
          then Web.dedupe (size f) f dir rename (rename 1) (1 + 1)
          else first).
  destruct (path_exists f (joinpath dir first)) eqn:Hfirst; [|exact Hfirst].
  destruct (dedupe_run f dir rename (size f) 1) as [Hfree|[Hr Hall]];
    [exact Hfree|].
  rewrite Hr. apply candidates_run_out; assumption.
Qed.

(** X15.  The loop of the web service that numbers a file name until it
    is free ends, after at most one round more than the file system has
    entries, at a name that does not exist in the directory: for the names
    [base_1.ext], [base_2.ext], ... and any first name. *)
Theorem dedupe_finds_free_name (f : gmap Path Node) (dir : Path)
    (base ext first : string) :
  path_exists f
    (joinpath dir
       (Web.dedupe (S (size f)) f dir
          (fun counter => base ++ "_" ++ PyStr.str_of_int counter ++ ext)
          first 1))
  = false.
Proof. apply numbered_name_free. Qed.

(** ** The upload loop of the web service                                 *)

Lemma same_outside_both_refl (d1 d2 : Path) (f : gmap Path Node) :
  same_outside_both d1 d2 f f.
Proof. intros p _ _. reflexivity. Qed.

Lemma same_outside_both_trans (d1 d2 : Path) (f1 f2 f3 : gmap Path Node) :
  same_outside_both d1 d2 f1 f2 -> same_outside_both d1 d2 f2 f3 ->
  same_outside_both d1 d2 f1 f3.
Proof.
  intros H12 H23 p Hp1 Hp2. rewrite (H23 p Hp1 Hp2). apply H12; assumption.
Qed.

Lemma same_outside_left (d1 d2 : Path) (f f' : gmap Path Node) :
  same_outside d1 f f' -> same_outside_both d1 d2 f f'.
Proof. intros H p Hp _. apply H, Hp. Qed.

Lemma same_outside_right (d1 d2 : Path) (f f' : gmap Path Node) :
  same_outside d2 f f' -> same_outside_both d1 d2 f f'.
Proof. intros H p _ Hp. apply H, Hp. Qed.

Lemma saved_count_app (l1 l2 : list IOEvent) :
  saved_count (l1 ++ l2) = saved_count l1 + saved_count l2.
Proof.
  unfold saved_count. rewrite List.filter_app, length_app. lia.
Qed.

(** *** Counting the files of a directory *)

Lemma files_in_entries_of (f : gmap Path Node) (d : Path)
    (l : list (Path * Node)) :
  Forall (fun kv => f !! fst kv = Some (snd kv)) l ->
  length (List.filter (is_file f)
            (filter (fun p => p <> [] /\ parent p = d) (map fst l)))
  = length (List.filter (file_entry_of d) l).
Proof.
  induction 1 as [|[k n] l Hk Hall IH]; [reflexivity|].
  simpl map. rewrite filter_cons. simpl List.filter.
  unfold file_entry_of at 1. simpl fst. simpl snd. simpl in Hk.
  destruct (decide (k <> [] /\ parent k = d)) as [Hq|Hq].
  - rewrite (bool_decide_eq_true_2 _ Hq), (decide_True _ _ Hq).
    simpl List.filter.
    assert (E : is_file f k
                = match n with File _ | ZipFile _ => true | Directory => false end).
    { unfold is_file. destruct (_ !! _) as [m|];
        [injection Hk as ->; reflexivity|discriminate Hk]. }
    rewrite E. destruct n; cbn [andb length];
      [exact IH|f_equal; exact IH..].
  - rewrite (bool_decide_eq_false_2 _ Hq), (decide_False _ _ Hq).
    simpl. exact IH.
Qed.

Lemma files_in_entries (f : gmap Path Node) (d : Path) :
  files_in f d
  = Z.of_nat (length (List.filter (file_entry_of d) (map_to_list f))).
Proof.
  unfold files_in, listdir. f_equal. apply files_in_entries_of.
  apply Forall_forall. intros [k n] Hin. apply elem_of_map_to_list in Hin.
  exact Hin.
Qed.

Lemma filter_length_perm {A} (P : A -> bool) (l1 l2 : list A) :
  l1 ≡ₚ l2 -> length (List.filter P l1) = length (List.filter P l2).
Proof.
  induction 1 as [|x l1 l2 _ IH|x y l|l1 l2 l3 _ IH1 _ IH2]; simpl.
  - reflexivity.
  - destruct (P x); simpl; rewrite IH; reflexivity.
  - destruct (P x), (P y); reflexivity.
  - congruence.
Qed.

Lemma entries_insert_fresh (f : gmap Path Node) (d p : Path) (n : Node) :
  f !! p = None ->
  length (List.filter (file_entry_of d) (map_to_list (<[p := n]> f)))
  = ((if file_entry_of d (p, n) then 1 else 0)
     + length (List.filter (file_entry_of d) (map_to_list f)))%nat.
Proof.
  intros Hp.
  rewrite (filter_length_perm _ _ _ (map_to_list_insert f p n Hp)).
  simpl. destruct (file_entry_of d (p, n)); reflexivity.
Qed.

Lemma files_in_insert_fresh (f : gmap Path Node) (d p : Path) (n : Node) :
  f !! p = None ->
  files_in (<[p := n]> f) d
  = files_in f d + (if file_entry_of d (p, n) then 1 else 0).
Proof.
  intros Hp. rewrite !files_in_entries, (entries_insert_fresh f d p n Hp).
  destruct (file_entry_of d (p, n)); lia.
Qed.

(** Writing an entry of another directory does not change the count. *)
Lemma files_in_insert_elsewhere (f : gmap Path Node) (d p : Path) (n : Node) :
  parent p <> d -> files_in (<[p := n]> f) d = files_in f d.
Proof.
  intros Hp.
  assert (Hno : forall m, file_entry_of d (p, m) = false).
  { intros m. unfold file_entry_of. simpl fst.
    rewrite bool_decide_eq_false_2; [reflexivity|]. intros [_ H]. auto. }
  destruct (f !! p) as [m|] eqn:Hl.
  - rewrite <- (insert_delete_id f p m Hl) at 2.
    rewrite <- (insert_delete_eq f p n).
    rewrite !files_in_insert_fresh by apply lookup_delete_eq.
    rewrite !Hno. reflexivity.
  - rewrite files_in_insert_fresh by exact Hl. rewrite Hno. lia.
Qed.

(** A new regular file in the directory is one more. *)
Lemma files_in_insert_file (f : gmap Path Node) (d : Path) (n : string)
    (data : FileData) :
  f !! joinpath d n = None ->
  files_in (<[joinpath d n := File data]> f) d = files_in f d + 1.
Proof.
  intros Hp. rewrite files_in_insert_fresh by exact Hp.
  unfold file_entry_of. simpl fst. simpl snd.
  rewrite bool_decide_eq_true_2; [reflexivity|].
  split; [|apply parent_joinpath].
  unfold joinpath. destruct d; discriminate.
Qed.

Lemma bind_ret_at {A B} (m : M A) (k : A -> M B) (w w' : World) (a : A) :
  m w = (Ret a, w') -> bind m k w = k a w'.
Proof. unfold bind. intros ->. reflexivity. Qed.

Lemma bind_raise_at {A B} (m : M A) (k : A -> M B) (w w' : World) (e : Exn) :
  m w = (Raise e, w') -> bind m k w = (Raise e, w').
Proof. unfold bind. intros ->. reflexivity. Qed.

Lemma try_except_ret_at {A} (m : M A) (h : Exn -> M A) (w w' : World) (a : A) :
  m w = (Ret a, w') -> try_except m h w = (Ret a, w').
Proof. unfold try_except. intros ->. reflexivity. Qed.

Lemma try_except_raise_at {A} (m : M A) (h : Exn -> M A) (w w' : World)
    (e : Exn) :
  m w = (Raise e, w') -> try_except m h w = h e w'.
Proof. unfold try_except. intros ->. reflexivity. Qed.

Lemma joinpath_free (f : gmap Path Node) (d : Path) (n : string) :
  path_exists f (joinpath d n) = false -> f !! joinpath d n = None.
Proof.
  intros H. destruct (f !! joinpath d n) as [m|] eqn:Hl; [|reflexivity].
  exfalso. assert (Hin : joinpath d n ∈ dom f) by (apply elem_of_dom; eauto).
  apply joinpath_exists in Hin. congruence.
Qed.

(** One round of the upload loop: it never raises; an upload with a name
    is counted once, as processed or as skipped; a processed one was
    saved, as one more file of the output directory; the file system
    changes inside the two temporary directories only. *)
Lemma upload_step_result ext tmp total i file processed skipped world :
  library_returns ext ->
  exists processed' skipped' world',
    Web.upload_step ext tmp total (i, file) (processed, skipped) world
      = (Ret (processed', skipped'), world') /\
    processed <= processed' /\ skipped <= skipped' /\
    (processed' - processed) + (skipped' - skipped)
      = (if String.eqb (Web.filename file) "" then 0 else 1) /\
    same_outside_both (Web.temp_input_dir tmp) (Web.temp_output_dir tmp)
      (fs world) (fs world') /\
    saved_count (io world') = saved_count (io world) + (processed' - processed) /\
    (exists records, log world' = (log world ++ records)%list) /\
    (Web.temp_input_dir tmp <> Web.temp_output_dir tmp ->
     files_in (fs world') (Web.temp_output_dir tmp)
     = files_in (fs world) (Web.temp_output_dir tmp) + (processed' - processed) /\
     (holds_canvases (fs world) (Web.temp_output_dir tmp) ->
      holds_canvases (fs world') (Web.temp_output_dir tmp))).
Proof.
  intros Hlib. unfold Web.upload_step.
  assert (Hnothing : forall l,
            exists processed' skipped' world',
              (Ret (processed, skipped + 1),
               mk_world (fs world) (log world ++ l)%list (io world))
              = (Ret (processed', skipped'), world') /\
              processed <= processed' /\ skipped <= skipped' /\
              (processed' - processed) + (skipped' - skipped) = 1 /\
              same_outside_both (Web.temp_input_dir tmp)
                (Web.temp_output_dir tmp) (fs world) (fs world') /\
              saved_count (io world')
                = saved_count (io world) + (processed' - processed) /\
              (exists records, log world' = (log world ++ records)%list) /\
              (Web.temp_input_dir tmp <> Web.temp_output_dir tmp ->
               files_in (fs world') (Web.temp_output_dir tmp)
               = files_in (fs world) (Web.temp_output_dir tmp)
                 + (processed' - processed) /\
               (holds_canvases (fs world) (Web.temp_output_dir tmp) ->
                holds_canvases (fs world') (Web.temp_output_dir tmp)))).
  { intros l. eexists _, _, _. split; [reflexivity|]. simpl.
    split; [lia|]. split; [lia|]. split; [lia|].
    split; [apply same_outside_both_refl|]. split; [lia|].
    split; [eexists; reflexivity|]. intros _. split; [lia|auto]. }
  destruct (String.eqb (Web.filename file) "") eqn:Hname.
  { exists processed, skipped, world. split; [reflexivity|].
    split; [lia|]. split; [lia|]. split; [lia|].
    split; [apply same_outside_both_refl|]. split; [lia|].
    split; [exists []; rewrite app_nil_r; reflexivity|]. intros _.
    split; [lia|auto]. }
  change (negb false) with true. cbv iota.
  erewrite bind_ret_at; [|reflexivity].
  destruct (bool_decide _).
  2:{ erewrite bind_ret_at; [|reflexivity]. unfold ret.
      cbn [fs log io]. rewrite <- app_assoc. apply Hnothing. }
  erewrite bind_ret_at; [|reflexivity].
  match goal with
  | |- context [Web.process_single_image _ (joinpath _ ?i) (joinpath _ ?o) _ _] =>
      set (input_name := i);
      assert (Hfree : path_exists (fs world)
                        (joinpath (Web.temp_output_dir tmp) o) = false)
        by apply numbered_name_free;
      set (output_name := o) in *
  end.
  set (input_path := joinpath (Web.temp_input_dir tmp) input_name).
  set (output_path := joinpath (Web.temp_output_dir tmp) output_name).
  match goal with
  | |- context [try_except _ _ ?w] => set (w1 := w)
  end.
  destruct (Web.upload_save file input_path w1) as [[[]|e|st] w2] eqn:Hsave.
  3:{ exfalso. unfold Web.upload_save in Hsave.
      destruct (negb _); [discriminate|]. destruct (is_dir _ _); discriminate. }
  2:{ erewrite try_except_raise_at;
        [|erewrite bind_raise_at; [reflexivity|exact Hsave]].
      assert (Hw2 : w2 = w1).
      { unfold Web.upload_save in Hsave.
        destruct (negb _); [congruence|]. destruct (is_dir _ _); congruence. }
      subst w2. erewrite bind_ret_at; [|reflexivity]. unfold ret.
      unfold w1. cbn [fs log io]. rewrite <- app_assoc. apply Hnothing. }
  assert (Hw2 : w2 = mk_world (<[input_path := File (Web.payload file)]> (fs world))
                       (log w1) (io world ++ [Uploaded input_path])%list).
  { unfold Web.upload_save in Hsave.
    destruct (negb _); [discriminate|]. destruct (is_dir _ _); [discriminate|].
    injection Hsave as <-. reflexivity. }
  destruct (web_process_single_image_cases ext input_path output_path 1200 None
              (mk_world (fs w2)
                 (log w2 ++ [mk_log INFO "Saved file to: {}" [APath input_path]])%list
                 (io w2)) Hlib) as (b & w4 & Hrun & Hcase).
  assert (Hup : same_outside_both (Web.temp_input_dir tmp)
                  (Web.temp_output_dir tmp) (fs world) (fs w2)).
  { apply same_outside_left. rewrite Hw2. simpl. apply same_outside_insert. }
  assert (Hio2 : saved_count (io w2) = saved_count (io world)).
  { rewrite Hw2. simpl. rewrite saved_count_app.
    unfold saved_count at 2. simpl. lia. }
  assert (Hcount2 : Web.temp_input_dir tmp <> Web.temp_output_dir tmp ->
            files_in (fs w2) (Web.temp_output_dir tmp)
            = files_in (fs world) (Web.temp_output_dir tmp) /\
            fs w2 !! output_path = None /\
            (holds_canvases (fs world) (Web.temp_output_dir tmp) ->
             holds_canvases (fs w2) (Web.temp_output_dir tmp))).
  { intros Hne. rewrite Hw2. simpl. split; [|split].
    - apply files_in_insert_elsewhere. unfold input_path.
      rewrite parent_joinpath. exact Hne.
    - rewrite lookup_insert_ne; [apply joinpath_free, Hfree|].
      intros Heq. apply (f_equal parent) in Heq.
      unfold input_path, output_path in Heq.
      rewrite !parent_joinpath in Heq. contradiction.
    - intros Hold p n Hp Hnil. rewrite lookup_insert_ne; [apply Hold; assumption|].
      intros <-. unfold input_path in Hp. rewrite parent_joinpath in Hp.
      contradiction. }
  destruct b;
    (erewrite try_except_ret_at;
     [|erewrite bind_ret_at; [|exact Hsave];
       erewrite bind_ret_at; [|reflexivity];
       erewrite bind_ret_at; [|exact Hrun];
       cbv iota; erewrite bind_ret_at; [|reflexivity]; reflexivity]).
  - destruct (run_succeeded_outside _ _ _ _ _ _ _ _ _ Hcase) as [Hout Hsv].
    destruct Hcase
      as (params & canvas & Hparams & Hfs4 & Hcw & Hch & Hcm & _ & _ & _ &
          [l4 Hlog4]).
    cbn [fs log io] in Hout, Hsv, Hfs4, Hlog4.
    eexists _, _, _. split; [reflexivity|]. cbn [fs log io].
    split; [lia|]. split; [lia|]. split; [lia|].
    split; [exact (same_outside_both_trans _ _ _ _ _ Hup
                     (same_outside_right _ _ _ _ Hout))|].
    split; [lia|].
    split; [rewrite Hlog4, Hw2; cbn [fs log io]; unfold w1; cbn [fs log io];
            rewrite <- !app_assoc; eexists; reflexivity|].
    intros Hne. destruct (Hcount2 Hne) as (Hc & Hnone & Hkeep).
    rewrite Hfs4. unfold output_path. split.
    + rewrite files_in_insert_file by exact Hnone. lia.
    + intros Hold p n Hp Hnil.
      destruct (decide (p = joinpath (Web.temp_output_dir tmp) output_name))
        as [->|Hdiff].
      * rewrite lookup_insert_eq. intros [= <-]. right.
        eexists. split; [reflexivity|]. exists canvas.
        subst params. auto.
      * rewrite lookup_insert_ne by congruence. apply (Hkeep Hold); assumption.
  - destruct (run_failed_outside _ _ _ _ _ _ Hcase) as [Hout Hsv].
    destruct Hcase as (_ & Hfs4 & l4 & r4 & Hlog4 & _).
    cbn [fs log io] in Hout, Hsv, Hfs4, Hlog4.
    eexists _, _, _. split; [reflexivity|]. cbn [fs log io].
    split; [lia|]. split; [lia|]. split; [lia|].
    split; [exact (same_outside_both_trans _ _ _ _ _ Hup
                     (same_outside_right _ _ _ _ Hout))|].
    split; [lia|].
    split; [rewrite Hlog4, Hw2; cbn [fs log io]; unfold w1; cbn [fs log io];
            rewrite <- !app_assoc; eexists; reflexivity|].
    intros Hne. destruct (Hcount2 Hne) as (Hc & Hnone & Hkeep).
    destruct Hfs4 as [Hfs4|(_ & Hex & _)].
    + rewrite Hfs4. split; [lia|exact Hkeep].
    + exfalso. apply joinpath_exists, elem_of_dom in Hex as [m Hm].
      unfold output_path in Hnone. congruence.
Qed.

Lemma named_uploads_cons (file : Web.Upload) (files : list Web.Upload) :
  named_uploads (file :: files)
  = (if String.eqb (Web.filename file) "" then 0 else 1) + named_uploads files.
Proof.
  unfold named_uploads. rewrite filter_cons.
  destruct (String.eqb_spec (Web.filename file) "") as [E|E].
  - rewrite decide_False by (intros H; exact (H E)). lia.
  - rewrite decide_True by exact E. simpl length. lia.
Qed.

(** The upload loop, from any counts on. *)
Lemma upload_loop_from ext tmp total (files : list Web.Upload) (i : Z)
    (processed skipped : Z) (world : World) :
  library_returns ext ->
  exists processed' skipped' world',
    for_each (Web.enumerate i files) (Web.upload_step ext tmp total)
      (processed, skipped) world = (Ret (processed', skipped'), world') /\
    processed <= processed' /\ skipped <= skipped' /\
    (processed' - processed) + (skipped' - skipped) = named_uploads files /\
    same_outside_both (Web.temp_input_dir tmp) (Web.temp_output_dir tmp)
      (fs world) (fs world') /\
    saved_count (io world') = saved_count (io world) + (processed' - processed) /\
    (exists records, log world' = (log world ++ records)%list) /\
    (Web.temp_input_dir tmp <> Web.temp_output_dir tmp ->
     files_in (fs world') (Web.temp_output_dir tmp)
     = files_in (fs world) (Web.temp_output_dir tmp) + (processed' - processed) /\
     (holds_canvases (fs world) (Web.temp_output_dir tmp) ->
      holds_canvases (fs world') (Web.temp_output_dir tmp))).
Proof.
  intros Hlib. revert i processed skipped world.
  induction files as [|file files IH]; intros i processed skipped world.
  - exists processed, skipped, world. split; [reflexivity|].
    unfold named_uploads. simpl.
    split; [lia|]. split; [lia|]. split; [lia|].
    split; [apply same_outside_both_refl|]. split; [lia|].
    split; [exists []; rewrite app_nil_r; reflexivity|]. intros _.
    split; [lia|auto].
  - simpl Web.enumerate. simpl for_each.
    destruct (upload_step_result ext tmp total i file processed skipped world
                Hlib)
      as (p1 & s1 & w1 & Hstep & Hp1 & Hs1 & Hsum1 & Hout1 & Hsv1 & Hlog1 & Hc1).
    erewrite bind_ret_at; [|exact Hstep].
    destruct (IH (i + 1) p1 s1 w1)
      as (p2 & s2 & w2 & Hloop & Hp2 & Hs2 & Hsum2 & Hout2 & Hsv2 & Hlog2 & Hc2).
    exists p2, s2, w2. split; [exact Hloop|].
    rewrite named_uploads_cons.
    split; [lia|]. split; [lia|]. split; [lia|].
    split; [exact (same_outside_both_trans _ _ _ _ _ Hout1 Hout2)|].
    split; [lia|]. split.
    + destruct Hlog1 as [l1 E1]. destruct Hlog2 as [l2 E2].
      exists (l1 ++ l2)%list. rewrite E2, E1, app_assoc. reflexivity.
    + intros Hne. destruct (Hc1 Hne) as [E1 K1]. destruct (Hc2 Hne) as [E2 K2].
      split; [lia|auto].
Qed.

(** ** The handler of the web service                                     *)

Lemma cleaned_gone (tmp : Web.TempNames) (f : gmap Path Node) (p : Path) :
  Web.temp_input_dir tmp `prefix_of` p \/
  Web.temp_output_dir tmp `prefix_of` p ->
  cleaned tmp f !! p = None.
Proof.
  intros Hp. unfold cleaned. apply map_lookup_filter_None.
  destruct Hp as [Hp|Hp].
  - left. apply map_lookup_filter_None. right. intros x _ Hnot.
    apply Hnot. exact Hp.
  - right. intros x _ Hnot. apply Hnot. exact Hp.
Qed.

Lemma cleaned_kept (tmp : Web.TempNames) (f : gmap Path Node) (p : Path) :
  ~ Web.temp_input_dir tmp `prefix_of` p ->
  ~ Web.temp_output_dir tmp `prefix_of` p ->
  cleaned tmp f !! p = f !! p.
Proof.
  intros Hin Hout. unfold cleaned.
  destruct (f !! p) as [x|] eqn:Hl.
  - apply map_lookup_filter_Some. split; [|exact Hout].
    apply map_lookup_filter_Some. split; [exact Hl|exact Hin].
  - apply map_lookup_filter_None. left.
    apply map_lookup_filter_None. left. exact Hl.
Qed.

Lemma parent_prefix (d p : Path) : parent p = d -> d `prefix_of` p.
Proof.
  intros <-. unfold parent. destruct p as [|a p] using rev_ind.
  - reflexivity.
  - rewrite removelast_last. exists [a]. reflexivity.
Qed.

(** The loop that fills the archive. *)
Lemma zip_loop (f : gmap Path Node) (l : list Path)
    (acc : list (string * FileData)) (w : World) :
  exists w',
    for_each l
      (fun file_path (acc : list (string * FileData)) =>
         if is_file f file_path then
           let data := match f !! file_path with
                       | Some (File d) => d
                       | _ => Undecodable
                       end in
           let* _ := logger_info "Added to ZIP: {}" [AStr (name file_path)] in
           ret (acc ++ [(name file_path, data)])%list
         else ret acc) acc w
    = (Ret (acc ++ map (zip_entry f) (List.filter (is_file f) l))%list, w') /\
    fs w' = fs w /\ io w' = io w /\
    exists records, log w' = (log w ++ records)%list.
Proof.
  revert acc w. induction l as [|p l IH]; intros acc w.
  - exists w. simpl. rewrite app_nil_r. split; [reflexivity|].
    split; [reflexivity|]. split; [reflexivity|].
    exists []. rewrite app_nil_r. reflexivity.
  - simpl for_each. simpl List.filter. destruct (is_file f p).
    + erewrite bind_ret_at;
        [|cbv zeta; erewrite bind_ret_at; [|reflexivity]; reflexivity].
      destruct (IH (acc ++ [zip_entry f p])%list
                  (mk_world (fs w)
                     (log w ++ [mk_log INFO "Added to ZIP: {}" [AStr (name p)]])%list
                     (io w)))
        as (w' & Hrun & Hfs & Hio & [records Hlog]).
      exists w'. split.
      * unfold zip_entry at 1 in Hrun. rewrite Hrun. simpl map.
        rewrite <- app_assoc. reflexivity.
      * split; [exact Hfs|]. split; [exact Hio|].
        eexists. rewrite Hlog. simpl. rewrite <- app_assoc. reflexivity.
    + erewrite bind_ret_at; [|reflexivity]. apply IH.
Qed.

Lemma write_zip_run (zip dir : Path) (w : World) :
  exists entries w',
    Web.write_zip zip dir w = (Ret tt, w') /\
    fs w' = <[zip := ZipFile entries]> (fs w) /\ io w' = io w /\
    (exists records, log w' = (log w ++ records)%list) /\
    Z.of_nat (length entries) = files_in (fs w) dir /\
    entries
    = map (zip_entry (fs w)) (List.filter (is_file (fs w)) (listdir (fs w) dir)).
Proof.
  unfold Web.write_zip.
  erewrite bind_ret_at; [|reflexivity]. cbv zeta.
  erewrite bind_ret_at; [|reflexivity].
  match goal with
  | |- context [bind (for_each _ _ _) _ ?w1] =>
      destruct (zip_loop (fs w) (listdir (fs w) dir) [] w1)
        as (w2 & Hloop & Hfs & Hio & [records Hlog])
  end.
  erewrite bind_ret_at; [|exact Hloop].
  erewrite bind_ret_at; [|reflexivity].
  eexists _, _. split; [reflexivity|]. cbn [fs log io].
  split; [rewrite Hfs; reflexivity|]. split; [exact Hio|].
  split; [rewrite Hlog; cbn [log]; rewrite <- app_assoc; eexists; reflexivity|].
  simpl app. rewrite length_map. split; reflexivity.
Qed.

Lemma try_finally_at {A} (m : M A) (cleanup : M unit) (w w1 w2 : World)
    (r : Outcome A) :
  m w = (r, w1) -> cleanup w1 = (Ret tt, w2) ->
  try_finally m cleanup w = (r, w2).
Proof. unfold try_finally. intros -> ->. reflexivity. Qed.

Lemma cleanup_run (tmp : Web.TempNames) (w : World) :
  (let* _ := rmtree (Web.temp_input_dir tmp) in
   rmtree (Web.temp_output_dir tmp)) w
  = (Ret tt, mk_world (cleaned tmp (fs w)) (log w) (io w)).
Proof. reflexivity. Qed.

(** A request that is not turned down: the two directories are made, the
    uploads are gone through, the summary is logged, the archive is
    written when something was processed, and the directories are
    removed. *)
Lemma process_images_run ext request (files : list Web.Upload) tmp world :
  library_returns ext ->
  Web.request_files request = Ret (Some files) ->
  turned_down (Some files) = false ->
  exists processed skipped loop_end final resp,
    Web.process_images ext request tmp world = (Ret resp, final) /\
    0 <= processed /\ 0 <= skipped /\
    processed + skipped = named_uploads files /\
    same_outside_both (Web.temp_input_dir tmp) (Web.temp_output_dir tmp)
      (<[Web.temp_output_dir tmp := Directory]>
         (<[Web.temp_input_dir tmp := Directory]> (fs world)))
      (fs loop_end) /\
    (Web.temp_input_dir tmp <> Web.temp_output_dir tmp ->
     files_in (fs loop_end) (Web.temp_output_dir tmp)
     = files_in (<[Web.temp_output_dir tmp := Directory]>
                   (<[Web.temp_input_dir tmp := Directory]> (fs world)))
         (Web.temp_output_dir tmp) + processed /\
     (holds_canvases (<[Web.temp_output_dir tmp := Directory]>
                        (<[Web.temp_input_dir tmp := Directory]> (fs world)))
        (Web.temp_output_dir tmp) ->
      holds_canvases (fs loop_end) (Web.temp_output_dir tmp))) /\
    saved_count (io final) = saved_count (io world) + processed /\
    (exists before after,
       log final
       = (log world ++ before ++
          [mk_log INFO "Processing summary: {} processed, {} skipped"
             [AInt processed; AInt skipped]] ++ after)%list) /\
    ((processed = 0 /\
      resp = Web.Redirect "No images were processed successfully" /\
      fs final = cleaned tmp (fs loop_end)) \/
     (processed <> 0 /\
      resp = Web.SendFile (Web.zip_path tmp) "formatted_images.zip" /\
      exists entries,
        fs final
        = cleaned tmp (<[Web.zip_path tmp := ZipFile entries]> (fs loop_end)) /\
        Z.of_nat (length entries)
        = files_in (fs loop_end) (Web.temp_output_dir tmp) /\
        entries
        = map (zip_entry (fs loop_end))
            (List.filter (is_file (fs loop_end))
               (listdir (fs loop_end) (Web.temp_output_dir tmp))))).
Proof.
  intros Hlib Hreq Hdown. unfold turned_down in Hdown.
  apply orb_false_iff in Hdown as [Hnamed Hsize].
  unfold Web.process_images.
  erewrite bind_ret_at; [|unfold lift; rewrite Hreq; reflexivity].
  cbv beta iota. rewrite Hnamed. cbv zeta. rewrite Hsize.
  erewrite bind_ret_at; [|reflexivity].
  erewrite bind_ret_at; [|reflexivity].
  match goal with
  | |- context [try_finally _ _ ?w] => set (w2 := w)
  end.
  set (total := Z.of_nat (length (filter (fun f => Web.filename f <> "") files))).
  set (w3 := mk_world (fs w2)
               (log w2 ++ [mk_log INFO "Starting to process {} files"
                             [AInt total]])%list (io w2)).
  destruct (upload_loop_from ext tmp total files 0 0 0 w3 Hlib)
    as (p & s & wl & Hloop & Hp & Hs & Hsum & Hout & Hsaved & [mid Hlog] & Hcount).
  set (w5 := mk_world (fs wl)
               (log wl ++ [mk_log INFO
                             "Processing summary: {} processed, {} skipped"
                             [AInt p; AInt s]])%list (io wl)).
  exists p, s, wl.
  assert (Hlog5 : log w5
                  = (log world ++
                     ([mk_log INFO "Starting to process {} files" [AInt total]]
                      ++ mid) ++
                     [mk_log INFO "Processing summary: {} processed, {} skipped"
                        [AInt p; AInt s]] ++ [])%list).
  { unfold w5. cbn [log]. rewrite Hlog. unfold w3, w2. cbn [log].
    rewrite <- !app_assoc. reflexivity. }
  destruct (Z.eqb_spec p 0) as [Hzero|Hnonzero].
  - eexists _, _. split.
    + eapply try_finally_at; [|apply cleanup_run].
      apply try_except_ret_at.
      erewrite bind_ret_at; [|reflexivity]. fold w3.
      erewrite bind_ret_at; [|exact Hloop]. cbv beta iota.
      erewrite bind_ret_at; [|reflexivity]. fold w5.
      replace (p =? 0) with true by (symmetry; apply Z.eqb_eq; exact Hzero).
      reflexivity.
    + cbn [fs log io].
      change (io w5) with (io wl) in *. change (fs w5) with (fs wl) in *.
      split; [lia|]. split; [lia|]. split; [lia|].
      split; [exact Hout|].
      split; [intros Hne; destruct (Hcount Hne) as [Hc Hk];
              unfold w3, w2 in Hc, Hk; cbn [fs] in Hc, Hk;
              split; [lia|exact Hk]|].
      split; [rewrite Hsaved; unfold w3, w2; cbn [io]; lia|].
      split; [eexists _, _; exact Hlog5|].
      left. auto.
  - destruct (write_zip_run (Web.zip_path tmp) (Web.temp_output_dir tmp) w5)
      as (entries & w6 & Hzip & Hfs6 & Hio6 & [recs Hlog6] & Hlen & Hentries).
    eexists _, _. split.
    + eapply try_finally_at; [|apply cleanup_run].
      apply try_except_ret_at.
      erewrite bind_ret_at; [|reflexivity]. fold w3.
      erewrite bind_ret_at; [|exact Hloop]. cbv beta iota.
      erewrite bind_ret_at; [|reflexivity]. fold w5.
      replace (p =? 0) with false by (symmetry; apply Z.eqb_neq; exact Hnonzero).
      erewrite bind_ret_at; [|exact Hzip].
      erewrite bind_ret_at; [|reflexivity]. reflexivity.
    + cbn [fs log io].
      change (io w5) with (io wl) in *. change (fs w5) with (fs wl) in *.
      split; [lia|]. split; [lia|]. split; [lia|].
      split; [exact Hout|].
      split; [intros Hne; destruct (Hcount Hne) as [Hc Hk];
              unfold w3, w2 in Hc, Hk; cbn [fs] in Hc, Hk;
              split; [lia|exact Hk]|].
      split; [rewrite Hio6, Hsaved; unfold w3, w2; cbn [io]; lia|].
      split.
      * rewrite Hlog6, Hlog5.
        exists ([mk_log INFO "Starting to process {} files" [AInt total]]
                ++ mid)%list,
               (recs ++
                [mk_log INFO "Processing complete: {} processed, {} skipped"
                   [AInt p; AInt s]])%list.
        rewrite <- !app_assoc. reflexivity.
      * right. split; [exact Hnonzero|]. split; [reflexivity|].
        exists entries. rewrite Hfs6. split; [reflexivity|].
        split; [exact Hlen|exact Hentries].
Qed.

Lemma request_files_cases (request : Web.Request) :
  (exists e, Web.request_files request = Raise e) \/
  (exists files, Web.request_files request = Ret files).
Proof.
  unfold Web.request_files.
  destruct (_ >? _); [left; eauto|].
  destruct (Web.form request); eauto.
Qed.


Lemma process_images_refused ext request tmp world e :
  Web.request_files request = Raise e ->
  Web.process_images ext request tmp world = (Raise e, world).
Proof.
  intros Hreq. unfold Web.process_images.
  erewrite bind_raise_at; [reflexivity|].
  unfold lift. rewrite Hreq. reflexivity.
Qed.

Lemma process_images_turned_down ext request files tmp world :
  Web.request_files request = Ret files ->
  turned_down files = true ->
  exists message,
    Web.process_images ext request tmp world = (Ret (Web.Redirect message), world).
Proof.
  intros Hreq. unfold turned_down, Web.process_images.
  erewrite bind_ret_at; [|unfold lift; rewrite Hreq; reflexivity].
  cbv beta iota.
  destruct files as [files|]; [|eauto].
  destruct (forallb _ files); [eauto|]. cbv zeta. simpl orb.
  intros ->. eauto.
Qed.

Lemma not_turned_down (files : option (list Web.Upload)) :
  turned_down files = false -> exists l, files = Some l.
Proof. destruct files as [l|]; [eauto|discriminate]. Qed.



(** X17.  A request whose files are read and that is not turned down logs
    a summary that counts every upload with a file name exactly once, as
    processed or as skipped; the processed ones are the images saved; and
    the answer is the archive exactly when something was processed. *)
Theorem process_images_summary (ext : External) (request : Web.Request)
    (files : list Web.Upload) (tmp : Web.TempNames) (world : World) :
  library_returns ext ->
  Web.request_files request = Ret (Some files) ->
  turned_down (Some files) = false ->
  exists processed skipped before after response world',
    Web.process_images ext request tmp world = (Ret response, world') /\
    log world'
    = (log world ++ before ++
       [mk_log INFO "Processing summary: {} processed, {} skipped"
          [AInt processed; AInt skipped]] ++ after)%list /\
    0 <= processed /\ 0 <= skipped /\
    processed + skipped = named_uploads files /\
    saved_count (io world') = saved_count (io world) + processed /\
    response
    = (if processed =? 0
       then Web.Redirect "No images were processed successfully"
       else Web.SendFile (Web.zip_path tmp) "formatted_images.zip").
Proof.
  intros Hlib Hreq Hdown.
  destruct (process_images_run ext request files tmp world Hlib Hreq Hdown)
    as (p & s & wl & final & resp & Hrun & Hp & Hs & Hsum & _ & _ & Hsaved &
        (before & after & Hlog) & Hresp).
  exists p, s, before, after, resp, final.
  split; [exact Hrun|]. split; [exact Hlog|].
  split; [exact Hp|]. split; [exact Hs|]. split; [exact Hsum|].
  split; [exact Hsaved|].
  destruct Hresp as [(Hz & -> & _)|(Hnz & -> & _)].
  - rewrite Hz. reflexivity.
  - replace (p =? 0) with false by (symmetry; apply Z.eqb_neq; exact Hnz).
    reflexivity.
Qed.

Lemma process_images_summary_witness :
  let image := solid 2 3 "RGB" ∅ [1; 2; 3] in
  let files :=
    [Web.mk_upload "a.jpg" (Encoded "JPEG" ∅ image) 10;
     Web.mk_upload "" Undecodable 0;
     Web.mk_upload "b.png" Undecodable 10;
     Web.mk_upload "c.txt" Undecodable 10] in
  let request := Web.mk_request 400 (Web.FormFiles (Some files)) in
  let tmp := Web.mk_temp ["tmp"; "in"] ["tmp"; "out"] ["tmp"; "images.zip"] in
  let world := mk_world {[ ["tmp"] := Directory ]} [] [] in
  named_uploads files = 3 /\
  exists processed skipped before after response world',
    Web.process_images plain_external request tmp world
      = (Ret response, world') /\
    log world'
    = (log world ++ before ++
       [mk_log INFO "Processing summary: {} processed, {} skipped"
          [AInt processed; AInt skipped]] ++ after)%list /\
    0 <= processed /\ 0 <= skipped /\
    processed + skipped = named_uploads files /\
    saved_count (io world') = saved_count (io world) + processed /\
    response
    = (if processed =? 0
       then Web.Redirect "No images were processed successfully"
       else Web.SendFile (Web.zip_path tmp) "formatted_images.zip").
Proof.
  intros image files request tmp world. split; [vm_compute; reflexivity|].
  apply (process_images_summary plain_external request files tmp world).
  - exact plain_external_returns.
  - reflexivity.
  - vm_compute. reflexivity.
Defined.

(** X18.  A request whose files are read and that is not turned down
    leaves nothing of its two temporary directories behind, whether it
    ends with the archive or with a redirect. *)
Theorem process_images_removes_temporaries (ext : External)
    (request : Web.Request) (files : list Web.Upload) (tmp : Web.TempNames)
    (world world' : World) (r : Outcome Web.Response) (p : Path) :
  library_returns ext ->
  Web.request_files request = Ret (Some files) ->
  turned_down (Some files) = false ->
  Web.process_images ext request tmp world = (r, world') ->
  Web.temp_input_dir tmp `prefix_of` p \/
  Web.temp_output_dir tmp `prefix_of` p ->
  fs world' !! p = None.
Proof.
  intros Hlib Hreq Hdown Hrun Hp.
  destruct (process_images_run ext request files tmp world Hlib Hreq Hdown)
    as (n & s & wl & final & resp & Hrun' & _ & _ & _ & _ & _ & _ & _ & Hresp).
  rewrite Hrun in Hrun'. injection Hrun' as -> ->.
  destruct Hresp as [(_ & _ & ->)|(_ & _ & entries & -> & _)];
    apply cleaned_gone, Hp.
Qed.

Lemma process_images_removes_temporaries_witness :
  let image := solid 2 3 "RGB" ∅ [1; 2; 3] in
  let files := [Web.mk_upload "a.jpg" (Encoded "JPEG" ∅ image) 10] in
  let request := Web.mk_request 200 (Web.FormFiles (Some files)) in
  let tmp := Web.mk_temp ["tmp"; "in"] ["tmp"; "out"] ["tmp"; "images.zip"] in
  let world := mk_world {[ ["tmp"] := Directory ]} [] [] in
  exists world',
    Web.process_images plain_external request tmp world
      = (Ret (Web.SendFile ["tmp"; "images.zip"] "formatted_images.zip"),
         world') /\
    fs world' !! ["tmp"; "out"; "a.png"] = None.
Proof.
  intros image files request tmp world.
  destruct (Web.process_images plain_external request tmp world)
    as [r world'] eqn:Hrun.
  assert (Hr : r = Ret (Web.SendFile ["tmp"; "images.zip"]
                          "formatted_images.zip"))
    by (vm_compute in Hrun; congruence).
  subst r. exists world'. split; [reflexivity|].
  apply (process_images_removes_temporaries plain_external request files tmp
           world world'
           (Ret (Web.SendFile ["tmp"; "images.zip"] "formatted_images.zip"))
           ["tmp"; "out"; "a.png"]).
  - exact plain_external_returns.
  - reflexivity.
  - vm_compute. reflexivity.
  - exact Hrun.
  - right. exists ["a.png"]. reflexivity.
Defined.

(** X19.  The handler writes inside its two temporary directories and at
    the path of the archive, and nowhere else: every other path holds
    after the request what it held before, whatever the request. *)
Theorem process_images_writes_temporaries_only (ext : External)
    (request : Web.Request) (tmp : Web.TempNames)
    (world world' : World) (r : Outcome Web.Response) (p : Path) :
  library_returns ext ->
  Web.process_images ext request tmp world = (r, world') ->
  ~ Web.temp_input_dir tmp `prefix_of` p ->
  ~ Web.temp_output_dir tmp `prefix_of` p ->
  p <> Web.zip_path tmp ->
  fs world' !! p = fs world !! p.
Proof.
  intros Hlib Hrun Hin Hout Hzip.
  destruct (request_files_cases request) as [[e Hreq]|[files Hreq]].
  { rewrite (process_images_refused ext request tmp world e Hreq) in Hrun.
    injection Hrun as _ <-. reflexivity. }
  destruct (turned_down files) eqn:Hdown.
  { destruct (process_images_turned_down ext request files tmp world Hreq
                Hdown) as [message Hrun'].
    rewrite Hrun in Hrun'. injection Hrun' as _ ->. reflexivity. }
  destruct (not_turned_down files Hdown) as [l ->].
  destruct (process_images_run ext request l tmp world Hlib Hreq Hdown)
    as (n & s & wl & final & resp & Hrun' & _ & _ & _ & Hsame & _ & _ & _ &
        Hresp).
  rewrite Hrun in Hrun'. injection Hrun' as -> ->.
  assert (Hloop : fs wl !! p = fs world !! p).
  { rewrite (Hsame p).
    - rewrite lookup_insert_ne by (intros <-; apply Hout; reflexivity).
      rewrite lookup_insert_ne by (intros <-; apply Hin; reflexivity).
      reflexivity.
    - intros E. apply Hin, parent_prefix, E.
    - intros E. apply Hout, parent_prefix, E. }
  destruct Hresp as [(_ & _ & ->)|(_ & _ & entries & -> & _)];
    rewrite (cleaned_kept tmp _ p Hin Hout).
  - exact Hloop.
  - rewrite lookup_insert_ne by congruence. exact Hloop.
Qed.

Lemma process_images_writes_temporaries_only_witness :
  let image := solid 2 3 "RGB" ∅ [1; 2; 3] in
  let files := Some [Web.mk_upload "a.jpg" (Encoded "JPEG" ∅ image) 10] in
  let request := Web.mk_request 200 (Web.FormFiles files) in
  let tmp := Web.mk_temp ["tmp"; "in"] ["tmp"; "out"] ["tmp"; "images.zip"] in
  let world :=
    mk_world {[ ["tmp"] := Directory; ["a.png"] := File Undecodable ]} [] [] in
  exists world',
    Web.process_images plain_external request tmp world
      = (Ret (Web.SendFile ["tmp"; "images.zip"] "formatted_images.zip"),
         world') /\
    fs world' !! ["a.png"] = fs world !! ["a.png"].
Proof.
  intros image files request tmp world.
  destruct (Web.process_images plain_external request tmp world)
    as [r world'] eqn:Hrun.
  assert (Hr : r = Ret (Web.SendFile ["tmp"; "images.zip"]
                          "formatted_images.zip"))
    by (vm_compute in Hrun; congruence).
  subst r. exists world'. split; [reflexivity|].
  apply (process_images_writes_temporaries_only plain_external request tmp
           world world'
           (Ret (Web.SendFile ["tmp"; "images.zip"] "formatted_images.zip"))
           ["a.png"]).
  - exact plain_external_returns.
  - exact Hrun.
  - intros [k Hk]. discriminate Hk.
  - intros [k Hk]. discriminate Hk.
  - discriminate.
Defined.

Lemma filter_all_false {A} (P : A -> bool) (l : list A) :
  (forall x, In x l -> P x = false) -> List.filter P l = [].
Proof.
  induction l as [|x l IH]; intros H; [reflexivity|].
  simpl. rewrite (H x (or_introl eq_refl)). apply IH.
  intros y Hy. apply H. right. exact Hy.
Qed.

(** A directory below which nothing exists holds no file. *)
Lemma files_in_nothing (f : gmap Path Node) (d : Path) :
  (forall p, d `prefix_of` p -> f !! p = None) -> files_in f d = 0.
Proof.
  intros Hnone. rewrite files_in_entries.
  rewrite filter_all_false; [reflexivity|].
  intros [k n] Hin. apply (proj2 (list_elem_of_In _ _)) in Hin.
  apply elem_of_map_to_list in Hin.
  unfold file_entry_of. simpl fst. simpl snd.
  destruct (decide (k <> [] /\ parent k = d)) as [[_ Hq]|Hq].
  - exfalso. pose proof (Hnone k (parent_prefix _ _ Hq)) as Hk.
    assert (Some n = None) as [=] by (rewrite <- Hin; exact Hk).
  - rewrite (bool_decide_eq_false_2 _ Hq). reflexivity.
Qed.

Lemma files_in_new_directory (f : gmap Path Node) (d p : Path) :
  f !! p = None -> files_in (<[p := Directory]> f) d = files_in f d.
Proof.
  intros Hp. rewrite files_in_insert_fresh by exact Hp.
  unfold file_entry_of. simpl snd. rewrite andb_false_r. lia.
Qed.

(** X20.  With temporary names that are new, the archive the handler
    sends exists when the handler returns, and it holds exactly one entry
    for each image that was saved during the request. *)
Theorem archive_holds_the_processed_images (ext : External)
    (request : Web.Request) (tmp : Web.TempNames)
    (world world' : World) (archive : Path) (download_name : string) :
  library_returns ext ->
  fresh_names tmp (fs world) ->
  Web.process_images ext request tmp world
    = (Ret (Web.SendFile archive download_name), world') ->
  exists entries,
    fs world' !! archive = Some (ZipFile entries) /\
    Z.of_nat (length entries) = saved_count (io world') - saved_count (io world).
Proof.
  intros Hlib (Hne & Hnew & Hzin & Hzout) Hrun.
  destruct (request_files_cases request) as [[e Hreq]|[files Hreq]].
  { rewrite (process_images_refused ext request tmp world e Hreq) in Hrun.
    discriminate Hrun. }
  destruct (turned_down files) eqn:Hdown.
  { destruct (process_images_turned_down ext request files tmp world Hreq
                Hdown) as [message Hrun'].
    rewrite Hrun in Hrun'. discriminate Hrun'. }
  destruct (not_turned_down files Hdown) as [l ->].
  destruct (process_images_run ext request l tmp world Hlib Hreq Hdown)
    as (n & s & wl & final & resp & Hrun' & _ & _ & _ & _ & Hcount & Hsaved &
        _ & Hresp).
  rewrite Hrun in Hrun'. injection Hrun' as <- <-.
  destruct Hresp as [(_ & Hr & _)|(_ & Hr & entries & Hfs & Hlen & _)];
    [discriminate Hr|].
  injection Hr as -> ->. exists entries. split.
  - rewrite Hfs, (cleaned_kept tmp _ _ Hzin Hzout).
    apply lookup_insert_eq.
  - rewrite Hlen, (proj1 (Hcount Hne)), Hsaved.
    rewrite files_in_new_directory.
    + rewrite files_in_new_directory by (apply Hnew; left; reflexivity).
      rewrite files_in_nothing; [lia|].
      intros p Hp. apply Hnew. right. exact Hp.
    + rewrite lookup_insert_ne by exact Hne.
      apply Hnew. right. reflexivity.
Qed.

Lemma archive_holds_the_processed_images_witness :
  let image := solid 2 3 "RGB" ∅ [1; 2; 3] in
  let files :=
    Some [Web.mk_upload "a.jpg" (Encoded "JPEG" ∅ image) 10;
          Web.mk_upload "a.png" (Encoded "PNG" ∅ image) 10;
          Web.mk_upload "b.png" Undecodable 10] in
  let request := Web.mk_request 300 (Web.FormFiles files) in
  let tmp := Web.mk_temp ["tmp"; "in"] ["tmp"; "out"] ["tmp"; "images.zip"] in
  let world := mk_world {[ ["tmp"] := Directory ]} [] [] in
  exists world' entries,
    Web.process_images plain_external request tmp world
      = (Ret (Web.SendFile ["tmp"; "images.zip"] "formatted_images.zip"),
         world') /\
    fs world' !! ["tmp"; "images.zip"] = Some (ZipFile entries) /\
    Z.of_nat (length entries) = saved_count (io world') - saved_count (io world) /\
    saved_count (io world') = 2.
Proof.
  intros image files request tmp world.
  destruct (Web.process_images plain_external request tmp world)
    as [r world'] eqn:Hrun.
  assert (Hr : r = Ret (Web.SendFile ["tmp"; "images.zip"]
                          "formatted_images.zip"))
    by (vm_compute in Hrun; congruence).
  subst r. exists world'.
  destruct (archive_holds_the_processed_images plain_external request tmp
              world world' ["tmp"; "images.zip"] "formatted_images.zip")
    as (entries & Hfs & Hlen).
  - exact plain_external_returns.
  - split; [discriminate|]. split; [|split].
    + intros p [[k Hk]|[k Hk]]; subst p;
        apply lookup_singleton_ne; discriminate.
    + intros [k Hk]. discriminate Hk.
    + intros [k Hk]. discriminate Hk.
  - exact Hrun.
  - exists entries. split; [reflexivity|]. split; [exact Hfs|].
    split; [exact Hlen|].
    vm_compute in Hrun. injection Hrun as <-. reflexivity.
Defined.

Lemma listdir_entry (f : gmap Path Node) (d p : Path) :
  In p (listdir f d) -> p <> [] /\ parent p = d /\ is_Some (f !! p).
Proof.
  intros Hin. apply (proj2 (list_elem_of_In _ _)) in Hin.
  unfold listdir in Hin. apply list_elem_of_filter in Hin as [[Hne Hp] Hin].
  split; [exact Hne|]. split; [exact Hp|].
  apply (proj1 (list_elem_of_In _ _)) in Hin.
  apply in_map_iff in Hin as [[k n] [Hk Hin]]. simpl in Hk. subst k.
  apply (proj2 (list_elem_of_In _ _)) in Hin.
  apply elem_of_map_to_list in Hin. eauto.
Qed.

Lemma new_directories_hold_canvases (tmp : Web.TempNames)
    (f : gmap Path Node) :
  (forall p, Web.temp_input_dir tmp `prefix_of` p \/
             Web.temp_output_dir tmp `prefix_of` p -> f !! p = None) ->
  holds_canvases
    (<[Web.temp_output_dir tmp := Directory]>
       (<[Web.temp_input_dir tmp := Directory]> f))
    (Web.temp_output_dir tmp).
Proof.
  intros Hnew p n Hp Hnil.
  destruct (decide (p = Web.temp_output_dir tmp)) as [->|Hout].
  { rewrite lookup_insert_eq. intros [= <-]. left. reflexivity. }
  rewrite lookup_insert_ne by congruence.
  destruct (decide (p = Web.temp_input_dir tmp)) as [->|Hin].
  { rewrite lookup_insert_eq. intros [= <-]. left. reflexivity. }
  rewrite lookup_insert_ne by congruence.
  pose proof (Hnew p (or_intror (parent_prefix _ _ Hp))) as Hnone.
  intros Hsome. exfalso.
  assert (Some n = None) as [=] by (rewrite <- Hsome; exact Hnone).
Qed.

(** X23.  With temporary names that are new, every entry of the archive
    the handler sends is a canvas of 1200 by 1200 pixels in mode RGBA,
    encoded as PNG. *)
Theorem archive_entries_are_canvases (ext : External)
    (request : Web.Request) (tmp : Web.TempNames)
    (world world' : World) (archive : Path) (download_name : string) :
  library_returns ext ->
  fresh_names tmp (fs world) ->
  Web.process_images ext request tmp world
    = (Ret (Web.SendFile archive download_name), world') ->
  exists entries,
    fs world' !! archive = Some (ZipFile entries) /\
    Forall (fun entry : string * FileData =>
              exists canvas,
                snd entry = Encoded "PNG" ∅ canvas /\
                width canvas = 1200 /\ height canvas = 1200 /\
                mode canvas = "RGBA") entries.
Proof.
  intros Hlib (Hne & Hnew & Hzin & Hzout) Hrun.
  destruct (request_files_cases request) as [[e Hreq]|[files Hreq]].
  { rewrite (process_images_refused ext request tmp world e Hreq) in Hrun.
    discriminate Hrun. }
  destruct (turned_down files) eqn:Hdown.
  { destruct (process_images_turned_down ext request files tmp world Hreq
                Hdown) as [message Hrun'].
    rewrite Hrun in Hrun'. discriminate Hrun'. }
  destruct (not_turned_down files Hdown) as [l ->].
  destruct (process_images_run ext request l tmp world Hlib Hreq Hdown)
    as (n & s & wl & final & resp & Hrun' & _ & _ & _ & _ & Hcount & _ &
        _ & Hresp).
  rewrite Hrun in Hrun'. injection Hrun' as <- <-.
  destruct Hresp as [(_ & Hr & _)|(_ & Hr & entries & Hfs & _ & Hentries)];
    [discriminate Hr|].
  injection Hr as -> ->. exists entries. split.
  { rewrite Hfs, (cleaned_kept tmp _ _ Hzin Hzout). apply lookup_insert_eq. }
  pose proof (proj2 (Hcount Hne) (new_directories_hold_canvases tmp _ Hnew))
    as Hinv.
  rewrite Hentries. apply List.Forall_forall. intros entry Hin.
  apply in_map_iff in Hin as (p & <- & Hin).
  apply filter_In in Hin as [Hin Hfile].
  destruct (listdir_entry _ _ _ Hin) as (Hnil & Hp & [node Hnode]).
  destruct (Hinv p node Hp Hnil Hnode) as [->|(data & -> & Hdata)].
  - exfalso. unfold is_file in Hfile.
    destruct (_ !! _) as [m|]; [injection Hnode as ->|]; discriminate Hfile.
  - unfold zip_entry. simpl snd.
    destruct (_ !! _) as [m|]; [injection Hnode as ->|discriminate Hnode].
    exact Hdata.
Qed.

Lemma archive_entries_are_canvases_witness :
  let image := solid 2 3 "RGB" ∅ [1; 2; 3] in
  let files :=
    Some [Web.mk_upload "a.jpg" (Encoded "JPEG" ∅ image) 10;
          Web.mk_upload "b.png" Undecodable 10] in
  let request := Web.mk_request 200 (Web.FormFiles files) in
  let tmp := Web.mk_temp ["tmp"; "in"] ["tmp"; "out"] ["tmp"; "images.zip"] in
  let world := mk_world {[ ["tmp"] := Directory ]} [] [] in
  exists world' entries,
    Web.process_images plain_external request tmp world
      = (Ret (Web.SendFile ["tmp"; "images.zip"] "formatted_images.zip"),
         world') /\
    fs world' !! ["tmp"; "images.zip"] = Some (ZipFile entries) /\
    Forall (fun entry : string * FileData =>
              exists canvas,
                snd entry = Encoded "PNG" ∅ canvas /\
                width canvas = 1200 /\ height canvas = 1200 /\
                mode canvas = "RGBA") entries.
Proof.
  intros image files request tmp world.
  destruct (Web.process_images plain_external request tmp world)
    as [r world'] eqn:Hrun.
  assert (Hr : r = Ret (Web.SendFile ["tmp"; "images.zip"]
                          "formatted_images.zip"))
    by (vm_compute in Hrun; congruence).
  subst r. exists world'.
  destruct (archive_entries_are_canvases plain_external request tmp
              world world' ["tmp"; "images.zip"] "formatted_images.zip")
    as (entries & Hfs & Hall).
  - exact plain_external_returns.
  - split; [discriminate|]. split; [|split].
    + intros p [[k Hk]|[k Hk]]; subst p;
        apply lookup_singleton_ne; discriminate.
    + intros [k Hk]. discriminate Hk.
    + intros [k Hk]. discriminate Hk.
  - exact Hrun.
  - exists entries. split; [reflexivity|]. split; [exact Hfs|exact Hall].
Defined.

(** ** [main] on a single file                                            *)

Lemma mkdir_prefixes_never_exits (f : gmap Path Node) (done todo : Path)
    (status : Z) :
  mkdir_prefixes f done todo <> Exit status.
Proof.
  revert f done. induction todo as [|c todo IH]; intros f done; simpl.
  - discriminate.
  - destruct (f !! (done ++ [c])%list) as [[| |]|]; try apply IH;
      discriminate.
Qed.

Lemma mkdir_parents_run (p : Path) (w : World) :
  (exists f, mkdir_parents p w = (Ret tt, mk_world f (log w) (io w))) \/
  (exists e, mkdir_parents p w = (Raise e, w)).
Proof.
  unfold mkdir_parents, bind, get_world, lift, set_fs.
  destruct (mkdir_prefixes (fs w) [] p) as [f|e|s] eqn:H; eauto.
  exfalso. exact (mkdir_prefixes_never_exits _ _ _ _ H).
Qed.

(** X21.  [main] on a single supported file never returns normally.  It
    exits with status 0 exactly when the image was saved, and then the
    destination is the output path as given when its suffix is [.png] or
    [.webp] in any case, and the output path with its suffix replaced by
    [.png] otherwise; it exits with status 1 when the image was opened and
    not saved; an error in creating the output directory or in replacing
    the suffix is raised before the image is opened. *)
Theorem main_single_file (ext : External) (args : Cli.Args)
    (bg_color : option Color) (world world' : World) (r : Outcome unit) :
  library_returns ext ->
  Cli.parse_color (Cli.arg_bg args) = Ret bg_color ->
  is_file (fs world) (Cli.arg_input args) = true ->
  PyStr.lower (suffix (Cli.arg_input args)) ∈ Cli.SUPPORTED_FORMATS ->
  Cli.main ext args world = (r, world') ->
  (exists dest params canvas,
     r = Exit 0 /\
     io world' = (io world ++ [Opened (Cli.arg_input args); Saved dest])%list /\
     (if bool_decide (PyStr.lower (suffix (Cli.arg_output args))
                        ∈ ({[ ".png"; ".webp" ]} : gset string))
      then dest = Cli.arg_output args
      else with_suffix (Cli.arg_output args) ".png" = Ret dest) /\
     fs world' !! dest
       = Some (File (Encoded
                       (if String.eqb (PyStr.lower (suffix dest)) ".webp"
                        then "WEBP" else "PNG") params canvas)) /\
     width canvas = Cli.arg_size args /\ height canvas = Cli.arg_size args) \/
  (r = Exit 1 /\ io world' = (io world ++ [Opened (Cli.arg_input args)])%list) \/
  (exists e, r = Raise e /\ io world' = io world).
Proof.
  intros Hlib Hparse Hfile Hsup.
  unfold Cli.main, bind at 1, try_except_class, lift. rewrite Hparse.
  erewrite bind_ret_at; [|reflexivity].
  rewrite (is_file_exists _ _ Hfile), Hfile.
  rewrite (bool_decide_eq_true_2 _ Hsup).
  change (negb true) with false. cbv iota.
  destruct (mkdir_parents_run (parent (Cli.arg_output args)) world)
    as [[f Hmk]|[e Hmk]].
  2:{ erewrite bind_raise_at; [|exact Hmk].
      intros H. injection H as <- <-. right. right. eauto. }
  erewrite bind_ret_at; [|exact Hmk].
  set (w1 := mk_world f (log world) (io world)).
  destruct (bool_decide (PyStr.lower (suffix (Cli.arg_output args))
                           ∈ ({[ ".png"; ".webp" ]} : gset string))) eqn:Hout;
    change (negb true) with false; change (negb false) with true; cbv iota.
  - erewrite bind_ret_at; [|reflexivity].
    destruct (cli_process_image_cases ext (Cli.arg_input args)
                (Cli.arg_output args) (Cli.arg_size args) bg_color w1 Hlib)
      as (b & w2 & Hrun & Hcase).
    erewrite bind_ret_at; [|exact Hrun].
    intros H. injection H as <- <-. destruct b.
    + left.
      destruct Hcase as (params & canvas & _ & Hfs & Hw & Hh & _ & _ & Hio & _).
      exists (Cli.arg_output args), params, canvas.
      split; [reflexivity|]. split; [exact Hio|]. split; [reflexivity|].
      split; [rewrite Hfs; apply lookup_insert_eq|]. auto.
    + right. left. destruct Hcase as (Hio & _). auto.
  - destruct (with_suffix (Cli.arg_output args) ".png") as [dest|e|s] eqn:Hws.
    + erewrite bind_ret_at; [|reflexivity].
      destruct (cli_process_image_cases ext (Cli.arg_input args) dest
                  (Cli.arg_size args) bg_color w1 Hlib)
        as (b & w2 & Hrun & Hcase).
      erewrite bind_ret_at; [|exact Hrun].
      intros H. injection H as <- <-. destruct b.
      * left.
        destruct Hcase as (params & canvas & _ & Hfs & Hw & Hh & _ & _ & Hio & _).
        exists dest, params, canvas.
        split; [reflexivity|]. split; [exact Hio|]. split; [reflexivity|].
        split; [rewrite Hfs; apply lookup_insert_eq|]. auto.
      * right. left. destruct Hcase as (Hio & _). auto.
    + erewrite bind_raise_at; [|reflexivity].
      intros H. injection H as <- <-. right. right. eauto.
    + exfalso. unfold with_suffix in Hws.
      destruct (String.eqb _ _); discriminate.
Qed.

Lemma main_single_file_witness :
  let image := solid 2 3 "RGB" ∅ [1; 2; 3] in
  let world := world_with ["in.jpg"] "JPEG" image in
  let args := Cli.mk_args ["in.jpg"] ["out.gif"] 4 None in
  exists world' params canvas,
    Cli.main plain_external args world = (Exit 0, world') /\
    io world' = [Opened ["in.jpg"]; Saved ["out.png"]] /\
    fs world' !! ["out.png"] = Some (File (Encoded "PNG" params canvas)) /\
    width canvas = 4 /\ height canvas = 4.
Proof.
  intros image world args.
  destruct (Cli.main plain_external args world) as [r world'] eqn:Hrun.
  assert (Hr : r = Exit 0 /\ io world' = [Opened ["in.jpg"]; Saved ["out.png"]])
    by (vm_compute in Hrun; injection Hrun as <- <-; split; reflexivity).
  destruct Hr as [-> Hio'].
  destruct (main_single_file plain_external args None world world' (Exit 0))
    as [(dest & params & canvas & _ & Hio & Hdest & Hfs & Hw & Hh)
       |[[Hr _]|(e & Hr & _)]]; try discriminate Hr.
  - exact plain_external_returns.
  - reflexivity.
  - vm_compute. reflexivity.
  - apply (bool_decide_eq_true_1 _). vm_compute. reflexivity.
  - exact Hrun.
  - exists world', params, canvas. split; [reflexivity|].
    split; [exact Hio'|].
    assert (Hd : dest = ["out.png"]).
    { rewrite Hio' in Hio. simpl in Hio. congruence. }
    subst dest. split; [exact Hfs|]. auto.
Defined.

(** ** The names and the format of the files written in folder mode       *)

Lemma list_ascii_of_string_app (s t : string) :
  list_ascii_of_string (s ++ t)
  = (list_ascii_of_string s ++ list_ascii_of_string t)%list.
Proof. induction s as [|a s IH]; simpl; [reflexivity|rewrite IH; reflexivity]. Qed.

Lemma rfind_chars_app (c : ascii) (l1 l2 : list ascii) (i : Z) :
  PyStr.rfind_chars c (l1 ++ l2) i
  = match PyStr.rfind_chars c l2 (i + Z.of_nat (length l1)) with
    | Some j => Some j
    | None => PyStr.rfind_chars c l1 i
    end.
Proof.
  revert i. induction l1 as [|a l1 IH]; intros i.
  - simpl. rewrite Z.add_0_r. destruct (PyStr.rfind_chars c l2 i); reflexivity.
  - cbn [app PyStr.rfind_chars length]. rewrite IH.
    replace (i + 1 + Z.of_nat (length l1)) with (i + Z.of_nat (S (length l1)))
      by lia.
    destruct (PyStr.rfind_chars c l2 _); reflexivity.
Qed.

Lemma length_list_ascii (s : string) :
  length (list_ascii_of_string s) = String.length s.
Proof. induction s as [|a s IH]; simpl; [reflexivity|rewrite IH; reflexivity]. Qed.

Lemma string_length_app (s t : string) :
  String.length (s ++ t) = (String.length s + String.length t)%nat.
Proof. induction s as [|a s IH]; simpl; [reflexivity|rewrite IH; reflexivity]. Qed.

Lemma substring_app_tail (s t : string) (k : nat) :
  String.substring (String.length s) k (s ++ t) = String.substring 0 k t.
Proof. induction s as [|a s IH]; simpl; [reflexivity|exact IH]. Qed.

Lemma name_joinpath (d : Path) (n : string) : name (joinpath d n) = n.
Proof. unfold name, joinpath. apply last_last. Qed.

(** The suffix of [<stem>.png]. *)
Lemma suffix_of_png (d : Path) (s : string) :
  suffix (joinpath d (s ++ ".png"))
  = if (0 <? PyStr.len s) then ".png" else "".
Proof.
  unfold suffix. rewrite name_joinpath. unfold PyStr.rfind.
  rewrite list_ascii_of_string_app, rfind_chars_app.
  rewrite length_list_ascii. fold (PyStr.len s).
  change (PyStr.rfind_chars "." (list_ascii_of_string ".png") (0 + PyStr.len s))
    with (Some (0 + PyStr.len s)).
  rewrite Z.add_0_l.
  assert (Hlen : PyStr.len (s ++ ".png") = PyStr.len s + 4).
  { unfold PyStr.len. rewrite string_length_app. simpl String.length. lia. }
  rewrite Hlen.
  replace (PyStr.len s <? PyStr.len s + 4 - 1) with true by (symmetry; lia).
  rewrite andb_true_r.
  destruct (0 <? PyStr.len s); [|reflexivity].
  unfold PyStr.slice_from, PyStr.len. rewrite Nat2Z.id, string_length_app.
  replace (String.length s + String.length ".png" - String.length s)%nat
    with 4%nat by (simpl String.length; lia).
  rewrite substring_app_tail. reflexivity.
Qed.

Lemma format_of_png (d : Path) (s : string) :
  Cli.save_format (PyStr.lower (suffix (joinpath d (s ++ ".png")))) = "PNG".
Proof.
  rewrite suffix_of_png. destruct (0 <? PyStr.len s); reflexivity.
Qed.

Lemma kept_or_written_refl S bg (n : option Node) : kept_or_written S bg n n.
Proof. left. reflexivity. Qed.

Lemma kept_or_written_trans S bg (n1 n2 n3 : option Node) :
  kept_or_written S bg n1 n2 -> kept_or_written S bg n2 n3 ->
  kept_or_written S bg n1 n3.
Proof.
  intros H12 [->|H23]; [exact H12|]. right. exact H23.
Qed.

(** One file of the folder: what [process_image] leaves at any path. *)
Lemma folder_step_writes ext output_path canvas_size bg_color q counts world
    r world' (p : Path) :
  library_returns ext ->
  Cli.folder_step ext output_path canvas_size bg_color q counts world
    = (r, world') ->
  (exists counts', r = Ret counts') /\
  kept_or_written canvas_size bg_color (fs world !! p) (fs world' !! p).
Proof.
  intros Hlib. unfold Cli.folder_step. destruct counts as [processed skipped].
  erewrite bind_ret_at; [|reflexivity].
  destruct (_ && _).
  - destruct (cli_process_image_cases ext q
                (joinpath output_path (stem q ++ ".png")) canvas_size bg_color
                world Hlib) as (b & w1 & Hrun & Hcase).
    erewrite bind_ret_at; [|exact Hrun].
    rewrite format_of_png in Hcase.
    destruct b; unfold ret; intros H; injection H as <- <-;
      (split; [eauto|]).
    + destruct Hcase as (params & canvas & _ & Hfs & Hw & Hh & Hm & _).
      rewrite Hfs.
      destruct (decide (p = joinpath output_path (stem q ++ ".png")))
        as [->|Hne].
      * rewrite lookup_insert_eq. right. right. eauto 10.
      * rewrite lookup_insert_ne by congruence. left. reflexivity.
    + destruct Hcase as (_ & [Hfs|(Hfs & _)] & _); rewrite Hfs.
      * left. reflexivity.
      * destruct (decide (p = joinpath output_path (stem q ++ ".png")))
          as [->|Hne].
        -- rewrite lookup_insert_eq. right. left. reflexivity.
        -- rewrite lookup_insert_ne by congruence. left. reflexivity.
  - unfold ret. intros H. injection H as <- <-.
    split; [eauto|]. left. reflexivity.
Qed.

Lemma folder_loop_writes ext output_path canvas_size bg_color (l : list Path)
    counts world r world' (p : Path) :
  library_returns ext ->
  for_each l (Cli.folder_step ext output_path canvas_size bg_color) counts
    world = (r, world') ->
  kept_or_written canvas_size bg_color (fs world !! p) (fs world' !! p).
Proof.
  intros Hlib. revert counts world.
  induction l as [|q l IH]; intros counts world.
  - simpl. unfold ret. intros H. injection H as _ <-. left. reflexivity.
  - simpl for_each.
    destruct (Cli.folder_step ext output_path canvas_size bg_color q counts
                world) as [r1 w1] eqn:Hstep.
    destruct (folder_step_writes ext _ _ _ _ _ _ _ _ p Hlib Hstep)
      as [[counts' ->] Hrel].
    erewrite bind_ret_at; [|exact Hstep].
    intros Hloop.
    exact (kept_or_written_trans _ _ _ _ _ Hrel (IH _ _ Hloop)).
Qed.

(** ** A missing output folder                                            *)

(** [mkdir(parents=True)] only adds directories, and the path asked for
    is one afterwards. *)
Lemma mkdir_prefixes_result (todo : Path) :
  forall (f f' : gmap Path Node) (done : Path),
    mkdir_prefixes f done todo = Ret f' ->
    (todo <> [] -> f' !! (done ++ todo)%list = Some Directory) /\
    (forall q n, f !! q = Some n -> f' !! q = Some n).
Proof.
  induction todo as [|c todo IH]; intros f f' done; simpl.
  - intros [= <-]. split; [intros H; contradiction|auto].
  - destruct (f !! (done ++ [c])%list) as [[| |]|] eqn:Hl; try discriminate.
    + intros Hrec. destruct (IH _ _ _ Hrec) as [Hdir Hkeep].
      split; [|exact Hkeep]. intros _.
      replace (done ++ c :: todo)%list with ((done ++ [c]) ++ todo)%list
        by (rewrite <- app_assoc; reflexivity).
      destruct todo as [|c' todo'].
      * rewrite app_nil_r. apply Hkeep. exact Hl.
      * apply Hdir. discriminate.
    + intros Hrec. destruct (IH _ _ _ Hrec) as [Hdir Hkeep].
      split.
      * intros _.
        replace (done ++ c :: todo)%list with ((done ++ [c]) ++ todo)%list
          by (rewrite <- app_assoc; reflexivity).
        destruct todo as [|c' todo'].
        -- rewrite app_nil_r. apply Hkeep. apply lookup_insert_eq.
        -- apply Hdir. discriminate.
      * intros q n Hq. apply Hkeep. rewrite lookup_insert_ne; [exact Hq|].
        intros <-.
        assert (Some n = None) as [=] by (rewrite <- Hq; exact Hl).
Qed.

Lemma directory_kept (f f' : gmap Path Node) (p : Path) :
  same_entries f f' -> is_dir f p = true -> is_dir f' p = true.
Proof.
  intros Hsame Hdir. destruct p as [|a p]; [reflexivity|].
  destruct (Hsame (a :: p) (is_dir_exists _ _ Hdir)) as [Hex Hfile].
  unfold is_dir, is_file, path_exists in *.
  apply bool_decide_eq_true in Hex as [n Hn]. unfold Path in *.
  destruct (f !! (a :: p)) as [[| |]|]; try discriminate Hdir.
  destruct (f' !! (a :: p)) as [[| |]|]; try discriminate; reflexivity.
Qed.

Lemma mkdir_parents_cases (p : Path) (w : World) :
  (exists f, mkdir_prefixes (fs w) [] p = Ret f /\
             mkdir_parents p w = (Ret tt, mk_world f (log w) (io w))) \/
  (exists e, mkdir_parents p w = (Raise e, w)).
Proof.
  unfold mkdir_parents, bind, get_world, lift, set_fs.
  destruct (mkdir_prefixes (fs w) [] p) as [f|e|s] eqn:H; eauto.
  exfalso. exact (mkdir_prefixes_never_exits _ _ _ _ H).
Qed.

(** X24.  Folder mode with an output path that does not exist: [main]
    creates the folder, with the ancestors that are missing, before it
    opens any image, and returns normally; the folder is there afterwards,
    and what existed outside it is unchanged.  When a file is in the way
    the error is raised and nothing has happened. *)
Theorem main_creates_output_folder (ext : External) (args : Cli.Args)
    (bg_color : option Color) (world world' : World) (r : Outcome unit) :
  library_returns ext ->
  Cli.parse_color (Cli.arg_bg args) = Ret bg_color ->
  path_exists (fs world) (Cli.arg_input args) = true ->
  is_file (fs world) (Cli.arg_input args) = false ->
  path_exists (fs world) (Cli.arg_output args) = false ->
  Cli.main ext args world = (r, world') ->
  (exists e, r = Raise e /\ world' = world) \/
  (r = Ret tt /\
   is_dir (fs world') (Cli.arg_output args) = true /\
   forall q n, fs world !! q = Some n -> parent q <> Cli.arg_output args ->
               fs world' !! q = Some n).
Proof.
  intros Hlib Hparse Hin Hnofile Hout.
  unfold Cli.main, bind at 1, try_except_class, lift. rewrite Hparse.
  erewrite bind_ret_at; [|reflexivity].
  rewrite Hin, Hnofile, Hout.
  change (negb true) with false. change (negb false) with true. cbv iota.
  destruct (mkdir_parents_cases (Cli.arg_output args) world)
    as [(f & Hmk & Hrun)|[e Hrun]].
  2:{ erewrite bind_raise_at; [|exact Hrun].
      intros H. injection H as <- <-. left. eauto. }
  erewrite bind_ret_at; [|exact Hrun].
  erewrite bind_ret_at; [|reflexivity].
  set (w1 := mk_world f (log world) (io world)).
  destruct (mkdir_prefixes_result _ _ _ _ Hmk) as [Hdir Hkeep].
  assert (Hnil : Cli.arg_output args <> []).
  { intros E. rewrite E in Hout. discriminate Hout. }
  assert (Hdir1 : is_dir (fs w1) (Cli.arg_output args) = true).
  { specialize (Hdir Hnil). simpl in Hdir. unfold is_dir, w1. cbn [fs].
    destruct (Cli.arg_output args) as [|a p]; [reflexivity|].
    unfold Path in *. rewrite Hdir. reflexivity. }
  destruct (folder_loop_counts_from ext (Cli.arg_output args)
              (Cli.arg_size args) bg_color
              (listdir (fs w1) (Cli.arg_input args)) 0 0 w1 Hlib
              (listdir_exists _ _))
    as (p & s & wl & Hloop & _ & _ & _ & Hsame & Houtside & _).
  erewrite bind_ret_at; [|exact Hloop]. cbv beta iota.
  intros H. injection H as <- <-. right.
  split; [reflexivity|]. cbn [fs].
  split; [exact (directory_kept _ _ _ Hsame Hdir1)|].
  intros q n Hq Hp. rewrite (Houtside q Hp). apply Hkeep, Hq.
Qed.

Lemma main_creates_output_folder_witness :
  let image := solid 2 3 "RGB" ∅ [1; 2; 3] in
  let world :=
    mk_world {[ ["in"] := Directory;
                ["in"; "a.jpg"] := File (Encoded "JPEG" ∅ image) ]} [] [] in
  let args := Cli.mk_args ["in"] ["out"; "square"] 4 None in
  exists world',
    Cli.main plain_external args world = (Ret tt, world') /\
    is_dir (fs world') ["out"; "square"] = true /\
    fs world' !! ["in"; "a.jpg"] = Some (File (Encoded "JPEG" ∅ image)).
Proof.
  intros image world args.
  destruct (Cli.main plain_external args world) as [r world'] eqn:Hrun.
  assert (Hr : r = Ret tt) by (vm_compute in Hrun; congruence).
  subst r. exists world'. split; [reflexivity|].
  destruct (main_creates_output_folder plain_external args None world world'
              (Ret tt))
    as [(e & Hr & _)|(_ & Hdir & Hkeep)]; try discriminate Hr.
  - exact plain_external_returns.
  - reflexivity.
  - vm_compute. reflexivity.
  - vm_compute. reflexivity.
  - vm_compute. reflexivity.
  - exact Hrun.
  - split; [exact Hdir|]. apply Hkeep.
    + vm_compute. reflexivity.
    + vm_compute. discriminate.
Defined.

(** ** What the compositors return                                        *)

Lemma center_tail_returns ext image canvas_size bg_color world x world' :
  center_tail ext image canvas_size bg_color world = (Ret x, world') ->
  exists canvas,
    x = Some canvas /\
    width canvas = canvas_size /\ height canvas = canvas_size /\
    mode canvas = canvas_mode bg_color /\ info canvas = ∅.
Proof.
  intros Hrun.
  destruct (center_tail_effects ext _ _ _ _ _ _ Hrun) as [_ Hinfo].
  revert Hrun. unfold center_tail, bind, lift, ret.
  destruct (match bg_color with
            | None => PIL.new ext "RGBA" (canvas_size, canvas_size) [0; 0; 0; 0]
            | Some c => PIL.new ext "RGB" (canvas_size, canvas_size) (color_pixel c)
            end) as [blank|e|s] eqn:Hnew; try discriminate.
  assert (Hblank : width blank = canvas_size /\ height blank = canvas_size /\
                   mode blank = canvas_mode bg_color).
  { destruct bg_color; apply new_size in Hnew; exact Hnew. }
  rewrite mask_of_branches.
  destruct (PIL.paste _ _ _ _ _) as [c|e|s] eqn:Hp; try discriminate.
  intros H. injection H as <- _.
  exists c. apply paste_size in Hp as (Hpw & Hph & Hpm).
  destruct Hblank as (Hbw & Hbh & Hbm).
  split; [reflexivity|]. split; [congruence|]. split; [congruence|].
  split; [congruence|]. apply Hinfo. reflexivity.
Qed.

(** X25.  [center_image_on_canvas] of the web service never returns
    [None]: where it returns, it returns a square canvas of the canvas
    size, in mode RGBA without a background colour and RGB with one.  (So
    the test [result is None] in [process_single_image] never holds.) *)
Theorem web_compositor_never_skips (ext : External) (image : Image)
    (canvas_size : Z) (bg_color : option Color) (world world' : World)
    (result : option Image) :
  Web.center_image_on_canvas ext image canvas_size bg_color world
    = (Ret result, world') ->
  exists canvas,
    result = Some canvas /\
    width canvas = canvas_size /\ height canvas = canvas_size /\
    mode canvas = match bg_color with None => "RGBA" | Some _ => "RGB" end.
Proof.
  rewrite web_center_halves. unfold bind at 1.
  destruct (web_fit ext image canvas_size world) as [[fitted|e|s] w1];
    try discriminate.
  intros Hrun. apply center_tail_returns in Hrun
    as (canvas & -> & Hw & Hh & Hm & _).
  exists canvas. auto.
Qed.

Lemma web_compositor_never_skips_witness :
  exists world' canvas,
    Web.center_image_on_canvas plain_external
      (solid 2000 1000 "RGB" ∅ [1; 2; 3]) 1200 (Some (255, 255, 255))
      empty_world = (Ret (Some canvas), world') /\
    width canvas = 1200 /\ height canvas = 1200 /\ mode canvas = "RGB".
Proof.
  destruct (Web.center_image_on_canvas plain_external
              (solid 2000 1000 "RGB" ∅ [1; 2; 3]) 1200 (Some (255, 255, 255))
              empty_world) as [[result|e|s] world'] eqn:Hrun;
    [|vm_compute in Hrun; discriminate ..].
  destruct (web_compositor_never_skips plain_external _ _ _ _ _ _ Hrun)
    as (canvas & -> & H).
  exists world', canvas. split; [reflexivity|exact H].
Defined.

(** X26.  [center_image_on_canvas] of the command-line tool returns
    [None] exactly when the image exceeds the canvas on some axis: an image
    that fits is never skipped (it gives a canvas, or the paste raises). *)
Theorem cli_compositor_skips_oversized_only (ext : External) (image : Image)
    (canvas_size : Z) (bg_color : option Color) (world world' : World)
    (r : Outcome (option Image)) :
  Cli.center_image_on_canvas ext image canvas_size bg_color world
    = (r, world') ->
  (r = Ret None <->
   width image > canvas_size \/ height image > canvas_size).
Proof.
  rewrite cli_center_halves.
  destruct ((width image >? canvas_size) || (height image >? canvas_size))
    eqn:Hbig.
  - intros H. injection H as <- _. split; [|reflexivity].
    intros _. apply orb_true_iff in Hbig. lia.
  - intros Hrun. split.
    + intros ->. apply center_tail_returns in Hrun as (canvas & Hc & _).
      discriminate Hc.
    + intros Hover. apply orb_false_iff in Hbig. lia.
Qed.

Lemma cli_compositor_skips_oversized_only_witness :
  exists r world',
    Cli.center_image_on_canvas plain_external
      (solid 1200 1200 "RGB" ∅ [1; 2; 3]) 1200 None empty_world = (r, world') /\
    (r = Ret None <-> 1200 > 1200 \/ 1200 > 1200).
Proof.
  destruct (Cli.center_image_on_canvas plain_external
              (solid 1200 1200 "RGB" ∅ [1; 2; 3]) 1200 None empty_world)
    as [r world'] eqn:Hrun.
  exists r, world'. split; [reflexivity|].
  exact (cli_compositor_skips_oversized_only plain_external
           (solid 1200 1200 "RGB" ∅ [1; 2; 3]) 1200 None empty_world world' r
           Hrun).
Defined.

(** ** Folder mode of [main], whatever the output folder                  *)

(** [mkdir(parents=True)] leaves every path as it was, except for the
    missing directories on the way to the one asked for, which it
    creates. *)
Lemma mkdir_prefixes_adds (todo : Path) :
  forall (f f' : gmap Path Node) (done q : Path),
    mkdir_prefixes f done todo = Ret f' ->
    f' !! q = f !! q \/
    (f !! q = None /\ f' !! q = Some Directory /\
     q `prefix_of` (done ++ todo)%list).
Proof.
  induction todo as [|c todo IH]; intros f f' done q; simpl.
  - intros [= <-]. left. reflexivity.
  - assert (Hpath : (done ++ c :: todo)%list = ((done ++ [c]) ++ todo)%list)
      by (rewrite <- app_assoc; reflexivity).
    rewrite Hpath.
    destruct (f !! (done ++ [c])%list) as [[| |]|] eqn:Hl; try discriminate.
    + intros Hrec. exact (IH _ _ _ q Hrec).
    + intros Hrec.
      destruct (IH _ _ _ q Hrec) as [Hsame|(Hnone & Hdir & Hpre)].
      * destruct (decide (q = (done ++ [c])%list)) as [->|Hne].
        -- right. rewrite lookup_insert_eq in Hsame.
           split; [exact Hl|]. split; [exact Hsame|].
           exists todo. reflexivity.
        -- left. rewrite lookup_insert_ne in Hsame by congruence.
           exact Hsame.
      * destruct (decide (q = (done ++ [c])%list)) as [->|Hne].
        -- rewrite lookup_insert_eq in Hnone. discriminate Hnone.
        -- right. rewrite lookup_insert_ne in Hnone by congruence. auto.
Qed.

(** [main] in folder mode leaves the files as they were, or makes the
    output folder where it is missing and runs the loop. *)
Lemma main_folder_fs (ext : External) (args : Cli.Args) (world world' : World)
    (r : Outcome unit) :
  library_returns ext ->
  path_exists (fs world) (Cli.arg_input args) = true ->
  is_file (fs world) (Cli.arg_input args) = false ->
  Cli.main ext args world = (r, world') ->
  fs world' = fs world \/
  exists bg_color,
    Cli.parse_color (Cli.arg_bg args) = Ret bg_color /\
    made_or_written (Cli.arg_output args) (Cli.arg_size args) bg_color
      (fs world) (fs world').
Proof.
  intros Hlib Hin Hnofile.
  unfold Cli.main, bind at 1, try_except_class, lift.
  destruct (Cli.parse_color (Cli.arg_bg args)) as [bg_color|e|s] eqn:Hparse.
  2:{ destruct (String.eqb (exn_class e) "ValueError");
        intros H; injection H as _ <-; left; reflexivity. }
  2:{ intros H; injection H as _ <-. left. reflexivity. }
  erewrite bind_ret_at; [|reflexivity].
  rewrite Hin, Hnofile.
  change (negb true) with false. cbv iota.
  assert (Hloop : forall w1 : World,
            (forall q, fs w1 !! q = fs world !! q \/
                       (fs world !! q = None /\ fs w1 !! q = Some Directory /\
                        q `prefix_of` Cli.arg_output args)) ->
            bind get_world
              (fun w =>
                 bind (for_each (listdir (fs w) (Cli.arg_input args))
                         (Cli.folder_step ext (Cli.arg_output args)
                            (Cli.arg_size args) bg_color) (0, 0))
                   (fun x => let '(processed, skipped) := x in
                      logger_info
                        "Processing complete: {} processed, {} skipped"
                        [AInt processed; AInt skipped])) w1 = (r, world') ->
            made_or_written (Cli.arg_output args) (Cli.arg_size args) bg_color
              (fs world) (fs world')).
  { intros w1 Hmade.
    erewrite bind_ret_at; [|reflexivity].
    destruct (folder_loop_counts_from ext (Cli.arg_output args)
                (Cli.arg_size args) bg_color
                (listdir (fs w1) (Cli.arg_input args)) 0 0 w1 Hlib
                (listdir_exists _ _))
      as (p & s & wl & Hrun & _ & _ & _ & _ & Houtside & _).
    erewrite bind_ret_at; [|exact Hrun]. cbv beta iota.
    intros H. injection H as _ <-. cbn [fs].
    exists (fs w1). split; [exact Hmade|]. split; [exact Houtside|].
    intros q. exact (folder_loop_writes ext _ _ _ _ _ _ _ _ q Hlib Hrun). }
  destruct (path_exists (fs world) (Cli.arg_output args)) eqn:Hex.
  - change (negb true) with false. cbv iota.
    destruct (is_dir (fs world) (Cli.arg_output args)) eqn:Hdir.
    + change (negb true) with false. cbv iota.
      erewrite bind_ret_at; [|reflexivity].
      intros Hrun. right. exists bg_color. split; [reflexivity|].
      apply (Hloop world); [|exact Hrun]. intros q. left. reflexivity.
    + change (negb false) with true. cbv iota.
      intros H. left. revert H.
      unfold bind, logger_error, logger, sys_exit.
      intros H. injection H as _ <-. reflexivity.
  - change (negb false) with true. cbv iota.
    destruct (mkdir_parents_cases (Cli.arg_output args) world)
      as [(f & Hmk & Hrun)|[e Hrun]].
    + erewrite bind_ret_at; [|exact Hrun].
      intros Hmain. right. exists bg_color. split; [reflexivity|].
      apply (Hloop (mk_world f (log world) (io world))); [|exact Hmain].
      intros q. cbn [fs].
      exact (mkdir_prefixes_adds _ _ _ [] q Hmk).
    + erewrite bind_raise_at; [|exact Hrun].
      intros H. injection H as _ <-. left. reflexivity.
Qed.

(** X8.  Folder mode of [main] (an input path that exists and is no
    regular file) writes into the output folder only, apart from making
    that folder: a path that is not an entry of the output folder holds
    after the run what it held before, unless it is the output folder or
    one of its ancestors, was missing before the run and is a directory
    after it. *)
Theorem main_folder_writes_output_only (ext : External) (args : Cli.Args)
    (world world' : World) (r : Outcome unit) (p : Path) :
  library_returns ext ->
  path_exists (fs world) (Cli.arg_input args) = true ->
  is_file (fs world) (Cli.arg_input args) = false ->
  Cli.main ext args world = (r, world') ->
  parent p <> Cli.arg_output args ->
  fs world' !! p = fs world !! p \/
  (fs world !! p = None /\ fs world' !! p = Some Directory /\
   p `prefix_of` Cli.arg_output args).
Proof.
  intros Hlib Hin Hnofile Hmain Hp.
  destruct (main_folder_fs ext args world world' r Hlib Hin Hnofile Hmain)
    as [->|(bg_color & _ & made & Hmade & Houtside & _)];
    [left; reflexivity|].
  pose proof (Houtside p Hp) as Hloop.
  destruct (Hmade p) as [E|(Hnone & Hdir & Hpre)].
  - left. exact (eq_trans Hloop E).
  - right. split; [exact Hnone|]. split; [exact (eq_trans Hloop Hdir)|].
    exact Hpre.
Qed.

Lemma main_folder_writes_output_only_witness :
  let image := solid 2 3 "RGB" ∅ [1; 2; 3] in
  let world :=
    mk_world {[ ["in"] := Directory;
                ["in"; "a.jpg"] := File (Encoded "JPEG" ∅ image) ]} [] [] in
  let args := Cli.mk_args ["in"] ["out"; "square"] 4 None in
  exists world',
    Cli.main plain_external args world = (Ret tt, world') /\
    fs world' !! ["in"; "a.jpg"] = fs world !! ["in"; "a.jpg"] /\
    (fs world' !! ["out"] = fs world !! ["out"] \/
     fs world' !! ["out"] = Some Directory).
Proof.
  intros image world args.
  destruct (Cli.main plain_external args world) as [r world'] eqn:Hrun.
  assert (Hr : r = Ret tt) by (vm_compute in Hrun; congruence).
  subst r. exists world'. split; [reflexivity|].
  assert (Hin : path_exists (fs world) (Cli.arg_input args) = true)
    by (vm_compute; reflexivity).
  assert (Hnofile : is_file (fs world) (Cli.arg_input args) = false)
    by (vm_compute; reflexivity).
  split.
  - destruct (main_folder_writes_output_only plain_external args world world'
                (Ret tt) ["in"; "a.jpg"] plain_external_returns Hin Hnofile
                Hrun) as [Hsame|(Hnone & _)].
    + vm_compute. intros H. discriminate H.
    + exact Hsame.
    + vm_compute in Hnone. discriminate Hnone.
  - destruct (main_folder_writes_output_only plain_external args world world'
                (Ret tt) ["out"] plain_external_returns Hin Hnofile Hrun)
      as [Hsame|(_ & Hdir & _)].
    + vm_compute. intros H. discriminate H.
    + left. exact Hsame.
    + right. exact Hdir.
Defined.

(** X22.  In folder mode [main] writes PNG only, apart from making the
    output folder: a path that does not hold after the run what it held
    before holds a square canvas of the canvas size, encoded as PNG (in
    mode RGBA without a background colour, RGB with one), or a file that
    a failed save has spoilt, or it is the output folder or one of its
    ancestors, was missing before the run and is a directory after it. *)
Theorem main_folder_writes_png_canvases (ext : External) (args : Cli.Args)
    (world world' : World) (r : Outcome unit) (p : Path) :
  library_returns ext ->
  path_exists (fs world) (Cli.arg_input args) = true ->
  is_file (fs world) (Cli.arg_input args) = false ->
  Cli.main ext args world = (r, world') ->
  fs world' !! p = fs world !! p \/
  fs world' !! p = Some (File Undecodable) \/
  (fs world !! p = None /\ fs world' !! p = Some Directory /\
   p `prefix_of` Cli.arg_output args) \/
  exists bg_color params canvas,
    Cli.parse_color (Cli.arg_bg args) = Ret bg_color /\
    fs world' !! p = Some (File (Encoded "PNG" params canvas)) /\
    width canvas = Cli.arg_size args /\ height canvas = Cli.arg_size args /\
    mode canvas = match bg_color with None => "RGBA" | Some _ => "RGB" end.
Proof.
  intros Hlib Hin Hnofile Hmain.
  destruct (main_folder_fs ext args world world' r Hlib Hin Hnofile Hmain)
    as [->|(bg_color & Hparse & made & Hmade & _ & Hwritten)];
    [left; reflexivity|].
  destruct (Hwritten p) as [Hkept|[Hspoilt|(params & canvas & Hcanvas)]].
  - destruct (Hmade p) as [E|(Hnone & Hdir & Hpre)].
    + left. exact (eq_trans Hkept E).
    + right. right. left. split; [exact Hnone|].
      split; [exact (eq_trans Hkept Hdir)|exact Hpre].
  - right. left. exact Hspoilt.
  - right. right. right. exists bg_color, params, canvas.
    split; [exact Hparse|]. exact Hcanvas.
Qed.

Lemma main_folder_writes_png_canvases_witness :
  let image := solid 2 3 "RGB" ∅ [1; 2; 3] in
  let world :=
    mk_world {[ ["in"] := Directory;
                ["in"; "a.webp"] := File (Encoded "WEBP" ∅ image) ]} [] [] in
  let args := Cli.mk_args ["in"] ["out"] 4 (Some "#fff") in
  exists world' params canvas,
    Cli.main plain_external args world = (Ret tt, world') /\
    fs world' !! ["out"; "a.png"]
      = Some (File (Encoded "PNG" params canvas)) /\
    width canvas = 4 /\ height canvas = 4 /\ mode canvas = "RGB".
Proof.
  intros image world args.
  destruct (Cli.main plain_external args world) as [r world'] eqn:Hrun.
  assert (Hr : r = Ret tt /\
               fs world' !! ["out"; "a.png"] <> fs world !! ["out"; "a.png"] /\
               fs world' !! ["out"; "a.png"] <> Some (File Undecodable) /\
               fs world' !! ["out"; "a.png"] <> Some Directory).
  { vm_compute in Hrun. injection Hrun as <- <-.
    split; [reflexivity|]. repeat split; vm_compute; discriminate. }
  destruct Hr as (-> & Hnew & Hgood & Hfile). exists world'.
  destruct (main_folder_writes_png_canvases plain_external args world world'
              (Ret tt) ["out"; "a.png"])
    as [Hsame|[Hbad|[(_ & Hdir & _)|
                     (bg_color & params & canvas & Hparse & Hfs & Hw & Hh
                      & Hm)]]].
  - exact plain_external_returns.
  - vm_compute. reflexivity.
  - vm_compute. reflexivity.
  - exact Hrun.
  - exfalso. exact (Hnew Hsame).
  - exfalso. exact (Hgood Hbad).
  - exfalso. exact (Hfile Hdir).
  - exists params, canvas. split; [reflexivity|]. split; [exact Hfs|].
    split; [exact Hw|]. split; [exact Hh|].
    assert (E : bg_color = Some (255, 255, 255))
      by (vm_compute in Hparse; congruence).
    rewrite E in Hm. exact Hm.
Defined.
